(** * Text-classifier strategies (src/text_classifier/strategies/multiclass.py)

    A shallow embedding of the three strategy classes of the module
    ([PyTorchLSTMStrategy], [TensorFlowLSTMStrategy],
    [ScikitLearnTFIDFStrategy]), of [TextDataset] and of the library
    calls their lifecycle methods are made of, followed by the
    properties of the lifecycle contract and of what the methods do
    besides.

    Conventions.
    - A Python object is a record; a method is a computation in the monad
      [M Σ] over the pair (object, file system).  An exception leaves the
      mutations made before it in place, as in Python.
    - Text is a [string] of bytes; case folding is the ASCII one.
    - Labels are strings, vocabulary indices are integers; a JSON file
      whose entries have another type is refused when it is loaded.
    - Directories and files are named by the path strings the program
      builds; a file can be written where its directory exists.
    - Numerical kernels (layers, optimisers, metrics) are the fields of
      the class [Backend]; nothing is assumed about them except the
      shapes the layers keep and the range of [argmax] and of the linear
      classifier's decision.

    Layout: the libraries as the program uses them ([Keras],
    [LabelEncoder], [Torch], [KerasModel], [Pipeline], [Onnx], the file
    system), the three classes, a small instance of the kernels for the
    examples, the vocabulary of the properties, and the properties. *)

From stdpp Require Import gmap strings list fin_maps pretty sorting.
From Stdlib Require Import ZArith Ascii Lia.

Local Open Scope Z_scope.
Local Open Scope stdpp_scope.

(** ** Python values and exceptions *)

(** The values that are integers in one place and strings in another:
    the entries of a JSON object, and the targets a scikit-learn classifier
    is fit on and predicts. *)
Inductive pyval :=
| PInt (z : Z)
| PStr (s : string).

Global Instance pyval_eq_dec : EqDecision pyval.
Proof. solve_decision. Defined.

Inductive exn :=
| RuntimeError (msg : string)
| AttributeError (msg : string)
| ValueError (msg : string)
| TypeError (msg : string)
| KeyError (key : string)
| IndexError (msg : string)
| FileNotFoundError (path : string)
| FileExistsError (path : string)
| IsADirectoryError (path : string)
| NotADirectoryError (path : string)
| ZeroDivisionError
| NotFittedError (msg : string)
| UnpicklingError (path : string)
| JSONDecodeError (path : string).

Global Instance exn_eq_dec : EqDecision exn.
Proof. solve_decision. Defined.

Inductive outcome (A : Type) :=
| Return (a : A)
| Raise (e : exn).
Global Arguments Return {A} a.
Global Arguments Raise {A} e.

Global Instance outcome_ret : MRet outcome := λ A a, Return a.
Global Instance outcome_bind : MBind outcome := λ A B f m,
  match m with
  | Return a => f a
  | Raise e => Raise e
  end.
Global Instance outcome_fmap : FMap outcome := λ A B f m,
  match m with
  | Return a => Return (f a)
  | Raise e => Raise e
  end.

(** [[f(x) for x in l]] where [f] may raise: the first exception wins. *)
Fixpoint traverse {A B : Type} (f : A → outcome B) (l : list A) : outcome (list B) :=
  match l with
  | [] => Return []
  | x :: l' => y ← f x; ys ← traverse f l'; Return (y :: ys)
  end.

(** Computations on a mutable state [Σ] that may raise.  The state
    comes back with the exception: what was assigned before a [raise]
    stays assigned. *)
Definition M (Σ A : Type) : Type := Σ → outcome A * Σ.

Global Instance M_ret {Σ} : MRet (M Σ) := λ A a σ, (Return a, σ).
Global Instance M_bind {Σ} : MBind (M Σ) := λ A B k m σ,
  match m σ with
  | (Return a, σ') => k a σ'
  | (Raise e, σ') => (Raise e, σ')
  end.
Global Typeclasses Opaque M.

Module Py.
(** An in-place update of the whole state. *)
Definition modify {Σ} (f : Σ → Σ) : M Σ unit := λ σ, (Return tt, f σ).
(** [raise e] *)
Definition raise {Σ A} (e : exn) : M Σ A := λ σ, (Raise e, σ).
(** A pure expression that may raise. *)
Definition lift {Σ A} (o : outcome A) : M Σ A := λ σ, (o, σ).
(** Reading [self]. *)
Definition self {S W} : M (S * W) S := λ σ, (Return σ.1, σ).
(** An assignment to an attribute of [self]. *)
Definition assign {S W} (f : S → S) : M (S * W) unit := λ σ, (Return tt, (f σ.1, σ.2)).
(** An operation of the file system. *)
Definition io {S W A} (m : M W A) : M (S * W) A := λ σ,
  let '(o, w) := m σ.2 in (o, (σ.1, w)).
End Py.

(** ** Strings *)

(** [f"{x}"] for an [Optional[str]]. *)
Definition fstr_opt (x : option string) : string :=
  match x with
  | Some s => s
  | None => "None"
  end.

(** [str(i)] for a non-negative integer. *)
Definition py_str_nat (i : nat) : string := pretty i.

Definition ascii_lower (c : ascii) : ascii :=
  let n := nat_of_ascii c in
  if ((65 <=? n) && (n <=? 90))%nat then ascii_of_nat (n + 32) else c.

(** [str.lower] on ASCII text. *)
Fixpoint py_lower (s : string) : string :=
  match s with
  | EmptyString => EmptyString
  | String c s' => String (ascii_lower c) (py_lower s')
  end.

(** [s.split(sep)] with an explicit one-character separator. *)
Fixpoint py_split (sep : ascii) (s : string) : list string :=
  match s with
  | EmptyString => [EmptyString]
  | String c s' =>
      if Ascii.eqb c sep then EmptyString :: py_split sep s'
      else match py_split sep s' with
           | w :: ws => String c w :: ws
           | [] => [String c EmptyString]
           end
  end.

(** [s.translate] with a table sending every character of [filters] to
    [sep]. *)
Fixpoint py_translate (filtered : ascii → bool) (sep : ascii) (s : string) : string :=
  match s with
  | EmptyString => EmptyString
  | String c s' =>
      String (if filtered c then sep else c) (py_translate filtered sep s')
  end.

Fixpoint string_drop (n : nat) (s : string) : string :=
  match n, s with
  | O, _ => s
  | S n', String _ s' => string_drop n' s'
  | S _, EmptyString => EmptyString
  end.

(** [s[:n]] *)
Fixpoint string_take (n : nat) (s : string) : string :=
  match n, s with
  | S n', String c s' => String c (string_take n' s')
  | _, _ => EmptyString
  end.

(** [s.endswith(t)] *)
Definition ends_with (t s : string) : bool :=
  bool_decide (string_drop (String.length s - String.length t) s = t).

(** ** keras.preprocessing.text *)

Module Keras.

(** The default [filters] of [Tokenizer] and [text_to_word_sequence]:
    the ASCII punctuation without the apostrophe, the tab and the
    newline. *)
Definition default_filters (c : ascii) : bool :=
  let n := nat_of_ascii c in
  (((33 <=? n) && (n <=? 47) && negb (n =? 39))
   || ((58 <=? n) && (n <=? 64))
   || ((91 <=? n) && (n <=? 96))
   || ((123 <=? n) && (n <=? 126))
   || (n =? 9) || (n =? 10))%nat.

(** [text_to_word_sequence(text)] with the defaults [lower=True],
    [split=" "]. *)
Definition text_to_word_sequence (text : string) : list string :=
  let text := py_lower text in
  let text := py_translate default_filters " "%char text in
  filter (λ w, w ≠ EmptyString) (py_split " "%char text).

(** [Tokenizer]: the attributes the program reads or writes.
    [word_counts] is an [OrderedDict], kept in insertion order. *)
Record Tokenizer := {
  num_words : Z;
  oov_token : option string;
  word_counts : list (string * Z);
  word_index : gmap string Z;
}.

(** [Tokenizer(num_words=num_words, oov_token=oov_token)] *)
Definition Tokenizer_init (num_words : Z) (oov_token : string) : Tokenizer :=
  {| num_words := num_words; oov_token := Some oov_token;
     word_counts := []; word_index := ∅ |}.

(** [tokenizer.word_index = d] *)
Definition set_word_index (d : gmap string Z) (tok : Tokenizer) : Tokenizer :=
  {| num_words := num_words tok; oov_token := oov_token tok;
     word_counts := word_counts tok; word_index := d |}.

(** [word_counts[w] += 1], or [= 1] for a new word (appended). *)
Fixpoint count_word (w : string) (wc : list (string * Z)) : list (string * Z) :=
  match wc with
  | [] => [(w, 1)]
  | (w', c) :: wc' =>
      if decide (w' = w) then (w', c + 1) :: wc' else (w', c) :: count_word w wc'
  end.

(** One step of the stable sort by decreasing count: the new entry goes
    behind every entry whose count is at least its own. *)
Fixpoint insert_by_count (e : string * Z) (l : list (string * Z)) : list (string * Z) :=
  match l with
  | [] => [e]
  | e' :: l' =>
      if e'.2 <? e.2 then e :: e' :: l' else e' :: insert_by_count e l'
  end.

(** [wcounts.sort(key=lambda x: x[1], reverse=True)] *)
Definition sort_by_count (l : list (string * Z)) : list (string * Z) :=
  foldl (λ acc e, insert_by_count e acc) [] l.

(** [dict(zip(keys, range(start, ...)))] added to [d]: a later pair
    overwrites an earlier one with the same key. *)
Fixpoint dict_zip_from (start : Z) (keys : list string) (d : gmap string Z)
    : gmap string Z :=
  match keys with
  | [] => d
  | k :: keys' => dict_zip_from (start + 1) keys' (<[k := start]> d)
  end.

(** [Tokenizer.fit_on_texts(texts)].  The document statistics
    ([word_docs], [index_docs], [document_count], [index_word]) are not
    read by the program and are left out. *)
Definition fit_on_texts (texts : list string) (tok : Tokenizer) : Tokenizer :=
  let wc :=
    foldl (λ wc text, foldl (λ wc w, count_word w wc) wc (text_to_word_sequence text))
          (word_counts tok) texts in
  let wcounts := sort_by_count wc in
  let sorted_voc :=
    match oov_token tok with
    | None => []
    | Some t => [t]
    end ++ wcounts.*1 in
  {| num_words := num_words tok; oov_token := oov_token tok;
     word_counts := wc;
     word_index := dict_zip_from 1 sorted_voc ∅ |}.

(** [oov_token_index = self.word_index.get(self.oov_token)] *)
Definition oov_token_index (tok : Tokenizer) : option Z :=
  t ← oov_token tok; word_index tok !! t.

(** The body of the loop [for w in seq] of
    [texts_to_sequences_generator]: what one word appends to [vect].
    An entry [None] is Python's [None], appended when the
    out-of-vocabulary token has no index. *)
Definition word_to_ids (tok : Tokenizer) (w : string) : list (option Z) :=
  match word_index tok !! w with
  | Some i =>
      if bool_decide (num_words tok ≠ 0) && (num_words tok <=? i) then
        match oov_token_index tok with
        | Some v => [Some v]
        | None => []
        end
      else [Some i]
  | None =>
      match oov_token tok with
      | Some _ => [oov_token_index tok]
      | None => []
      end
  end.

(** [Tokenizer.texts_to_sequences(texts)] *)
Definition texts_to_sequences (tok : Tokenizer) (texts : list string)
    : list (list (option Z)) :=
  (λ text, text_to_word_sequence text ≫= word_to_ids tok) <$> texts.

(** ** keras.preprocessing.sequence *)

Inductive side := pre | post.

(** [np.asarray(trunc, dtype="int32")] on a list of token indices. *)
Definition as_int32 (l : list (option Z)) : outcome (list Z) :=
  traverse (λ v,
    match v with
    | Some z => Return z
    | None => Raise (TypeError "int() argument must be a number, not 'NoneType'")
    end) l.

(** [target[...] = src] for one-dimensional arrays, [target] having
    [n] entries: the shapes must agree, or [src] has one entry, which
    is broadcast. *)
Definition np_assign (n : nat) (src : list Z) : outcome (list Z) :=
  if decide (length src = n) then Return src
  else match src with
       | [v] => Return (replicate n v)
       | _ => Raise (ValueError "could not broadcast input array")
       end.

(** [s[-n:]] *)
Definition slice_last {A} (n : nat) (s : list A) : list A :=
  if decide (n = 0%nat) then s else drop (length s - n) s.

(** One row of [pad_sequences]: the row starts as [n] copies of
    [value = 0] and receives the truncated sequence. *)
Definition pad_row (n : nat) (padding truncating : side) (s : list (option Z))
    : outcome (list Z) :=
  match s with
  | [] => Return (replicate n 0)
  | _ =>
      let trunc :=
        match truncating with
        | pre => slice_last n s
        | post => take n s
        end in
      trunc ← as_int32 trunc;
      let k := length trunc in
      match padding with
      | post =>
          (* x[idx, :len(trunc)] = trunc *)
          let m := (k `min` n)%nat in
          v ← np_assign m trunc; Return (v ++ replicate (n - m) 0)
      | pre =>
          (* x[idx, -len(trunc):] = trunc *)
          let m := if decide (k = 0%nat) then n else (k `min` n)%nat in
          v ← np_assign m trunc; Return (replicate (n - m) 0 ++ v)
      end
  end.

(** [pad_sequences(sequences, maxlen=maxlen, padding=padding,
    truncating=truncating)]; the library's defaults are
    [padding="pre"], [truncating="pre"], [value=0]. *)
Definition pad_sequences (sequences : list (list (option Z))) (maxlen : Z)
    (padding truncating : side) : outcome (list (list Z)) :=
  if maxlen <? 0 then Raise (ValueError "negative dimensions are not allowed")
  else traverse (pad_row (Z.to_nat maxlen) padding truncating) sequences.

(** The out-of-vocabulary token, when there is one, has an index. *)
Definition oov_indexed (tok : Tokenizer) : Prop :=
  match oov_token tok with
  | Some t => is_Some (word_index tok !! t)
  | None => True
  end.

Global Instance oov_indexed_dec tok : Decision (oov_indexed tok).
Proof. unfold oov_indexed. destruct (oov_token tok); apply _. Defined.

End Keras.

(** The expression shared by [train] (lines 106-115, 256-265) and
    [PyTorchLSTMStrategy.predict] (lines 164-165):
    [pad_sequences(tokenizer.texts_to_sequences(X), maxlen=max_len,
    padding="post")].  [truncating] is not passed and keeps its default. *)
Definition encode_texts (tokenizer : Keras.Tokenizer) (max_len : Z) (X : list string)
    : outcome (list (list Z)) :=
  Keras.pad_sequences (Keras.texts_to_sequences tokenizer X) max_len Keras.post Keras.pre.

(** ** sklearn.preprocessing.LabelEncoder *)

Module LabelEncoder.

(** [classes_ = None]: the attribute does not exist yet (the encoder
    was never fitted).  An array of labels is the list of its strings;
    its dtype is the one numpy gives an array made of these strings, as
    wide as the longest of them. *)
Record LabelEncoder := { classes_ : option (list string) }.

Definition init : LabelEncoder := {| classes_ := None |}.

(** [np.unique(y)]: the distinct labels in increasing order. *)
Definition np_unique (y : list string) : list string :=
  merge_sort String.le (remove_dups y).

(** The table [{val: i for i, val in enumerate(uniques)}]. *)
Definition class_table (uniques : list string) : gmap string nat :=
  foldl (λ d p, <[p.2 := p.1]> d) ∅ (imap pair uniques).

(** [_encode(y, uniques=classes)] *)
Definition encode (classes : list string) (y : list string) : outcome (list Z) :=
  traverse (λ v,
    match class_table classes !! v with
    | Some i => Return (Z.of_nat i)
    | None => Raise (ValueError "y contains previously unseen labels")
    end) y.

(** The width of the string dtype of the array [classes] ([<U3] when
    its longest label has three characters); numpy gives a string
    dtype at least the width 1. *)
Definition dtype_width (classes : list string) : nat :=
  foldr Nat.max 1%nat (String.length <$> classes).

(** [column_or_1d(y, dtype=classes.dtype)]: the labels are converted to
    the dtype of [classes], which cuts a longer string to its width. *)
Definition as_dtype_of (classes : list string) (y : list string) : list string :=
  string_take (dtype_width classes) <$> y.

(** [le.transform(y)]: the labels are converted to the dtype of
    [classes_] before they are looked up. *)
Definition transform (y : list string) (le : LabelEncoder) : outcome (list Z) :=
  match classes_ le with
  | None => Raise (NotFittedError "This LabelEncoder instance is not fitted yet")
  | Some classes => encode classes (as_dtype_of classes y)
  end.

(** [le.fit_transform(y)]: the encoder after the call and the
    encoded labels. *)
Definition fit_transform (y : list string) : LabelEncoder * outcome (list Z) :=
  let classes := np_unique y in
  ({| classes_ := Some classes |}, encode classes y).

End LabelEncoder.

(** ** Numerical kernels *)

(** What the program delegates to torch, Keras, scikit-learn and the
    metrics functions.  Random initialisation and shuffling are
    functions of their arguments here: the random state is not
    modelled. *)
Class Backend := {
  scalar : Type;
  (** [np.argmax] / [torch.argmax] of one non-empty row *)
  argmax : list scalar → nat;
  argmax_lt row : row ≠ [] → (argmax row < length row)%nat;

  (** torch.nn: the parameter tensors of [TextClassifier] and its layers *)
  torch_params : Type;
  torch_init_params : Z → Z → Z → Z → torch_params;
  nn_embedding : torch_params → list (list Z) → list (list (list scalar));
  nn_lstm : torch_params → list (list (list scalar)) → list (list (list scalar));
  (** both keep the batch size and the number of time steps of each row
      ([batch_first=True]) *)
  nn_embedding_shape p (ids : list (list Z)) :
    length <$> nn_embedding p ids = length <$> ids;
  nn_lstm_shape p (x : list (list (list scalar))) :
    length <$> nn_lstm p x = length <$> x;
  nn_dropout : bool → list (list scalar) → list (list scalar);
  nn_fc1 : torch_params → list (list scalar) → list (list scalar);
  nn_relu : list (list scalar) → list (list scalar);
  nn_fc2 : torch_params → list (list scalar) → list (list scalar);
  (** the parameters after the ten epochs of Adam steps of lines 131-145 *)
  torch_fit : torch_params → list (list Z) → list Z → torch_params;
  (** the parameters of a module after [load_state_dict] has copied,
      of the saved tensors of the given shapes, those whose shape is the
      module's own: [torch_copy_matching saved_shape saved shape params] *)
  torch_copy_matching :
    Z * Z * Z * Z → torch_params → Z * Z * Z * Z → torch_params → torch_params;

  (** Keras: the weights of a compiled [Model], [fit] and [predict] *)
  keras_params : Type;
  keras_init_params : Z → Z → Z → keras_params;
  keras_fit :
    keras_params → list (list Z) → list Z → list (list Z) → list Z → keras_params;
  keras_predict : keras_params → list (list Z) → outcome (list (list scalar));

  (** scikit-learn: the fitted numbers of the pipeline ([idf_], [coef_],
      [intercept_]), the vocabulary [TfidfVectorizer] builds, and the
      position in [classes_] that [LogisticRegression.predict] picks *)
  sk_params : Type;
  tfidf_vocabulary : Z → list string → gmap string Z;
  pipeline_fit_params : Z → Z → list string → list Z → sk_params;
  pipeline_decision : sk_params → gmap string Z → nat → string → nat;
  pipeline_decision_lt p v n x : (0 < n)%nat → (pipeline_decision p v n x < n)%nat;

  (** sklearn.metrics *)
  accuracy_score : list pyval → list pyval → scalar;
  classification_report : list pyval → list pyval → list string → outcome string;
}.

(** The dictionary every [train] returns. *)
Record Metrics `{Backend} := {
  train_accuracy : scalar;
  test_accuracy : scalar;
  report : string;
}.

(** ** torch *)

Module Torch.
Section torch.
Context `{Backend}.

(** An instance of the class [TextClassifier] of [_build_model]
    (lines 67-91): its constructor arguments, its parameters and the
    [training] flag of [nn.Module]. *)
Record TextClassifier := {
  tc_vocab_size : Z;
  tc_embedding_dim : Z;
  tc_hidden_dim : Z;
  tc_num_classes : Z;
  tc_params : torch_params;
  tc_training : bool;
}.

(** [TextClassifier(vocab_size, embedding_dim, hidden_dim, num_classes)] *)
Definition TextClassifier_init (vocab_size embedding_dim hidden_dim num_classes : Z)
    : TextClassifier :=
  {| tc_vocab_size := vocab_size; tc_embedding_dim := embedding_dim;
     tc_hidden_dim := hidden_dim; tc_num_classes := num_classes;
     tc_params := torch_init_params vocab_size embedding_dim hidden_dim num_classes;
     tc_training := true |}.

(** [module.train()] and [module.eval()] *)
Definition set_training (b : bool) (m : TextClassifier) : TextClassifier :=
  {| tc_vocab_size := tc_vocab_size m; tc_embedding_dim := tc_embedding_dim m;
     tc_hidden_dim := tc_hidden_dim m; tc_num_classes := tc_num_classes m;
     tc_params := tc_params m; tc_training := b |}.

Definition set_params (p : torch_params) (m : TextClassifier) : TextClassifier :=
  {| tc_vocab_size := tc_vocab_size m; tc_embedding_dim := tc_embedding_dim m;
     tc_hidden_dim := tc_hidden_dim m; tc_num_classes := tc_num_classes m;
     tc_params := p; tc_training := tc_training m |}.

(** [x[:, t, :]] on a batch of sequences of vectors. *)
Definition select_time (t : nat) (x : list (list (list scalar)))
    : outcome (list (list scalar)) :=
  traverse (λ row : list (list scalar),
    match row !! t with
    | Some v => Return v
    | None => Raise (IndexError "index out of bounds for dimension 1")
    end) x.

(** [TextClassifier.forward] (lines 85-91) *)
Definition forward (self : TextClassifier) (input_ids : list (list Z))
    : outcome (list (list scalar)) :=
  let x := nn_embedding (tc_params self) input_ids in
  let x := nn_lstm (tc_params self) x in
  x ← select_time 0 x;
  let x := nn_dropout (tc_training self) x in
  let x := nn_relu (nn_fc1 (tc_params self) x) in
  Return (nn_fc2 (tc_params self) x).

(** [torch.argmax(outputs, dim=1)] *)
Definition argmax_dim1 (outputs : list (list scalar)) : outcome (list Z) :=
  traverse (λ row : list scalar,
    match row with
    | [] => Raise (IndexError "argmax(): expected reduction dim 1 to have non-zero size")
    | _ => Return (Z.of_nat (argmax row))
    end) outputs.

(** [module.state_dict()]: the parameters with their shapes. *)
Record state_dict := {
  sd_shape : Z * Z * Z * Z;
  sd_params : torch_params;
}.

Definition shape_of (m : TextClassifier) : Z * Z * Z * Z :=
  (tc_vocab_size m, tc_embedding_dim m, tc_hidden_dim m, tc_num_classes m).

Definition get_state_dict (m : TextClassifier) : state_dict :=
  {| sd_shape := shape_of m; sd_params := tc_params m |}.

(** [module.load_state_dict(sd)]: strict, the shapes must agree. *)
Definition load_state_dict (sd : state_dict) (m : TextClassifier)
    : outcome TextClassifier :=
  if decide (sd_shape sd = shape_of m) then Return (set_params (sd_params sd) m)
  else Raise (RuntimeError "Error(s) in loading state_dict for TextClassifier").

(** The module a refused [load_state_dict(sd)] leaves: the tensors of
    [sd] whose shapes match were copied in place before the error was
    raised. *)
Definition partly_loaded (sd : state_dict) (m : TextClassifier) : TextClassifier :=
  set_params (torch_copy_matching (sd_shape sd) (sd_params sd) (shape_of m) (tc_params m)) m.
End torch.
End Torch.

(** ** Keras models *)

Module KerasModel.
Section keras.
Context `{Backend}.

(** A functional [Model] with one input and one output layer. *)
Record Model := {
  input_name : string;
  input_length : Z;
  output_name : string;
  output_units : Z;
  weights : keras_params;
}.

(** [np.argmax(a, axis=1)] *)
Definition argmax_axis1 (a : list (list scalar)) : outcome (list Z) :=
  traverse (λ row : list scalar,
    match row with
    | [] => Raise (ValueError "attempt to get argmax of an empty sequence")
    | _ => Return (Z.of_nat (argmax row))
    end) a.
End keras.
End KerasModel.

(** ** sklearn.pipeline *)

Module Pipeline.
Section pipeline.
Context `{Backend}.

(** [Pipeline([("tfidf", TfidfVectorizer(max_features=...)),
    ("clf", LogisticRegression(max_iter=...))])].  An attribute ending
    in an underscore is [None] until [fit] creates it. *)
Record Pipeline := {
  max_features : Z;
  max_iter : Z;
  vocabulary_ : option (gmap string Z);
  clf_classes_ : option (list pyval);
  fitted_params : option sk_params;
}.

Definition init (max_features max_iter : Z) : Pipeline :=
  {| max_features := max_features; max_iter := max_iter;
     vocabulary_ := None; clf_classes_ := None; fitted_params := None |}.

(** [pipeline.named_steps["tfidf"].vocabulary_ = vocab] *)
Definition set_vocabulary (vocab : gmap string Z) (p : Pipeline) : Pipeline :=
  {| max_features := max_features p; max_iter := max_iter p;
     vocabulary_ := Some vocab; clf_classes_ := clf_classes_ p;
     fitted_params := fitted_params p |}.

(** [np.unique(y)] for integer targets. *)
Definition np_unique (y : list Z) : list Z := merge_sort Z.le (remove_dups y).

(** [pipeline.fit(X, y)] for integer targets [y], as a function to the
    pipeline after the call: the vectoriser learns its vocabulary;
    then the classifier checks that there are as many targets as
    samples and learns its [classes_] (the distinct targets) and its
    coefficients.  The solver refuses fewer than two classes.  (A
    corpus in which the vectoriser finds no token at all, which it
    refuses, is not told apart here.) *)
Definition fit (X : list string) (y : list Z) : M Pipeline unit := λ p,
  let p :=
    {| max_features := max_features p; max_iter := max_iter p;
       vocabulary_ := Some (tfidf_vocabulary (max_features p) X);
       clf_classes_ := clf_classes_ p; fitted_params := fitted_params p |} in
  let classes := np_unique y in
  if decide (length X ≠ length y) then
    (Raise (ValueError "Found input variables with inconsistent numbers of samples"), p)
  else if decide (length classes < 2)%nat then
    (Raise (ValueError "This solver needs samples of at least 2 classes in the data"), p)
  else
    (Return tt,
     {| max_features := max_features p; max_iter := max_iter p;
        vocabulary_ := vocabulary_ p;
        clf_classes_ := Some (PInt <$> classes);
        fitted_params :=
          Some (pipeline_fit_params (max_features p) (max_iter p) X y) |}).

(** [pipeline.predict(X)]: [classes_[indices]] of the classifier.  The
    input validation of the steps refuses an input without samples. *)
Definition predict (X : list string) (p : Pipeline) : outcome (list pyval) :=
  match vocabulary_ p, clf_classes_ p, fitted_params p with
  | Some vocab, Some classes, Some params =>
      if decide (X = []) then
        Raise (ValueError "Found array with 0 sample(s) while a minimum of 1 is required")
      else
        traverse (λ x,
          match classes !! pipeline_decision params vocab (length classes) x with
          | Some c => Return c
          | None => Raise (IndexError "index out of bounds")
          end) X
  | _, _, _ => Raise (NotFittedError "This Pipeline instance is not fitted yet")
  end.
End pipeline.
End Pipeline.

(** ** ONNX graphs and the three converters *)

Module Onnx.
Section onnx.
Context `{Backend}.

(** A dimension of a declared tensor: a number, or left open. *)
Inductive dim :=
| Fixed (n : Z)
| Dynamic.

Record tensor_decl := {
  tensor_name : string;
  tensor_shape : list dim;
}.

Inductive source :=
| FromTorch (m : Torch.TextClassifier)
| FromKeras (m : KerasModel.Model)
| FromSklearn (p : Pipeline.Pipeline).

(** The declarations of a [ModelProto] and the model it was made from. *)
Record graph := {
  graph_inputs : list tensor_decl;
  graph_outputs : list tensor_decl;
  opset : Z;
  converted_from : source;
}.

(** [torch.onnx.export(model, dummy_input, path, input_names=...,
    output_names=..., dynamic_axes=..., opset_version=...)] for a
    module with one input of shape [dummy_shape] and one output of
    shape [(batch, num_classes)]: the names are the given ones, axis
    0 is left open where [dynamic_axes] lists it for that name. *)
Definition torch_onnx_export (m : Torch.TextClassifier) (dummy_shape : list Z)
    (input_name output_name : string) (dynamic_axis0 : list string)
    (opset_version : Z) : graph :=
  let open_axis0 (name : string) (shape : list Z) :=
    match shape with
    | d :: shape' =>
        (if bool_decide (name ∈ dynamic_axis0) then Dynamic else Fixed d)
        :: (Fixed <$> shape')
    | [] => []
    end in
  {| graph_inputs :=
       [{| tensor_name := input_name;
           tensor_shape := open_axis0 input_name dummy_shape |}];
     graph_outputs :=
       [{| tensor_name := output_name;
           tensor_shape :=
             open_axis0 output_name
               (default 1 (head dummy_shape) :: [Torch.tc_num_classes m]) |}];
     opset := opset_version;
     converted_from := FromTorch m |}.

(** [tf2onnx.convert.from_keras(model, input_signature=(tf.TensorSpec(
    shape, tf.int32, name=name),), opset=opset)]: the input is declared
    by the signature, the output carries the name of the model's
    output layer. *)
Definition tf2onnx_from_keras (m : KerasModel.Model) (spec_name : string)
    (spec_shape : list dim) (opset : Z) : graph :=
  {| graph_inputs := [{| tensor_name := spec_name; tensor_shape := spec_shape |}];
     graph_outputs :=
       [{| tensor_name := KerasModel.output_name m;
           tensor_shape :=
             default Dynamic (head spec_shape) :: [Fixed (KerasModel.output_units m)] |}];
     opset := opset;
     converted_from := FromKeras m |}.

(** [skl2onnx.convert_sklearn(pipeline, initial_types=[(name,
    StringTensorType(shape))], target_opset=opset)] for a pipeline
    ending in a classifier.  [final_types] is not passed: the
    converter gives a classifier's two outputs its own names,
    [output_label] and [output_probability]. *)
Definition convert_sklearn (p : Pipeline.Pipeline) (name : string)
    (shape : list dim) (target_opset : Z) : outcome graph :=
  match Pipeline.clf_classes_ p with
  | None =>
      Raise (AttributeError "'LogisticRegression' object has no attribute 'classes_'")
  | Some _ =>
      Return {| graph_inputs := [{| tensor_name := name; tensor_shape := shape |}];
                graph_outputs :=
                  [{| tensor_name := "output_label"; tensor_shape := shape |};
                   {| tensor_name := "output_probability"; tensor_shape := shape |}];
                opset := target_opset;
                converted_from := FromSklearn p |}
  end.
End onnx.
End Onnx.
(** ** The file system *)

Section filesystem.
Context `{Backend}.

(** What a file holds: the object a serialiser wrote, a JSON object, or
    nothing yet (a file just opened for writing). *)
Inductive artifact :=
| EmptyFile
| TorchFile (sd : Torch.state_dict)
| KerasFile (m : KerasModel.Model)
| JoblibFile (p : Pipeline.Pipeline)
| JsonFile (d : gmap string pyval)
| OnnxFile (g : Onnx.graph).

(** Directories and files are named by the path string the program
    uses; the empty path is the working directory. *)
Record FileSystem := {
  fs_dirs : gset string;
  fs_files : gmap string artifact;
}.

Fixpoint drop_while {A} (f : A → bool) (l : list A) : list A :=
  match l with
  | [] => []
  | x :: l' => if f x then drop_while f l' else l
  end.

Definition is_slash (c : ascii) : bool := Ascii.eqb c "/"%char.

(** [os.path.dirname(p)] (posixpath): everything up to the last slash,
    without trailing slashes unless it consists of slashes only. *)
Definition dirname (p : string) : string :=
  let head := drop_while (λ c, negb (is_slash c)) (reverse (String.list_ascii_of_string p)) in
  if forallb is_slash head then String.string_of_list_ascii (reverse head)
  else String.string_of_list_ascii (reverse (drop_while is_slash head)).

Definition isdir (fs : FileSystem) (d : string) : bool :=
  bool_decide (d = EmptyString) || bool_decide (d ∈ fs_dirs fs).

(** [name] and the directories above it. *)
Fixpoint ancestors (fuel : nat) (name : string) : gset string :=
  match fuel with
  | O => ∅
  | S fuel' =>
      if decide (name = EmptyString) then ∅
      else {[ name ]} ∪ (if decide (dirname name = name) then ∅
                         else ancestors fuel' (dirname name))
  end.

(** [os.path.exists(p)] *)
Definition exists_path (fs : FileSystem) (p : string) : bool :=
  isdir fs p || bool_decide (is_Some (fs_files fs !! p)).

(** A regular file stands where [name] or a directory above it should
    be. *)
Definition file_in_the_way (fs : FileSystem) (name : string) : Prop :=
  set_Exists (λ d, is_Some (fs_files fs !! d)) (ancestors (S (String.length name)) name).

Global Instance file_in_the_way_dec fs name : Decision (file_in_the_way fs name).
Proof. unfold file_in_the_way. apply _. Defined.

(** [os.makedirs(name, exist_ok=True)]: it creates [name] and the
    missing directories above it; it refuses a name that is a regular
    file ([FileExistsError]) and a path through a regular file
    ([NotADirectoryError]), and has then created nothing. *)
Definition makedirs (name : string) : M FileSystem unit := λ fs,
  if decide (name = EmptyString) then (Raise (FileNotFoundError name), fs)
  else if decide (is_Some (fs_files fs !! name)) then (Raise (FileExistsError name), fs)
  else if decide (file_in_the_way fs name) then (Raise (NotADirectoryError name), fs)
  else (Return tt,
        {| fs_dirs := fs_dirs fs ∪ ancestors (S (String.length name)) name;
           fs_files := fs_files fs |}).

(** A path can be opened for writing when it is not a directory and its
    directory exists. *)
Definition writable (fs : FileSystem) (path : string) : Prop :=
  (path ∉ fs_dirs fs) ∧ isdir fs (dirname path) = true.

Global Instance writable_dec fs path : Decision (writable fs path).
Proof. unfold writable. apply _. Defined.

(** Creating or replacing the file at [path]: what [open(path, "w")]
    followed by a dump, [torch.save], [model.save], [joblib.dump] and
    [torch.onnx.export] do to the file system. *)
Definition write_file (path : string) (a : artifact) : M FileSystem unit := λ fs,
  if decide (path ∈ fs_dirs fs) then (Raise (IsADirectoryError path), fs)
  else if isdir fs (dirname path) then
    (Return tt, {| fs_dirs := fs_dirs fs; fs_files := <[path := a]> (fs_files fs) |})
  else (Raise (FileNotFoundError path), fs).

(** The file system after the file at [path] was (re)written. *)
Definition fs_write (path : string) (a : artifact) (fs : FileSystem) : FileSystem :=
  {| fs_dirs := fs_dirs fs; fs_files := <[path := a]> (fs_files fs) |}.

(** The file system after [makedirs name] succeeded. *)
Definition fs_mkdirs (name : string) (fs : FileSystem) : FileSystem :=
  {| fs_dirs := fs_dirs fs ∪ ancestors (S (String.length name)) name;
     fs_files := fs_files fs |}.

(** [model.save(path)] of Keras for a path ending in [.h5]: the HDF5
    writer creates the directory of [path] when nothing exists under
    that name, then opens the file. *)
Definition keras_save (path : string) (a : artifact) : M FileSystem unit := λ fs,
  ((if exists_path fs (dirname path) then mret tt else makedirs (dirname path));;
   write_file path a) fs.

(** The file system in which [model.save] of Keras opens the file:
    the one it found, or the one with the directory created. *)
Definition with_directory (d : string) (fs : FileSystem) : FileSystem :=
  if exists_path fs d then fs else fs_mkdirs d fs.

(** The file system after several files were written, first to last. *)
Definition fs_write_all (files : list (string * artifact)) (fs : FileSystem)
    : FileSystem :=
  foldl (λ fs pa, fs_write pa.1 pa.2 fs) fs files.

(** Opening the file at [path] for reading. *)
Definition read_file (path : string) : M FileSystem artifact := λ fs,
  match fs_files fs !! path with
  | Some a => (Return a, fs)
  | None =>
      if decide (path ∈ fs_dirs fs) then (Raise (IsADirectoryError path), fs)
      else (Raise (FileNotFoundError path), fs)
  end.

(** [torch.load(path)] *)
Definition torch_load (path : string) : M FileSystem Torch.state_dict :=
  a ← read_file path;
  match a with
  | TorchFile sd => mret sd
  | _ => Py.raise (UnpicklingError path)
  end.

(** [tf.keras.models.load_model(path)] *)
Definition keras_load_model (path : string) : M FileSystem KerasModel.Model :=
  a ← read_file path;
  match a with
  | KerasFile m => mret m
  | _ => Py.raise (UnpicklingError path)
  end.

(** [joblib.load(path)] *)
Definition joblib_load (path : string) : M FileSystem Pipeline.Pipeline :=
  a ← read_file path;
  match a with
  | JoblibFile p => mret p
  | _ => Py.raise (UnpicklingError path)
  end.

(** [with open(path, "r") as f: json.load(f)] *)
Definition json_load (path : string) : M FileSystem (gmap string pyval) :=
  a ← read_file path;
  match a with
  | JsonFile d => mret d
  | _ => Py.raise (JSONDecodeError path)
  end.

(** [json.dump] of a token → index dictionary. *)
Definition json_of_index (d : gmap string Z) : gmap string pyval := PInt <$> d.

(** [json.dump({i: label for i, label in enumerate(classes)}, f)]:
    the integer keys are written as their decimal strings. *)
Definition json_of_classes (classes : list string) : gmap string pyval :=
  foldl (λ d p, <[py_str_nat p.1 := PStr p.2]> d) ∅ (imap pair classes).

Definition pyval_int (v : pyval) : option Z :=
  match v with
  | PInt z => Some z
  | PStr _ => None
  end.

(** A JSON object read into an attribute that holds integers: an entry
    of another type is refused here, where Python would fail at its
    first use. *)
Definition index_of_json (d : gmap string pyval) : outcome (gmap string Z) :=
  if bool_decide (map_Forall (λ _ v, is_Some (pyval_int v)) d) then
    Return (omap pyval_int d)
  else Raise (TypeError "vocabulary index is not an integer").

(** [np.array([classes[str(i)] for i in range(len(classes))])] *)
Definition classes_of_json (classes : gmap string pyval) : outcome (list string) :=
  traverse (λ i,
    match classes !! py_str_nat i with
    | Some (PStr label) => Return label
    | Some (PInt _) => Raise (TypeError "label is not a string")
    | None => Raise (KeyError (py_str_nat i))
    end) (seq 0 (size classes)).

(** Two file systems that hold the same at the given paths. *)
Definition same_at (paths : list string) (fs1 fs2 : FileSystem) : Prop :=
  Forall (λ p, fs_files fs1 !! p = fs_files fs2 !! p
               ∧ (p ∈ fs_dirs fs1 ↔ p ∈ fs_dirs fs2)) paths.

(** The exceptions of the file-system operations. *)
Definition io_error (e : exn) : Prop :=
  match e with
  | FileNotFoundError _ | FileExistsError _ | IsADirectoryError _
  | NotADirectoryError _ | UnpicklingError _ | JSONDecodeError _ => True
  | _ => False
  end.

End filesystem.

(** ** class PyTorchLSTMStrategy (lines 45-213) *)

Module PyTorchLSTMStrategy.
Section strategy.
Context `{Backend}.

(** The attributes set by [__init__].  [device] is left out: it only
    says where the tensors live. *)
Record t := {
  vocab_size : Z;
  embedding_dim : Z;
  hidden_dim : Z;
  max_len : Z;
  tokenizer : Keras.Tokenizer;
  label_encoder : LabelEncoder.LabelEncoder;
  model : option Torch.TextClassifier;
  _is_trained : bool;
  output_path : option string;
}.

(** [__init__] (lines 46-64); the defaults are [vocab_size=10000],
    [embedding_dim=64], [hidden_dim=64], [max_len=30],
    [output_path=None]. *)
Definition init (vocab_size embedding_dim hidden_dim max_len : Z)
    (output_path : option string) : t :=
  {| vocab_size := vocab_size; embedding_dim := embedding_dim;
     hidden_dim := hidden_dim; max_len := max_len;
     tokenizer := Keras.Tokenizer_init vocab_size "<OOV>";
     label_encoder := LabelEncoder.init;
     model := None; _is_trained := false; output_path := output_path |}.

Definition set_tokenizer (v : Keras.Tokenizer) (s : t) : t :=
  {| vocab_size := vocab_size s; embedding_dim := embedding_dim s;
     hidden_dim := hidden_dim s; max_len := max_len s;
     tokenizer := v; label_encoder := label_encoder s;
     model := model s; _is_trained := _is_trained s; output_path := output_path s |}.

Definition set_label_encoder (v : LabelEncoder.LabelEncoder) (s : t) : t :=
  {| vocab_size := vocab_size s; embedding_dim := embedding_dim s;
     hidden_dim := hidden_dim s; max_len := max_len s;
     tokenizer := tokenizer s; label_encoder := v;
     model := model s; _is_trained := _is_trained s; output_path := output_path s |}.

Definition set_model (v : option Torch.TextClassifier) (s : t) : t :=
  {| vocab_size := vocab_size s; embedding_dim := embedding_dim s;
     hidden_dim := hidden_dim s; max_len := max_len s;
     tokenizer := tokenizer s; label_encoder := label_encoder s;
     model := v; _is_trained := _is_trained s; output_path := output_path s |}.

Definition set_is_trained (v : bool) (s : t) : t :=
  {| vocab_size := vocab_size s; embedding_dim := embedding_dim s;
     hidden_dim := hidden_dim s; max_len := max_len s;
     tokenizer := tokenizer s; label_encoder := label_encoder s;
     model := model s; _is_trained := v; output_path := output_path s |}.

Definition state : Type := t * FileSystem.

(** [_build_model] (lines 66-95) *)
Definition _build_model (self : t) (num_classes : Z) : Torch.TextClassifier :=
  Torch.TextClassifier_init (vocab_size self) (embedding_dim self) (hidden_dim self)
    num_classes.

(** [self.model.<method>] when [self.model] may be [None]. *)
Definition the_model (method : string) : M state Torch.TextClassifier :=
  self ← Py.self;
  match model self with
  | Some m => mret m
  | None =>
      Py.raise (AttributeError ("'NoneType' object has no attribute '" +:+ method +:+ "'"))
  end.

(** [len(self.label_encoder.classes_)] and [enumerate(...classes_)] *)
Definition the_classes : M state (list string) :=
  self ← Py.self;
  match LabelEncoder.classes_ (label_encoder self) with
  | Some classes => mret classes
  | None => Py.raise (AttributeError "'LabelEncoder' object has no attribute 'classes_'")
  end.

(** [predict] (lines 161-170) *)
Definition predict (X : list string) : M state (list Z) :=
  m ← the_model "eval";
  Py.assign (set_model (Some (Torch.set_training false m)));;
  self ← Py.self;
  X_pad ← Py.lift (encode_texts (tokenizer self) (max_len self) X);
  outputs ← Py.lift (Torch.forward (Torch.set_training false m) X_pad);
  Py.lift (Torch.argmax_dim1 outputs).

(** [export_to_onnx] (lines 198-213).  The exporter runs the module
    once on [dummy_input] to record the graph. *)
Definition export_to_onnx : M state unit :=
  self ← Py.self;
  let output_path := fstr_opt (output_path self) +:+ "/model.onnx" in
  if negb (_is_trained self) then
    Py.raise (RuntimeError "Model must be trained before exporting to ONNX")
  else
    m ← the_model "eval";
    Py.assign (set_model (Some (Torch.set_training false m)));;
    (if max_len self <? 0 then
       Py.raise (RuntimeError "Trying to create tensor with negative dimension")
     else mret tt);;
    let dummy_input := [replicate (Z.to_nat (max_len self)) 0] in
    _ ← Py.lift (Torch.forward (Torch.set_training false m) dummy_input);
    Py.io (write_file output_path
             (OnnxFile (Onnx.torch_onnx_export (Torch.set_training false m)
                          [1; max_len self] "input_ids" "output"
                          ["input_ids"; "output"] 17))).

(** [save_model] (lines 172-183) *)
Definition save_model : M state unit :=
  self ← Py.self;
  if negb (_is_trained self) then Py.raise (RuntimeError "Cannot save untrained model")
  else
    Py.io (makedirs "models");;
    m ← the_model "state_dict";
    Py.io (write_file (fstr_opt (output_path self) +:+ "/model.pt")
             (TorchFile (Torch.get_state_dict m)));;
    Py.io (write_file (fstr_opt (output_path self) +:+ "/vocab.json")
             (JsonFile (json_of_index (Keras.word_index (tokenizer self)))));;
    Py.io (write_file (fstr_opt (output_path self) +:+ "/scaler.json") EmptyFile);;
    classes ← the_classes;
    Py.io (write_file (fstr_opt (output_path self) +:+ "/scaler.json")
             (JsonFile (json_of_classes classes)));;
    export_to_onnx.

(** [load_model] (lines 185-196).  [load_state_dict] works on the
    network of [self.model] in place: when it raises, the network is
    left partly loaded. *)
Definition load_model (filename_prefix : string) : M state unit :=
  classes ← the_classes;
  self ← Py.self;
  let m := _build_model self (Z.of_nat (length classes)) in
  Py.assign (set_model (Some m));;
  sd ← Py.io (torch_load ("models/" +:+ filename_prefix +:+ "_model.pt"));
  match Torch.load_state_dict sd m with
  | Return m' => Py.assign (set_model (Some m'))
  | Raise e => Py.assign (set_model (Some (Torch.partly_loaded sd m)));; Py.raise e
  end;;
  d ← Py.io (json_load ("models/" +:+ filename_prefix +:+ "_vocab.json"));
  word_index ← Py.lift (index_of_json d);
  Py.assign (λ self, set_tokenizer (Keras.set_word_index word_index (tokenizer self)) self);;
  classes ← Py.io (json_load ("models/" +:+ filename_prefix +:+ "_scaler.json"));
  classes ← Py.lift (classes_of_json classes);
  Py.assign (set_label_encoder {| LabelEncoder.classes_ := Some classes |});;
  Py.assign (set_is_trained true).

(** [train] (lines 97-159).  The loader built at line 126 refuses an
    empty data set; lines 131-145 replace the parameters of
    [self.model] by the fitted ones and leave it in training mode. *)
Definition train (X_train y_train X_test y_test : list string) : M state Metrics :=
  Py.assign (λ self,
    set_tokenizer (Keras.fit_on_texts (X_train ++ X_test) (tokenizer self)) self);;
  self ← Py.self;
  X_train_seq ← Py.lift (encode_texts (tokenizer self) (max_len self) X_train);
  X_test_seq ← Py.lift (encode_texts (tokenizer self) (max_len self) X_test);
  let '(le, y_train_enc) := LabelEncoder.fit_transform y_train in
  Py.assign (set_label_encoder le);;
  y_train_enc ← Py.lift y_train_enc;
  y_test_enc ← Py.lift (LabelEncoder.transform y_test le);
  classes ← the_classes;
  let m := _build_model self (Z.of_nat (length classes)) in
  Py.assign (set_model (Some m));;
  (if decide (X_train_seq = []) then
     Py.raise (ValueError "num_samples should be a positive integer value")
   else mret tt);;
  let m := Torch.set_params (torch_fit (Torch.tc_params m) X_train_seq y_train_enc)
             (Torch.set_training true m) in
  Py.assign (set_model (Some m));;
  Py.assign (set_is_trained true);;
  train_pred ← predict X_train;
  test_pred ← predict X_test;
  let train_accuracy := accuracy_score (PInt <$> y_train_enc) (PInt <$> train_pred) in
  let test_accuracy := accuracy_score (PInt <$> y_test_enc) (PInt <$> test_pred) in
  report ← Py.lift (classification_report (PInt <$> y_test_enc) (PInt <$> test_pred) classes);
  mret {| train_accuracy := train_accuracy; test_accuracy := test_accuracy;
          report := report |}.

(** A call of one of the five public methods by a client that catches
    the exception, if any. *)
Inductive call :=
| Train (X_train y_train X_test y_test : list string)
| Predict (X : list string)
| SaveModel
| LoadModel (filename_prefix : string)
| ExportToOnnx.

Definition run (c : call) : M state unit :=
  match c with
  | Train X_train y_train X_test y_test =>
      _ ← train X_train y_train X_test y_test; mret tt
  | Predict X => _ ← predict X; mret tt
  | SaveModel => save_model
  | LoadModel filename_prefix => load_model filename_prefix
  | ExportToOnnx => export_to_onnx
  end.

(** The calls of a client one after the other, on the file system the
    earlier ones left. *)
Definition run_all (calls : list call) (σ : state) : state :=
  foldl (λ σ c, (run c σ).2) σ calls.

(** The objects a client can hold: a new one, or a reachable one after
    one more call, made on any file system. *)
Inductive reachable : t → Prop :=
| reachable_init vocab_size embedding_dim hidden_dim max_len output_path : reachable (init vocab_size embedding_dim hidden_dim max_len output_path)
| reachable_call self fs c : reachable self → reachable (run c (self, fs)).2.1.

(** The files [save_model] itself writes, in the order it writes them. *)
Definition save_paths (self : t) : list string :=
  [fstr_opt (output_path self) +:+ "/model.pt";
   fstr_opt (output_path self) +:+ "/vocab.json";
   fstr_opt (output_path self) +:+ "/scaler.json"].

(** The files [load_model] reads, in the order it reads them. *)
Definition load_paths (filename_prefix : string) : list string :=
  ["models/" +:+ filename_prefix +:+ "_model.pt";
   "models/" +:+ filename_prefix +:+ "_vocab.json";
   "models/" +:+ filename_prefix +:+ "_scaler.json"].

(** What a trained object always has: a network and fitted label
    classes. *)
Definition consistent (self : t) : Prop :=
  _is_trained self = true →
  is_Some (model self) ∧ is_Some (LabelEncoder.classes_ (label_encoder self)).

(** The three artifacts of [save_model]. *)
Definition artifacts (self : t) : option (list artifact) :=
  m ← model self;
  classes ← LabelEncoder.classes_ (label_encoder self);
  Some [TorchFile (Torch.get_state_dict m);
        JsonFile (json_of_index (Keras.word_index (tokenizer self)));
        JsonFile (json_of_classes classes)].

(** [save_model] can write: nothing but a directory is in the way of
    [os.makedirs("models")], and the three paths can be opened. *)
Definition can_save (self : t) (fs : FileSystem) : Prop :=
  fs_files fs !! "models" = None ∧ Forall (writable fs) (save_paths self).

End strategy.
End PyTorchLSTMStrategy.

(** ** class TensorFlowLSTMStrategy (lines 216-337) *)

Module TensorFlowLSTMStrategy.
Section strategy.
Context `{Backend}.

Record t := {
  vocab_size : Z;
  max_len : Z;
  tokenizer : Keras.Tokenizer;
  label_encoder : LabelEncoder.LabelEncoder;
  model : option KerasModel.Model;
  _is_trained : bool;
  output_path : option string;
}.

(** [__init__] (lines 217-230); the defaults are [vocab_size=10000],
    [max_len=30], [output_path=None]. *)
Definition init (vocab_size max_len : Z) (output_path : option string) : t :=
  {| vocab_size := vocab_size; max_len := max_len;
     tokenizer := Keras.Tokenizer_init vocab_size "<OOV>";
     label_encoder := LabelEncoder.init;
     model := None; _is_trained := false; output_path := output_path |}.

Definition set_tokenizer (v : Keras.Tokenizer) (s : t) : t :=
  {| vocab_size := vocab_size s; max_len := max_len s;
     tokenizer := v; label_encoder := label_encoder s;
     model := model s; _is_trained := _is_trained s; output_path := output_path s |}.

Definition set_label_encoder (v : LabelEncoder.LabelEncoder) (s : t) : t :=
  {| vocab_size := vocab_size s; max_len := max_len s;
     tokenizer := tokenizer s; label_encoder := v;
     model := model s; _is_trained := _is_trained s; output_path := output_path s |}.

Definition set_model (v : option KerasModel.Model) (s : t) : t :=
  {| vocab_size := vocab_size s; max_len := max_len s;
     tokenizer := tokenizer s; label_encoder := label_encoder s;
     model := v; _is_trained := _is_trained s; output_path := output_path s |}.

Definition set_is_trained (v : bool) (s : t) : t :=
  {| vocab_size := vocab_size s; max_len := max_len s;
     tokenizer := tokenizer s; label_encoder := label_encoder s;
     model := model s; _is_trained := v; output_path := output_path s |}.

Definition state : Type := t * FileSystem.

(** [_build_model] (lines 232-245): the input layer is named [input],
    the last [Dense] layer [output]. *)
Definition _build_model (self : t) (num_classes : Z) : KerasModel.Model :=
  {| KerasModel.input_name := "input";
     KerasModel.input_length := max_len self;
     KerasModel.output_name := "output";
     KerasModel.output_units := num_classes;
     KerasModel.weights := keras_init_params (vocab_size self) (max_len self) num_classes |}.

Definition the_model (method : string) : M state KerasModel.Model :=
  self ← Py.self;
  match model self with
  | Some m => mret m
  | None =>
      Py.raise (AttributeError ("'NoneType' object has no attribute '" +:+ method +:+ "'"))
  end.

Definition the_classes : M state (list string) :=
  self ← Py.self;
  match LabelEncoder.classes_ (label_encoder self) with
  | Some classes => mret classes
  | None => Py.raise (AttributeError "'LabelEncoder' object has no attribute 'classes_'")
  end.

(** [np.argmax(self.model.predict(X_seq), axis=1)] (lines 286, 287, 298) *)
Definition argmax_predict (X_seq : list (list Z)) : M state (list Z) :=
  m ← the_model "predict";
  probabilities ← Py.lift (keras_predict (KerasModel.weights m) X_seq);
  Py.lift (KerasModel.argmax_axis1 probabilities).

(** [predict] (lines 297-298): the argument is already a batch of
    padded index sequences. *)
Definition predict (X_seq : list (list Z)) : M state (list Z) :=
  argmax_predict X_seq.

(** [export_to_onnx] (lines 324-337).  [tf.TensorSpec] (line 330)
    refuses a negative dimension. *)
Definition export_to_onnx : M state unit :=
  self ← Py.self;
  let output_path := fstr_opt (output_path self) +:+ "/model.onnx" in
  if negb (_is_trained self) then
    Py.raise (RuntimeError "Model must be trained before exporting to ONNX")
  else
    (if max_len self <? 0 then Py.raise (ValueError "Dimension must be >= 0")
     else mret tt);;
    Py.io (makedirs (dirname output_path));;
    m ← the_model "inputs";
    let onnx_model :=
      Onnx.tf2onnx_from_keras m "input" [Onnx.Dynamic; Onnx.Fixed (max_len self)] 17 in
    Py.io (write_file output_path (OnnxFile onnx_model)).

(** [save_model] (lines 300-311) *)
Definition save_model : M state unit :=
  self ← Py.self;
  if negb (_is_trained self) then Py.raise (RuntimeError "Cannot save untrained model")
  else
    Py.io (makedirs "models");;
    m ← the_model "save";
    Py.io (keras_save (fstr_opt (output_path self) +:+ "/model.h5") (KerasFile m));;
    Py.io (write_file (fstr_opt (output_path self) +:+ "/vocab.json")
             (JsonFile (json_of_index (Keras.word_index (tokenizer self)))));;
    Py.io (write_file (fstr_opt (output_path self) +:+ "/scaler.json") EmptyFile);;
    classes ← the_classes;
    Py.io (write_file (fstr_opt (output_path self) +:+ "/scaler.json")
             (JsonFile (json_of_classes classes)));;
    export_to_onnx.

(** [load_model] (lines 313-322) *)
Definition load_model (filename_prefix : string) : M state unit :=
  m ← Py.io (keras_load_model ("models/" +:+ filename_prefix +:+ "_model.h5"));
  Py.assign (set_model (Some m));;
  d ← Py.io (json_load ("models/" +:+ filename_prefix +:+ "_vocab.json"));
  word_index ← Py.lift (index_of_json d);
  Py.assign (λ self, set_tokenizer (Keras.set_word_index word_index (tokenizer self)) self);;
  classes ← Py.io (json_load ("models/" +:+ filename_prefix +:+ "_scaler.json"));
  classes ← Py.lift (classes_of_json classes);
  Py.assign (set_label_encoder {| LabelEncoder.classes_ := Some classes |});;
  Py.assign (set_is_trained true).

(** [train] (lines 247-295).  [Model.fit] refuses an empty data set. *)
Definition train (X_train y_train X_test y_test : list string) : M state Metrics :=
  Py.assign (λ self,
    set_tokenizer (Keras.fit_on_texts (X_train ++ X_test) (tokenizer self)) self);;
  self ← Py.self;
  X_train_seq ← Py.lift (encode_texts (tokenizer self) (max_len self) X_train);
  X_test_seq ← Py.lift (encode_texts (tokenizer self) (max_len self) X_test);
  let '(le, y_train_enc) := LabelEncoder.fit_transform y_train in
  Py.assign (set_label_encoder le);;
  y_train_enc ← Py.lift y_train_enc;
  y_test_enc ← Py.lift (LabelEncoder.transform y_test le);
  classes ← the_classes;
  let m := _build_model self (Z.of_nat (length classes)) in
  Py.assign (set_model (Some m));;
  (if decide (X_train_seq = []) then
     Py.raise (ValueError "Expect x to be a non-empty array or dataset")
   else mret tt);;
  let m :=
    {| KerasModel.input_name := KerasModel.input_name m;
       KerasModel.input_length := KerasModel.input_length m;
       KerasModel.output_name := KerasModel.output_name m;
       KerasModel.output_units := KerasModel.output_units m;
       KerasModel.weights :=
         keras_fit (KerasModel.weights m) X_train_seq y_train_enc X_test_seq y_test_enc |} in
  Py.assign (set_model (Some m));;
  Py.assign (set_is_trained true);;
  train_pred ← argmax_predict X_train_seq;
  test_pred ← argmax_predict X_test_seq;
  let train_accuracy := accuracy_score (PInt <$> y_train_enc) (PInt <$> train_pred) in
  let test_accuracy := accuracy_score (PInt <$> y_test_enc) (PInt <$> test_pred) in
  report ← Py.lift (classification_report (PInt <$> y_test_enc) (PInt <$> test_pred) classes);
  mret {| train_accuracy := train_accuracy; test_accuracy := test_accuracy;
          report := report |}.

(** A call of one of the five public methods by a client that catches
    the exception, if any. *)
Inductive call :=
| Train (X_train y_train X_test y_test : list string)
| Predict (X : list (list Z))
| SaveModel
| LoadModel (filename_prefix : string)
| ExportToOnnx.

Definition run (c : call) : M state unit :=
  match c with
  | Train X_train y_train X_test y_test =>
      _ ← train X_train y_train X_test y_test; mret tt
  | Predict X => _ ← predict X; mret tt
  | SaveModel => save_model
  | LoadModel filename_prefix => load_model filename_prefix
  | ExportToOnnx => export_to_onnx
  end.

(** The calls of a client one after the other, on the file system the
    earlier ones left. *)
Definition run_all (calls : list call) (σ : state) : state :=
  foldl (λ σ c, (run c σ).2) σ calls.

(** The objects a client can hold: a new one, or a reachable one after
    one more call, made on any file system. *)
Inductive reachable : t → Prop :=
| reachable_init vocab_size max_len output_path : reachable (init vocab_size max_len output_path)
| reachable_call self fs c : reachable self → reachable (run c (self, fs)).2.1.

(** The files [save_model] itself writes, in the order it writes them. *)
Definition save_paths (self : t) : list string :=
  [fstr_opt (output_path self) +:+ "/model.h5";
   fstr_opt (output_path self) +:+ "/vocab.json";
   fstr_opt (output_path self) +:+ "/scaler.json"].

(** The files [load_model] reads, in the order it reads them. *)
Definition load_paths (filename_prefix : string) : list string :=
  ["models/" +:+ filename_prefix +:+ "_model.h5";
   "models/" +:+ filename_prefix +:+ "_vocab.json";
   "models/" +:+ filename_prefix +:+ "_scaler.json"].

(** What a trained object always has: a model and fitted label
    classes. *)
Definition consistent (self : t) : Prop :=
  _is_trained self = true →
  is_Some (model self) ∧ is_Some (LabelEncoder.classes_ (label_encoder self)).

(** The three artifacts of [save_model]. *)
Definition artifacts (self : t) : option (list artifact) :=
  m ← model self;
  classes ← LabelEncoder.classes_ (label_encoder self);
  Some [KerasFile m;
        JsonFile (json_of_index (Keras.word_index (tokenizer self)));
        JsonFile (json_of_classes classes)].

(** [save_model] can write: nothing but a directory is in the way of
    [os.makedirs("models")], and the three paths can be opened. *)
Definition can_save (self : t) (fs : FileSystem) : Prop :=
  fs_files fs !! "models" = None ∧ Forall (writable fs) (save_paths self).

End strategy.
End TensorFlowLSTMStrategy.

(** ** class ScikitLearnTFIDFStrategy (lines 340-426) *)

Module ScikitLearnTFIDFStrategy.
Section strategy.
Context `{Backend}.

Record t := {
  max_features : Z;
  max_len : Z;
  pipeline : Pipeline.Pipeline;
  label_encoder : LabelEncoder.LabelEncoder;
  _is_trained : bool;
  output_path : option string;
}.

(** [__init__] (lines 341-354); the defaults are [max_features=10000],
    [output_path=None]. *)
Definition init (max_features : Z) (output_path : option string) : t :=
  {| max_features := max_features; max_len := max_features;
     pipeline := Pipeline.init max_features 1000;
     label_encoder := LabelEncoder.init;
     _is_trained := false; output_path := output_path |}.

Definition set_pipeline (v : Pipeline.Pipeline) (s : t) : t :=
  {| max_features := max_features s; max_len := max_len s;
     pipeline := v; label_encoder := label_encoder s;
     _is_trained := _is_trained s; output_path := output_path s |}.

Definition set_label_encoder (v : LabelEncoder.LabelEncoder) (s : t) : t :=
  {| max_features := max_features s; max_len := max_len s;
     pipeline := pipeline s; label_encoder := v;
     _is_trained := _is_trained s; output_path := output_path s |}.

Definition set_is_trained (v : bool) (s : t) : t :=
  {| max_features := max_features s; max_len := max_len s;
     pipeline := pipeline s; label_encoder := label_encoder s;
     _is_trained := v; output_path := output_path s |}.

Definition state : Type := t * FileSystem.

Definition the_classes : M state (list string) :=
  self ← Py.self;
  match LabelEncoder.classes_ (label_encoder self) with
  | Some classes => mret classes
  | None => Py.raise (AttributeError "'LabelEncoder' object has no attribute 'classes_'")
  end.

(** A method of [self.pipeline], which may change the pipeline in
    place. *)
Definition on_pipeline {A} (m : M Pipeline.Pipeline A) : M state A := λ σ,
  let '(o, p) := m (pipeline σ.1) in (o, (set_pipeline p σ.1, σ.2)).

(** [self.pipeline.predict(X)] (lines 372, 373, 386) *)
Definition pipeline_predict (X : list string) : M state (list pyval) :=
  self ← Py.self;
  Py.lift (Pipeline.predict X (pipeline self)).

(** [predict] (lines 383-386) *)
Definition predict (X : list string) : M state (list pyval) :=
  self ← Py.self;
  if negb (_is_trained self) then
    Py.raise (RuntimeError "Model must be trained before predicting")
  else pipeline_predict X.

(** [export_to_onnx] (lines 415-426) *)
Definition export_to_onnx : M state unit :=
  self ← Py.self;
  let output_path := fstr_opt (output_path self) +:+ "/model.onnx" in
  if negb (_is_trained self) then
    Py.raise (RuntimeError "Model must be trained before exporting to ONNX")
  else
    Py.io (makedirs (dirname output_path));;
    onnx_model ← Py.lift (Onnx.convert_sklearn (pipeline self) "input" [Onnx.Dynamic] 17);
    Py.io (write_file output_path (OnnxFile onnx_model)).

(** [save_model] (lines 388-401) *)
Definition save_model : M state unit :=
  self ← Py.self;
  if negb (_is_trained self) then Py.raise (RuntimeError "Cannot save untrained model")
  else
    Py.io (write_file (fstr_opt (output_path self) +:+ "/model.pkl")
             (JoblibFile (pipeline self)));;
    vocab ←
      match Pipeline.vocabulary_ (pipeline self) with
      | Some vocab => mret vocab
      | None =>
          Py.raise (AttributeError "'TfidfVectorizer' object has no attribute 'vocabulary_'")
      end;
    Py.io (write_file (fstr_opt (output_path self) +:+ "/vocab.json")
             (JsonFile (json_of_index vocab)));;
    Py.io (write_file (fstr_opt (output_path self) +:+ "/scaler.json") EmptyFile);;
    classes ← the_classes;
    Py.io (write_file (fstr_opt (output_path self) +:+ "/scaler.json")
             (JsonFile (json_of_classes classes)));;
    export_to_onnx.

(** [load_model] (lines 403-413) *)
Definition load_model (filename_prefix : string) : M state unit :=
  p ← Py.io (joblib_load ("models/" +:+ filename_prefix +:+ "_model.pkl"));
  Py.assign (set_pipeline p);;
  vocab ← Py.io (json_load ("models/" +:+ filename_prefix +:+ "_vocab.json"));
  vocab ← Py.lift (index_of_json vocab);
  on_pipeline (Py.modify (Pipeline.set_vocabulary vocab));;
  classes ← Py.io (json_load ("models/" +:+ filename_prefix +:+ "_scaler.json"));
  classes ← Py.lift (classes_of_json classes);
  Py.assign (set_label_encoder {| LabelEncoder.classes_ := Some classes |});;
  Py.assign (set_is_trained true).

(** [train] (lines 356-381).  The classifier is fit on the encoded
    labels [y_train_enc]. *)
Definition train (X_train y_train X_test y_test : list string) : M state Metrics :=
  let '(le, y_train_enc) := LabelEncoder.fit_transform y_train in
  Py.assign (set_label_encoder le);;
  y_train_enc ← Py.lift y_train_enc;
  y_test_enc ← Py.lift (LabelEncoder.transform y_test le);
  on_pipeline (Pipeline.fit X_train y_train_enc);;
  Py.assign (set_is_trained true);;
  train_pred ← pipeline_predict X_train;
  test_pred ← pipeline_predict X_test;
  let train_accuracy := accuracy_score (PInt <$> y_train_enc) train_pred in
  let test_accuracy := accuracy_score (PInt <$> y_test_enc) test_pred in
  classes ← the_classes;
  report ← Py.lift (classification_report (PInt <$> y_test_enc) test_pred classes);
  mret {| train_accuracy := train_accuracy; test_accuracy := test_accuracy;
          report := report |}.

(** A call of one of the five public methods by a client that catches
    the exception, if any. *)
Inductive call :=
| Train (X_train y_train X_test y_test : list string)
| Predict (X : list string)
| SaveModel
| LoadModel (filename_prefix : string)
| ExportToOnnx.

Definition run (c : call) : M state unit :=
  match c with
  | Train X_train y_train X_test y_test =>
      _ ← train X_train y_train X_test y_test; mret tt
  | Predict X => _ ← predict X; mret tt
  | SaveModel => save_model
  | LoadModel filename_prefix => load_model filename_prefix
  | ExportToOnnx => export_to_onnx
  end.

(** The calls of a client one after the other, on the file system the
    earlier ones left. *)
Definition run_all (calls : list call) (σ : state) : state :=
  foldl (λ σ c, (run c σ).2) σ calls.

(** The objects a client can hold: a new one, or a reachable one after
    one more call, made on any file system. *)
Inductive reachable : t → Prop :=
| reachable_init max_features output_path : reachable (init max_features output_path)
| reachable_call self fs c : reachable self → reachable (run c (self, fs)).2.1.

(** The files [save_model] itself writes, in the order it writes them. *)
Definition save_paths (self : t) : list string :=
  [fstr_opt (output_path self) +:+ "/model.pkl";
   fstr_opt (output_path self) +:+ "/vocab.json";
   fstr_opt (output_path self) +:+ "/scaler.json"].

(** The files [load_model] reads, in the order it reads them. *)
Definition load_paths (filename_prefix : string) : list string :=
  ["models/" +:+ filename_prefix +:+ "_model.pkl";
   "models/" +:+ filename_prefix +:+ "_vocab.json";
   "models/" +:+ filename_prefix +:+ "_scaler.json"].

(** What a trained object always has: fitted label classes.  (Its
    pipeline is whatever [joblib.load] found, fitted or not.) *)
Definition consistent (self : t) : Prop :=
  _is_trained self = true → is_Some (LabelEncoder.classes_ (label_encoder self)).

(** The three artifacts of [save_model]. *)
Definition artifacts (self : t) : option (list artifact) :=
  vocab ← Pipeline.vocabulary_ (pipeline self);
  classes ← LabelEncoder.classes_ (label_encoder self);
  Some [JoblibFile (pipeline self);
        JsonFile (json_of_index vocab);
        JsonFile (json_of_classes classes)].

(** [save_model] can write: the three paths can be opened. *)
Definition can_save (self : t) (fs : FileSystem) : Prop :=
  Forall (writable fs) (save_paths self).

End strategy.
End ScikitLearnTFIDFStrategy.

(** ** class TextDataset (lines 30-42) *)

Module TextDataset.

(** [a[idx]] for a one-dimensional numpy array and a Python integer: a
    negative index counts from the end. *)
Definition np_getitem {A} (a : list A) (idx : Z) : outcome A :=
  let n := Z.of_nat (length a) in
  let i := if idx <? 0 then idx + n else idx in
  if (0 <=? i) && (i <? n) then
    match a !! Z.to_nat i with
    | Some x => Return x
    | None => Raise (IndexError "index is out of bounds for axis 0")
    end
  else Raise (IndexError "index is out of bounds for axis 0").

(** The attributes set by [__init__] (lines 31-33). *)
Record t := {
  sequences : list (list Z);
  labels : list Z;
}.

Definition init (sequences : list (list Z)) (labels : list Z) : t :=
  {| sequences := sequences; labels := labels |}.

(** [__len__] (lines 35-36) *)
Definition __len__ (self : t) : Z := Z.of_nat (length (sequences self)).

(** The dictionary [__getitem__] returns. *)
Record item := {
  input_ids : list Z;
  item_labels : Z;
}.

(** [__getitem__] (lines 38-42): the entry [input_ids] is built
    first. *)
Definition __getitem__ (self : t) (idx : Z) : outcome item :=
  ids ← np_getitem (sequences self) idx;
  label ← np_getitem (labels self) idx;
  Return {| input_ids := ids; item_labels := label |}.

End TextDataset.

(** ** A small instance of the numerical kernels

    Integers for scalars; every layer is the identity on its input
    (an embedding of dimension one), so that the examples below can be
    evaluated. *)

Module Toy.

Fixpoint first_max_from (best_i : nat) (best : Z) (i : nat) (l : list Z) : nat :=
  match l with
  | [] => best_i
  | x :: l' =>
      if best <? x then first_max_from i x (S i) l'
      else first_max_from best_i best (S i) l'
  end.

(** The position of the first maximum. *)
Definition first_max (l : list Z) : nat :=
  match l with
  | [] => 0
  | x :: l' => first_max_from 0 x 1 l'
  end.

Definition embedding (ids : list (list Z)) : list (list (list Z)) :=
  (λ row : list Z, (λ i, [i]) <$> row) <$> ids.

Global Program Instance backend : Backend := {|
  scalar := Z;
  argmax := first_max;
  torch_params := unit;
  torch_init_params := λ _ _ _ _, tt;
  nn_embedding := λ _ ids, embedding ids;
  nn_lstm := λ _ x, x;
  nn_dropout := λ _ x, x;
  nn_fc1 := λ _ x, x;
  nn_relu := λ x, x;
  nn_fc2 := λ _ x, x;
  torch_fit := λ p _ _, p;
  torch_copy_matching := λ _ _ _ p, p;
  keras_params := unit;
  keras_init_params := λ _ _ _, tt;
  keras_fit := λ p _ _ _ _, p;
  keras_predict := λ _ X_seq, Return ((λ _, [0; 1]) <$> X_seq);
  sk_params := unit;
  tfidf_vocabulary := λ _ _, ∅;
  pipeline_fit_params := λ _ _ _ _, tt;
  pipeline_decision := λ _ _ _ _, 0%nat;
  accuracy_score := λ _ _, 0;
  classification_report := λ _ _ _, Return "";
|}.
Next Obligation.
  intros [|x l] Hrow; [done|]. simpl.
  assert (∀ l best_i best i,
    (best_i < i)%nat → (first_max_from best_i best i l < i + length l)%nat) as Hgen.
  { clear. induction l as [|y l IH]; intros best_i best i Hi; simpl; [lia|].
    destruct (best <? y).
    - specialize (IH i y (S i)). lia.
    - specialize (IH best_i best (S i)). lia. }
  specialize (Hgen l 0%nat x 1%nat). lia.
Qed.
Next Obligation.
  intros ? ids. unfold embedding.
  induction ids as [|row ids IH]; simpl; [done|].
  rewrite length_fmap. by f_equal.
Qed.
Next Obligation. done. Qed.
Next Obligation. intros; simpl; lia. Qed.

End Toy.

(** * The vocabulary of the properties *)

(** What [encode_texts] makes of one text whose token indices are
    [ids], for the row length [n]. *)
Definition shaped (n : nat) (ids row : list Z) : Prop :=
  length row = n
  ∧ ((length ids ≤ n)%nat → row = ids ++ replicate (n - length ids) 0)
  ∧ ((n < length ids)%nat → row = drop (length ids - n) ids).

(** A property of the object that a method keeps, whatever the file
    system holds and however the method ends. *)
Definition keeps {S W A} (J : S → Prop) (m : M (S * W) A) : Prop :=
  ∀ σ, J σ.1 → J (m σ).2.1.

(** What holds of the outcome and the final state of [m] started in
    [σ]. *)
Definition wp {Σ A} (m : M Σ A) (Q : outcome A → Σ → Prop) (σ : Σ) : Prop :=
  Q (m σ).1 (m σ).2.

(** An exception that says the model was not trained. *)
Definition untrained_error (e : exn) : Prop :=
  e ∈ [RuntimeError "Cannot save untrained model";
       RuntimeError "Model must be trained before predicting";
       RuntimeError "Model must be trained before exporting to ONNX"].

Global Instance untrained_error_dec e : Decision (untrained_error e).
Proof. unfold untrained_error. apply _. Defined.

(** The layout of a strategy: after [save_model] on a trained object
    that has its artifacts, the files of [save_paths] hold them;
    [load_model] depends on the file system through the files of
    [load_paths] only and leaves it as it is; and no path of the first
    kind is a path of the second kind, for any output path and any
    prefix. *)
Definition save_load_layout `{Backend} {S : Type}
    (trained : S → bool) (artifacts : S → option (list artifact))
    (can_save : S → FileSystem → Prop)
    (save_paths : S → list string) (load_paths : string → list string)
    (save_model : M (S * FileSystem) unit)
    (load_model : string → M (S * FileSystem) unit) : Prop :=
  (∀ self fs arts,
     trained self = true → artifacts self = Some arts → can_save self fs →
     Forall2 (λ path a, fs_files (save_model (self, fs)).2.2 !! path = Some a)
       (save_paths self) arts)
  ∧ (∀ self prefix fs1 fs2,
       same_at (load_paths prefix) fs1 fs2 →
       (load_model prefix (self, fs1)).1 = (load_model prefix (self, fs2)).1
       ∧ (load_model prefix (self, fs1)).2.1 = (load_model prefix (self, fs2)).2.1
       ∧ (load_model prefix (self, fs1)).2.2 = fs1)
  ∧ (∀ self prefix p q, p ∈ save_paths self → q ∈ load_paths prefix → p ≠ q).

(** The contract of [save_model]: it raises an untrained-model error if
    and only if the flag is unset; on a trained object that has its
    three artifacts and whose files can be written, it is
    [export_to_onnx] run after the artifacts were written to the files
    of [save_paths] (and after [before_writes], the creation of the
    [models] directory where the strategy does that). *)
Definition save_contract `{Backend} {S : Type}
    (trained : S → bool) (artifacts : S → option (list artifact))
    (can_save : S → FileSystem → Prop) (save_paths : S → list string)
    (before_writes : FileSystem → FileSystem)
    (save_model export_to_onnx : M (S * FileSystem) unit) : Prop :=
  (∀ self fs,
     (∃ e, (save_model (self, fs)).1 = Raise e ∧ untrained_error e)
     ↔ trained self = false)
  ∧ (∀ self fs arts,
       trained self = true → artifacts self = Some arts → can_save self fs →
       length arts = 3%nat
       ∧ save_model (self, fs)
         = export_to_onnx
             (self, fs_write_all (zip (save_paths self) arts) (before_writes fs))).

(** Encoding a training label with the fitted encoder gives a class
    index [i]; the [scaler.json] that [save_model] writes has the
    label at its entry [str(i)], and read back the way [load_model]
    reads it, it gives a class list with the label at position [i]. *)
Definition label_round_trip `{Backend} {S : Type}
    (train : list string → list string → list string → list string →
             M (S * FileSystem) Metrics)
    (label_encoder : S → LabelEncoder.LabelEncoder)
    (artifacts : S → option (list artifact)) (can_save : S → FileSystem → Prop)
    (output_path : S → option string)
    (save_model : M (S * FileSystem) unit) : Prop :=
  ∀ X_train y_train X_test y_test self fs metrics self' fs',
    train X_train y_train X_test y_test (self, fs) = (Return metrics, (self', fs')) →
    ∀ label, label ∈ y_train →
    ∃ i,
      LabelEncoder.transform [label] (label_encoder self') = Return [Z.of_nat i]
      ∧ ∀ fs0 arts,
          artifacts self' = Some arts → can_save self' fs0 →
          ∃ d classes,
            fs_files (save_model (self', fs0)).2.2
              !! (fstr_opt (output_path self') +:+ "/scaler.json") = Some (JsonFile d)
            ∧ d !! py_str_nat i = Some (PStr label)
            ∧ classes_of_json d = Return classes
            ∧ classes !! i = Some label.

(** The tokenizer of the examples: fitted on three short texts. *)
Definition demo_tokenizer : Keras.Tokenizer :=
  Keras.fit_on_texts ["a b c d"; "a b, C!"; "The cat's a"] (Keras.Tokenizer_init 10000 "<OOV>").

(** ** The scenario of the examples

    The four training samples of the end-to-end scenario, an output
    directory [out] that exists, and the kernels of [Toy]. *)

Module Demo.

Definition X_train : list string :=
  ["good product"; "bad product"; "great service"; "terrible service"].
Definition y_train : list string := ["pos"; "neg"; "pos"; "neg"].

(** What every [train] returns with the kernels of [Toy]. *)
Definition metrics : Metrics :=
  @Build_Metrics Toy.backend 0 0 "".

Definition fs0 : FileSystem :=
  {| fs_dirs := {["out"]}; fs_files := ∅ |}.

Definition pytorch_new : PyTorchLSTMStrategy.t :=
  PyTorchLSTMStrategy.init 10000 64 64 30 (Some "out").
Definition pytorch_trained : PyTorchLSTMStrategy.t :=
  (PyTorchLSTMStrategy.train X_train y_train X_train y_train (pytorch_new, fs0)).2.1.

Definition tensorflow_new : TensorFlowLSTMStrategy.t :=
  TensorFlowLSTMStrategy.init 10000 30 (Some "out").
Definition tensorflow_trained : TensorFlowLSTMStrategy.t :=
  (TensorFlowLSTMStrategy.train X_train y_train X_train y_train (tensorflow_new, fs0)).2.1.

Definition sklearn_new : ScikitLearnTFIDFStrategy.t :=
  ScikitLearnTFIDFStrategy.init 10000 (Some "out").
Definition sklearn_trained : ScikitLearnTFIDFStrategy.t :=
  (ScikitLearnTFIDFStrategy.train X_train y_train X_train y_train (sklearn_new, fs0)).2.1.

End Demo.

(** ** More vocabulary: characters of words *)

(** Every character of [s] satisfies [P]. *)
Fixpoint string_forall (P : ascii → bool) (s : string) : bool :=
  match s with
  | EmptyString => true
  | String c s' => P c && string_forall P s'
  end.

(** A character that can occur in a word of [text_to_word_sequence]:
    not filtered, not the separator, and not an upper-case ASCII
    letter. *)
Definition word_char (c : ascii) : bool :=
  negb (Keras.default_filters c) && negb (Ascii.eqb c " "%char)
  && Ascii.eqb (ascii_lower c) c.

(** The words of a list of texts, in order. *)
Definition corpus_words (texts : list string) : list string :=
  texts ≫= Keras.text_to_word_sequence.

(** The arguments of the constructors, which no method assigns. *)
Definition pytorch_config `{Backend} (self : PyTorchLSTMStrategy.t)
    : Z * Z * Z * Z * option string :=
  (PyTorchLSTMStrategy.vocab_size self, PyTorchLSTMStrategy.embedding_dim self,
   PyTorchLSTMStrategy.hidden_dim self, PyTorchLSTMStrategy.max_len self,
   PyTorchLSTMStrategy.output_path self).

Definition tensorflow_config `{Backend} (self : TensorFlowLSTMStrategy.t)
    : Z * Z * option string :=
  (TensorFlowLSTMStrategy.vocab_size self, TensorFlowLSTMStrategy.max_len self,
   TensorFlowLSTMStrategy.output_path self).

Definition sklearn_config `{Backend} (self : ScikitLearnTFIDFStrategy.t)
    : Z * Z * option string :=
  (ScikitLearnTFIDFStrategy.max_features self, ScikitLearnTFIDFStrategy.max_len self,
   ScikitLearnTFIDFStrategy.output_path self).

(** The object [load_model] makes of [receiver] when the files hold
    the artifacts of [self], whose network is [m]: the network comes
    back in training mode, and of the tokenizer only [word_index] is
    replaced. *)
Definition pytorch_loaded `{Backend} (self receiver : PyTorchLSTMStrategy.t)
    (m : Torch.TextClassifier) : PyTorchLSTMStrategy.t :=
  PyTorchLSTMStrategy.set_is_trained true
    (PyTorchLSTMStrategy.set_label_encoder (PyTorchLSTMStrategy.label_encoder self)
       (PyTorchLSTMStrategy.set_tokenizer
          (Keras.set_word_index
             (Keras.word_index (PyTorchLSTMStrategy.tokenizer self))
             (PyTorchLSTMStrategy.tokenizer receiver))
          (PyTorchLSTMStrategy.set_model (Some (Torch.set_training true m)) receiver))).

Definition tensorflow_loaded `{Backend} (self receiver : TensorFlowLSTMStrategy.t)
    : TensorFlowLSTMStrategy.t :=
  TensorFlowLSTMStrategy.set_is_trained true
    (TensorFlowLSTMStrategy.set_label_encoder (TensorFlowLSTMStrategy.label_encoder self)
       (TensorFlowLSTMStrategy.set_tokenizer
          (Keras.set_word_index
             (Keras.word_index (TensorFlowLSTMStrategy.tokenizer self))
             (TensorFlowLSTMStrategy.tokenizer receiver))
          (TensorFlowLSTMStrategy.set_model (TensorFlowLSTMStrategy.model self) receiver))).

Definition sklearn_loaded `{Backend} (self receiver : ScikitLearnTFIDFStrategy.t)
    : ScikitLearnTFIDFStrategy.t :=
  ScikitLearnTFIDFStrategy.set_is_trained true
    (ScikitLearnTFIDFStrategy.set_label_encoder
       (ScikitLearnTFIDFStrategy.label_encoder self)
       (ScikitLearnTFIDFStrategy.set_pipeline (ScikitLearnTFIDFStrategy.pipeline self)
          receiver)).

(** ** What load_model reads *)

(** [load_model] reads the files of [load_paths].  A call that returns
    has found a file at each of these paths, and the object then holds
    what [holds] says of their contents; a call on a file system where
    one of these files is missing raises; and where the files hold what
    [requires] asks for, the call returns, leaves the file system as it
    is, and the object holds their contents. *)
Definition load_reads `{Backend} {S : Type}
    (load_paths : string → list string)
    (load_model : string → M (S * FileSystem) unit)
    (requires : S → list artifact → Prop)
    (holds : list artifact → S → Prop) : Prop :=
  (∀ self prefix fs self' fs',
     load_model prefix (self, fs) = (Return tt, (self', fs')) →
     ∃ arts,
       Forall2 (λ path a, fs_files fs !! path = Some a) (load_paths prefix) arts
       ∧ holds arts self')
  ∧ (∀ self prefix fs path,
       path ∈ load_paths prefix → fs_files fs !! path = None →
       ∃ e, (load_model prefix (self, fs)).1 = Raise e)
  ∧ (∀ self prefix fs arts,
       requires self arts →
       Forall2 (λ path a, fs_files fs !! path = Some a) (load_paths prefix) arts →
       ∃ self',
         load_model prefix (self, fs) = (Return tt, (self', fs)) ∧ holds arts self').

(** The files a [PyTorchLSTMStrategy] can load: a [state_dict] of the
    shape of the network that [load_model] builds from the constructor
    arguments and the number of classes the encoder has, a vocabulary
    index and a label map. *)
Definition pytorch_loadable `{Backend} (self : PyTorchLSTMStrategy.t)
    (arts : list artifact) : Prop :=
  ∃ sd d classes classes0,
    arts = [TorchFile sd; JsonFile (json_of_index d); JsonFile (json_of_classes classes)]
    ∧ LabelEncoder.classes_ (PyTorchLSTMStrategy.label_encoder self) = Some classes0
    ∧ Torch.sd_shape sd
        = (PyTorchLSTMStrategy.vocab_size self, PyTorchLSTMStrategy.embedding_dim self,
           PyTorchLSTMStrategy.hidden_dim self, Z.of_nat (length classes0)).

(** The object holds the contents of the three files: the parameters
    of the network, the vocabulary index and the label classes are the
    ones of the files, and the flag is set. *)
Definition pytorch_holds `{Backend} (arts : list artifact)
    (self : PyTorchLSTMStrategy.t) : Prop :=
  ∃ sd d c classes m,
    arts = [TorchFile sd; JsonFile (json_of_index d); JsonFile c]
    ∧ classes_of_json c = Return classes
    ∧ PyTorchLSTMStrategy.model self = Some m
    ∧ Torch.get_state_dict m = sd
    ∧ Keras.word_index (PyTorchLSTMStrategy.tokenizer self) = d
    ∧ PyTorchLSTMStrategy.label_encoder self = {| LabelEncoder.classes_ := Some classes |}
    ∧ PyTorchLSTMStrategy._is_trained self = true.

Definition tensorflow_loadable `{Backend} (self : TensorFlowLSTMStrategy.t)
    (arts : list artifact) : Prop :=
  ∃ m d classes,
    arts = [KerasFile m; JsonFile (json_of_index d); JsonFile (json_of_classes classes)].

Definition tensorflow_holds `{Backend} (arts : list artifact)
    (self : TensorFlowLSTMStrategy.t) : Prop :=
  ∃ m d c classes,
    arts = [KerasFile m; JsonFile (json_of_index d); JsonFile c]
    ∧ classes_of_json c = Return classes
    ∧ TensorFlowLSTMStrategy.model self = Some m
    ∧ Keras.word_index (TensorFlowLSTMStrategy.tokenizer self) = d
    ∧ TensorFlowLSTMStrategy.label_encoder self
        = {| LabelEncoder.classes_ := Some classes |}
    ∧ TensorFlowLSTMStrategy._is_trained self = true.

Definition sklearn_loadable `{Backend} (self : ScikitLearnTFIDFStrategy.t)
    (arts : list artifact) : Prop :=
  ∃ p vocab classes,
    arts = [JoblibFile p; JsonFile (json_of_index vocab);
            JsonFile (json_of_classes classes)].

Definition sklearn_holds `{Backend} (arts : list artifact)
    (self : ScikitLearnTFIDFStrategy.t) : Prop :=
  ∃ p vocab c classes,
    arts = [JoblibFile p; JsonFile (json_of_index vocab); JsonFile c]
    ∧ classes_of_json c = Return classes
    ∧ ScikitLearnTFIDFStrategy.pipeline self = Pipeline.set_vocabulary vocab p
    ∧ ScikitLearnTFIDFStrategy.label_encoder self
        = {| LabelEncoder.classes_ := Some classes |}
    ∧ ScikitLearnTFIDFStrategy._is_trained self = true.

(** The token indices [texts_to_sequences] gives one text, without the
    entries that are [None]. *)
Definition token_ids (tok : Keras.Tokenizer) (text : string) : list Z :=
  omap id (Keras.text_to_word_sequence text ≫= Keras.word_to_ids tok).

(** The row [pad_sequences(..., maxlen=n, padding="post")] makes of
    the token indices [ids], for a positive [n]. *)
Definition padded_row (n : nat) (ids : list Z) : list Z :=
  drop (length ids - n) ids ++ replicate (n - length ids) 0.

(** The tokenizers of the strategies: the out-of-vocabulary token is
    not a word, and the words counted so far are words, each counted
    once. *)
Definition tokenizer_well_formed (tok : Keras.Tokenizer) : Prop :=
  (∃ t, Keras.oov_token tok = Some t ∧ string_forall word_char t = false)
  ∧ Forall (λ k, string_forall word_char k = true) (Keras.word_counts tok).*1
  ∧ NoDup (Keras.word_counts tok).*1.

(** ** More of the scenario of the examples *)

Module Stored.

(** A file system where the directory [models] holds the given
    artifacts at the given paths. *)
Definition stored (paths : list string) (arts : option (list artifact)) : FileSystem :=
  fs_write_all (zip paths (default [] arts))
    {| fs_dirs := {["models"]}; fs_files := ∅ |}.

Definition pytorch : FileSystem :=
  stored (PyTorchLSTMStrategy.load_paths "demo")
    (PyTorchLSTMStrategy.artifacts Demo.pytorch_trained).

Definition tensorflow : FileSystem :=
  stored (TensorFlowLSTMStrategy.load_paths "demo")
    (TensorFlowLSTMStrategy.artifacts Demo.tensorflow_trained).

Definition sklearn : FileSystem :=
  stored (ScikitLearnTFIDFStrategy.load_paths "demo")
    (ScikitLearnTFIDFStrategy.artifacts Demo.sklearn_trained).


End Stored.

(** The classes of a label encoder fitted on the labels [y]: the
    distinct labels, in increasing order. *)
Definition label_classes_of (y : list string) (le : LabelEncoder.LabelEncoder) : Prop :=
  ∃ classes,
    LabelEncoder.classes_ le = Some classes
    ∧ StronglySorted String.le classes
    ∧ NoDup classes
    ∧ ∀ label, label ∈ classes ↔ label ∈ y.

(** What [transform] looks up for [label] once the encoder is fitted
    on [y_train]: the label converted to the dtype of the classes, that
    is, cut to the width of the longest training label. *)
Definition label_as_seen (y_train : list string) (label : string) : string :=
  string_take (LabelEncoder.dtype_width (LabelEncoder.np_unique y_train)) label.

(** The string a JSON value is, if it is one. *)
Definition pyval_str (v : pyval) : option string :=
  match v with
  | PStr s => Some s
  | PInt _ => None
  end.

(** * Properties *)

(** ** Exceptions and traversals *)

Lemma traverse_Return {A B} (f : A → outcome B) (g : A → B) (l : list A) :
  (∀ x, x ∈ l → f x = Return (g x)) → traverse f l = Return (g <$> l).
Proof.
  induction l as [|x l IH]; intros Hf; simpl; [done|].
  rewrite (Hf x) by left. simpl.
  rewrite IH by (intros y Hy; apply Hf; by right). done.
Qed.

Lemma traverse_Return_Forall2 {A B} (f : A → outcome B) (l : list A) (ys : list B) :
  traverse f l = Return ys → Forall2 (λ x y, f x = Return y) l ys.
Proof.
  revert ys. induction l as [|x l IH]; intros ys; simpl.
  - intros [= <-]. constructor.
  - destruct (f x) as [y|e] eqn:Hx; simpl; [|done].
    destruct (traverse f l) as [ys'|e] eqn:Hl; simpl; [|done].
    intros [= <-]. constructor; [done|]. by apply IH.
Qed.

Lemma traverse_Forall2_Return {A B} (f : A → outcome B) (l : list A) (ys : list B) :
  Forall2 (λ x y, f x = Return y) l ys → traverse f l = Return ys.
Proof.
  induction 1 as [|x y l ys Hx _ IH]; simpl; [done|].
  by rewrite Hx, IH.
Qed.

Lemma traverse_length {A B} (f : A → outcome B) (l : list A) (ys : list B) :
  traverse f l = Return ys → length ys = length l.
Proof.
  intros Hl. apply traverse_Return_Forall2 in Hl.
  symmetry. by eapply Forall2_length.
Qed.

(** ** Tokenisation and padding *)

Module KerasFacts.
Import Keras.

Lemma dict_zip_from_lookup_elem start keys d k :
  k ∈ keys ∨ is_Some (d !! k) → is_Some (dict_zip_from start keys d !! k).
Proof.
  revert start d. induction keys as [|k' keys IH]; intros start d; simpl.
  - intros [Hk|Hk]; [by apply elem_of_nil in Hk|done].
  - intros Hk. apply IH.
    destruct (decide (k' = k)) as [->|Hne].
    + right. rewrite lookup_insert_eq. eauto.
    + destruct Hk as [Hk|Hk].
      * apply elem_of_cons in Hk as [?|?]; [congruence|by left].
      * right. by rewrite lookup_insert_ne.
Qed.

(** [fit_on_texts] always indexes the out-of-vocabulary token. *)
Lemma fit_on_texts_oov_indexed texts tok : oov_indexed (fit_on_texts texts tok).
Proof.
  unfold oov_indexed, fit_on_texts. simpl.
  destruct (oov_token tok) as [t|]; [|done].
  apply dict_zip_from_lookup_elem. left. simpl. left.
Qed.

Lemma as_int32_Some (ids : list Z) : as_int32 (Some <$> ids) = Return ids.
Proof.
  unfold as_int32.
  rewrite (traverse_Return _ (default 0)).
  - f_equal. induction ids; simpl; [done|]. by f_equal.
  - intros x Hx. apply list_elem_of_fmap in Hx as (z & -> & _). done.
Qed.

Lemma word_to_ids_Some tok w :
  oov_indexed tok → ∃ ids, word_to_ids tok w = Some <$> ids.
Proof.
  unfold oov_indexed, word_to_ids, oov_token_index. intros Hoov.
  destruct (word_index tok !! w) as [i|].
  - destruct (_ && _).
    + destruct (oov_token tok) as [t|]; simpl.
      * destruct Hoov as [v ->]. by exists [v].
      * by exists [].
    + by exists [i].
  - destruct (oov_token tok) as [t|]; simpl.
    + destruct Hoov as [v ->]. by exists [v].
    + by exists [].
Qed.

Lemma words_to_ids_Some tok (ws : list string) :
  oov_indexed tok → ∃ ids, ws ≫= word_to_ids tok = Some <$> ids.
Proof.
  intros Hoov. induction ws as [|w ws [ids IH]].
  - by exists [].
  - destruct (word_to_ids_Some tok w Hoov) as [ids' Hw].
    exists (ids' ++ ids). rewrite bind_cons, Hw, IH. by rewrite fmap_app.
Qed.

(** A row of [pad_sequences(..., padding="post")] with the default
    [truncating="pre"], for a positive [maxlen]. *)
Lemma pad_row_post_pre n (ids : list Z) :
  (0 < n)%nat →
  pad_row n post pre (Some <$> ids) =
    Return (drop (length ids - n) ids ++ replicate (n - length ids) 0).
Proof.
  intros Hn. unfold pad_row.
  destruct ids as [|z ids]; [by rewrite Nat.sub_0_r|].
  change (Some <$> z :: ids) with (Some z :: (Some <$> ids)).
  cbv beta iota.
  change (Some z :: (Some <$> ids)) with (Some <$> z :: ids).
  generalize (z :: ids). clear z ids. intros ids.
  unfold slice_last. rewrite decide_False by lia.
  rewrite length_fmap, <- fmap_drop, as_int32_Some. simpl.
  unfold np_assign. rewrite length_drop.
  rewrite decide_True by lia. simpl.
  do 3 f_equal. lia.
Qed.

End KerasFacts.
(** ** Sequence shaping (lines 106-115, 164-165, 256-265) *)

Section sequence_shaping.
Import Keras KerasFacts.

Lemma shaped_post_pre n ids :
  shaped n ids (drop (length ids - n) ids ++ replicate (n - length ids) 0).
Proof.
  unfold shaped. split_and!.
  - rewrite length_app, length_drop, length_replicate. lia.
  - intros Hle. by replace (length ids - n)%nat with 0%nat by lia.
  - intros Hlt. replace (n - length ids)%nat with 0%nat by lia.
    simpl. by rewrite app_nil_r.
Qed.

(** C4, as the code has it.  For a positive [max_len] and a tokenizer
    whose out-of-vocabulary token is indexed (any fitted tokenizer),
    tokenisation followed by [pad_sequences] returns one row per text,
    each of exactly [max_len] entries: the token indices followed by
    zeros when there are at most [max_len] of them, and otherwise the
    LAST [max_len] token indices (the surplus is cut off at the front,
    [truncating] keeping its default). *)
Theorem encode_texts_fixed_length (tok : Tokenizer) (max_len : Z) (X : list string) :
  0 < max_len →
  oov_indexed tok →
  ∃ rows,
    encode_texts tok max_len X = Return rows
    ∧ Forall2 (λ text row,
        ∃ ids, text_to_word_sequence text ≫= word_to_ids tok = Some <$> ids
               ∧ shaped (Z.to_nat max_len) ids row) X rows.
Proof.
  intros Hlen Hoov. unfold encode_texts, pad_sequences.
  destruct (max_len <? 0) eqn:Hneg; [lia|]. clear Hneg.
  assert (0 < Z.to_nat max_len)%nat as Hn by lia.
  generalize dependent (Z.to_nat max_len). intros n Hn.
  unfold texts_to_sequences.
  induction X as [|text X (rows & IH & HF)].
  - exists []. split; [done|constructor].
  - destruct (words_to_ids_Some tok (text_to_word_sequence text) Hoov) as [ids Hids].
    rewrite fmap_cons. cbn [traverse].
    rewrite Hids, pad_row_post_pre, IH by done.
    eexists. split; [done|]. constructor; [|done].
    exists ids. split; [done|]. apply shaped_post_pre.
Qed.

Lemma encode_texts_fixed_length_witness :
  ∃ rows,
    encode_texts demo_tokenizer 2 ["a b c d"; "zzz"] = Return rows
    ∧ Forall2 (λ text row,
        ∃ ids, text_to_word_sequence text ≫= word_to_ids demo_tokenizer = Some <$> ids
               ∧ shaped (Z.to_nat 2) ids row) ["a b c d"; "zzz"] rows.
Proof.
  apply (encode_texts_fixed_length demo_tokenizer 2 ["a b c d"; "zzz"]).
  - lia.
  - apply fit_on_texts_oov_indexed.
Defined.

(** C4 as stated fails: a text of four known tokens, cut to two
    entries, keeps its last two token indices, not its first two. *)
Lemma encode_texts_truncates_front :
  text_to_word_sequence "a b c d" ≫= word_to_ids demo_tokenizer
    = Some <$> [2; 3; 4; 5]
  ∧ encode_texts demo_tokenizer 2 ["a b c d"] = Return [[4; 5]]
  ∧ [4; 5] ≠ take 2 [2; 3; 4; 5].
Proof. split_and!; [by vm_compute..|done]. Qed.

(** With [max_len = 0] no row is produced for a text of two tokens. *)
Example encode_texts_zero_length :
  encode_texts demo_tokenizer 0 ["a b"]
    = Raise (ValueError "could not broadcast input array").
Proof. by vm_compute. Qed.

End sequence_shaping.
(** ** The forward pass of the torch network (lines 85-91) *)

Section forward_pass.
Context `{Backend}.
Import Torch.

Lemma select_time_Forall2 (t : nat) (x : list (list (list scalar))) pooled :
  select_time t x = Return pooled ↔ Forall2 (λ row v, row !! t = Some v) x pooled.
Proof.
  unfold select_time. split.
  - intros Hx. apply traverse_Return_Forall2 in Hx.
    eapply Forall2_impl; [exact Hx|]. intros row v. simpl.
    by destruct (row !! t) as [v'|]; [intros [= ->]|].
  - intros Hx. apply traverse_Forall2_Return.
    eapply Forall2_impl; [exact Hx|]. intros row v Hrow. simpl. by rewrite Hrow.
Qed.

Lemma select_time_0_nonempty (x : list (list (list scalar))) :
  Forall (λ row, row ≠ []) x → ∃ pooled, select_time 0 x = Return pooled.
Proof.
  unfold select_time. induction 1 as [|row x Hrow _ [pooled IH]].
  - by exists [].
  - destruct row as [|v row]; [done|]. cbn [traverse]. rewrite IH. by eexists.
Qed.

Lemma nonempty_rows_same_lengths {A B} (l : list (list A)) (k : list (list B)) :
  length <$> l = length <$> k → Forall (λ row, row ≠ []) k → Forall (λ row, row ≠ []) l.
Proof.
  revert k. induction l as [|row l IH]; intros [|row' k]; simpl; try done.
  intros [= Hrow Hl] Hk. apply Forall_cons in Hk as [Hrow' Hk].
  constructor; [|by eapply IH].
  destruct row; [|done]. by destruct row'.
Qed.

(** The output of the recurrent layer keeps the time steps of the
    input batch. *)
Lemma lstm_output_nonempty (self : TextClassifier) (input_ids : list (list Z)) :
  Forall (λ row, row ≠ []) input_ids →
  Forall (λ row, row ≠ [])
    (nn_lstm (tc_params self) (nn_embedding (tc_params self) input_ids)).
Proof.
  intros Hids. eapply nonempty_rows_same_lengths; [|exact Hids].
  by rewrite nn_lstm_shape, nn_embedding_shape.
Qed.

(** On a batch of non-empty sequences the selection succeeds and
    [forward] returns. *)
Lemma forward_returns (self : TextClassifier) (input_ids : list (list Z)) :
  Forall (λ row, row ≠ []) input_ids →
  ∃ pooled,
    select_time 0
      (nn_lstm (tc_params self) (nn_embedding (tc_params self) input_ids))
      = Return pooled
    ∧ forward self input_ids =
        Return (nn_fc2 (tc_params self)
                  (nn_relu (nn_fc1 (tc_params self)
                              (nn_dropout (tc_training self) pooled)))).
Proof.
  intros Hids.
  destruct (select_time_0_nonempty _ (lstm_output_nonempty self input_ids Hids))
    as [pooled Hpooled].
  exists pooled. split; [done|]. unfold forward. by rewrite Hpooled.
Qed.

(** C5.  For every batch of non-empty index sequences, [forward]
    returns the dropout/dense head applied to [pooled], where row by
    row [pooled] is the entry at time step 0 of the output of the
    bidirectional LSTM: no other time step reaches the head. *)
Theorem forward_first_time_step (self : TextClassifier) (input_ids : list (list Z)) :
  Forall (λ row, row ≠ []) input_ids →
  ∃ pooled,
    Forall2 (λ row v, row !! 0%nat = Some v)
      (nn_lstm (tc_params self) (nn_embedding (tc_params self) input_ids)) pooled
    ∧ forward self input_ids =
        Return (nn_fc2 (tc_params self)
                  (nn_relu (nn_fc1 (tc_params self)
                              (nn_dropout (tc_training self) pooled)))).
Proof.
  intros Hids. destruct (forward_returns self input_ids Hids) as (pooled & Hsel & Hfwd).
  exists pooled. split; [by apply select_time_Forall2|done].
Qed.

(** Without a first time step there is nothing to select. *)
Lemma forward_empty_row (self : TextClassifier) (input_ids : list (list Z)) :
  [] ∈ input_ids → ∃ e, forward self input_ids = Raise e.
Proof.
  intros Hin. unfold forward.
  destruct (select_time 0 _) as [pooled|e] eqn:Hsel; [|by eauto].
  exfalso. apply select_time_Forall2 in Hsel.
  assert (Forall (λ row, row ≠ []) (nn_embedding (tc_params self) input_ids)) as Hne.
  { eapply nonempty_rows_same_lengths; [symmetry; apply nn_lstm_shape|].
    eapply Forall2_Forall_l; [exact Hsel|].
    apply Forall_forall. intros v _ [|??]; done. }
  eapply (nonempty_rows_same_lengths input_ids) in Hne;
    [|symmetry; apply nn_embedding_shape].
  rewrite Forall_forall in Hne. by apply (Hne []).
Qed.

End forward_pass.

Lemma forward_first_time_step_witness :
  let self := Torch.TextClassifier_init 10 1 1 2 in
  ∃ pooled,
    Forall2 (λ row v, row !! 0%nat = Some v)
      (nn_lstm (Torch.tc_params self) (nn_embedding (Torch.tc_params self) [[3; 5]]))
      pooled
    ∧ Torch.forward self [[3; 5]] =
        Return (nn_fc2 (Torch.tc_params self)
                  (nn_relu (nn_fc1 (Torch.tc_params self)
                              (nn_dropout (Torch.tc_training self) pooled)))).
Proof.
  apply (forward_first_time_step (Torch.TextClassifier_init 10 1 1 2) [[3; 5]]).
  by repeat constructor.
Defined.

(** With the identity layers the head sees the first token, not the
    last one. *)
Example forward_first_not_last :
  Torch.forward (Torch.TextClassifier_init 10 1 1 2) [[3; 5]] = Return [[3]].
Proof. reflexivity. Qed.
(** ** Evaluating methods *)

Ltac py_unfold :=
  unfold mbind, M_bind, mret, M_ret, Py.self, Py.assign, Py.raise, Py.lift,
    Py.io, Py.modify in *.

Section keeps.
Context {S W : Type} (J : S → Prop).

Lemma keeps_ret {A} (a : A) : keeps (W:=W) J (mret a).
Proof. by intros σ. Qed.

Lemma keeps_raise {A} (e : exn) : keeps J (Py.raise e : M (S * W) A).
Proof. by intros σ. Qed.

Lemma keeps_lift {A} (o : outcome A) : keeps (W:=W) J (Py.lift o).
Proof. by intros σ. Qed.

Lemma keeps_self : keeps (W:=W) J Py.self.
Proof. by intros σ. Qed.

Lemma keeps_io {A} (m : M W A) : keeps J (Py.io m).
Proof. intros σ Hσ. unfold Py.io. by destruct (m σ.2). Qed.

Lemma keeps_assign (f : S → S) :
  (∀ s, J s → J (f s)) → keeps (W:=W) J (Py.assign f).
Proof. intros Hf σ Hσ. by apply Hf. Qed.

Lemma keeps_bind {A B} (m : M (S * W) A) (k : A → M (S * W) B) :
  keeps J m → (∀ a, keeps J (k a)) → keeps J (m ≫= k).
Proof.
  intros Hm Hk σ Hσ. unfold mbind, M_bind.
  specialize (Hm σ Hσ). destruct (m σ) as [[a|e] σ']; [|done].
  by apply Hk.
Qed.
End keeps.

Ltac keeps_step :=
  lazymatch goal with
  | |- keeps _ (_ ≫= _) => apply keeps_bind; [|intros ?]
  | |- keeps _ (mret _) => apply keeps_ret
  | |- keeps _ (Py.raise _) => apply keeps_raise
  | |- keeps _ (Py.lift _) => apply keeps_lift
  | |- keeps _ Py.self => apply keeps_self
  | |- keeps _ (Py.io _) => apply keeps_io
  | |- keeps _ (Py.assign _) => apply keeps_assign; intros ? ?; simpl
  | |- keeps _ (if ?b then _ else _) => destruct b
  | |- keeps _ (match ?x with _ => _ end) => destruct x
  end.

Section wp.
Context {S W : Type}.

Lemma wp_bind {Σ A B} (m : M Σ A) (k : A → M Σ B) Q (σ : Σ) :
  wp m (λ o σ', match o with
                | Return a => wp (k a) Q σ'
                | Raise e => Q (Raise e) σ'
                end) σ →
  wp (m ≫= k) Q σ.
Proof. unfold wp, mbind, M_bind. by destruct (m σ) as [[a|e] σ']. Qed.

Lemma wp_elim {Σ A} (m : M Σ A) Q (σ σ' : Σ) o :
  wp m Q σ → m σ = (o, σ') → Q o σ'.
Proof. unfold wp. intros HQ Hm. by rewrite Hm in HQ. Qed.

Lemma wp_ret {Σ A} (a : A) Q (σ : Σ) : Q (Return a) σ → wp (mret a) Q σ.
Proof. done. Qed.

Lemma wp_raise {Σ A} (e : exn) (Q : outcome A → Σ → Prop) (σ : Σ) :
  Q (Raise e) σ → wp (Py.raise e) Q σ.
Proof. done. Qed.

Lemma wp_lift {Σ A} (o : outcome A) Q (σ : Σ) : Q o σ → wp (Py.lift o) Q σ.
Proof. done. Qed.

Lemma wp_self Q (σ : S * W) : Q (Return σ.1) σ → wp Py.self Q σ.
Proof. done. Qed.

Lemma wp_assign (f : S → S) Q (σ : S * W) : Q (Return tt) (f σ.1, σ.2) → wp (Py.assign f) Q σ.
Proof. done. Qed.

Lemma wp_io {A} (m : M W A) Q (σ : S * W) :
  (∀ o w, m σ.2 = (o, w) → Q o (σ.1, w)) → wp (Py.io m) Q σ.
Proof. intros HQ. unfold wp, Py.io. destruct (m σ.2) as [o w] eqn:Hm. by apply HQ. Qed.
End wp.

Ltac wp_step :=
  lazymatch goal with
  | |- wp (_ ≫= _) _ _ => apply wp_bind
  | |- wp (mret _) _ _ => apply wp_ret
  | |- wp (Py.raise _) _ _ => apply wp_raise
  | |- wp (Py.lift ?o) _ _ => apply wp_lift; destruct o eqn:?
  | |- wp Py.self _ _ => apply wp_self
  | |- wp (Py.assign _) _ _ => apply wp_assign
  | |- wp (Py.io _) _ _ => apply wp_io; intros [?|?] ? ?
  | |- wp (if ?b then _ else _) _ _ => destruct b eqn:?
  | |- wp (match ?x with _ => _ end) _ _ => destruct x eqn:?
  end; cbn beta iota; cbn [fst snd].
(** ** Paths *)

Section paths.

Lemma string_app_cons (c : ascii) (s t : string) :
  String c s +:+ t = String c (s +:+ t).
Proof. reflexivity. Qed.

Lemma string_app_assoc (s1 s2 s3 : string) : (s1 +:+ s2) +:+ s3 = s1 +:+ s2 +:+ s3.
Proof. induction s1 as [|c s1 IH]; [done|]. by rewrite !string_app_cons, IH. Qed.

Lemma string_app_length (s1 s2 : string) :
  String.length (s1 +:+ s2) = (String.length s1 + String.length s2)%nat.
Proof.
  induction s1 as [|c s1 IH]; [done|]. rewrite string_app_cons. simpl. by rewrite IH.
Qed.

Lemma string_drop_app (u t : string) : string_drop (String.length u) (u +:+ t) = t.
Proof. induction u as [|c u IH]; [by destruct t|]. by rewrite string_app_cons. Qed.

Lemma ends_with_app (u t : string) : ends_with t (u +:+ t) = true.
Proof.
  unfold ends_with. apply bool_decide_eq_true.
  rewrite string_app_length.
  replace (String.length u + String.length t - String.length t)%nat
    with (String.length u) by lia.
  apply string_drop_app.
Qed.

(** Two ways of cutting one string: the shorter tail is a tail of the
    longer one. *)
Lemma app_eq_suffix (s1 t1 s2 t2 : string) :
  s1 +:+ t1 = s2 +:+ t2 →
  (String.length t1 ≤ String.length t2)%nat →
  ∃ u, t2 = u +:+ t1.
Proof.
  revert s1. induction s2 as [|c s2 IH]; intros s1 Heq Hlen.
  - exists s1. done.
  - destruct s1 as [|c' s1].
    + change (EmptyString +:+ t1) with t1 in Heq. subst t1.
      rewrite string_app_cons in Hlen. simpl in Hlen.
      rewrite string_app_length in Hlen. lia.
    + rewrite !string_app_cons in Heq. injection Heq as _ Heq. by eapply IH.
Qed.

Lemma paths_differ (s1 t1 s2 t2 : string) :
  ends_with t1 t2 = false → ends_with t2 t1 = false → s1 +:+ t1 ≠ s2 +:+ t2.
Proof.
  intros H12 H21 Heq.
  destruct (decide (String.length t1 ≤ String.length t2)%nat).
  - destruct (app_eq_suffix _ _ _ _ Heq) as [u ->]; [done|].
    by rewrite ends_with_app in H12.
  - symmetry in Heq. destruct (app_eq_suffix _ _ _ _ Heq) as [u ->]; [lia|].
    by rewrite ends_with_app in H21.
Qed.

End paths.

(** Proves [p ≠ q] for paths that end differently. *)
Ltac path_neq :=
  rewrite <- ?string_app_assoc;
  first
    [ apply paths_differ; by vm_compute
    | lazymatch goal with
      | |- ?p ≠ _ +:+ _ =>
          change p with (EmptyString +:+ p); apply paths_differ; by vm_compute
      | |- _ +:+ _ ≠ ?q =>
          change q with (EmptyString +:+ q); apply paths_differ; by vm_compute
      end ].

(** ** File-system operations *)

Section fs_lemmas.
Context `{Backend}.

Example dirname_examples :
  dirname "out/model.onnx" = "out"
  ∧ dirname "out//model.onnx" = "out"
  ∧ dirname "/model.onnx" = "/"
  ∧ dirname "model.onnx" = EmptyString
  ∧ dirname "runs/7/model.onnx" = "runs/7".
Proof. by vm_compute. Qed.

Lemma write_file_ok path a fs :
  writable fs path → write_file path a fs = (Return tt, fs_write path a fs).
Proof.
  intros [Hnd Hdir]. unfold write_file.
  rewrite decide_False by done. by rewrite Hdir.
Qed.

Lemma write_file_files path a fs q :
  q ≠ path → fs_files (write_file path a fs).2 !! q = fs_files fs !! q.
Proof.
  intros Hq. unfold write_file. repeat case_match; simpl; try done.
  by rewrite lookup_insert_ne.
Qed.

Lemma write_file_dirs path a fs : fs_dirs (write_file path a fs).2 = fs_dirs fs.
Proof. unfold write_file. by repeat case_match. Qed.

Lemma elem_of_ancestors_self (name : string) :
  name ≠ EmptyString → name ∈ ancestors (S (String.length name)) name.
Proof. intros Hne. simpl. rewrite decide_False by done. set_solver. Qed.

Lemma makedirs_ok name fs :
  name ≠ EmptyString → ¬ file_in_the_way fs name →
  makedirs name fs = (Return tt, fs_mkdirs name fs).
Proof.
  intros Hname Hfile. unfold makedirs.
  rewrite decide_False by done.
  rewrite decide_False.
  - by rewrite decide_False.
  - intros Hsome. apply Hfile. exists name. split; [|done].
    by apply elem_of_ancestors_self.
Qed.

Lemma makedirs_files name fs : fs_files (makedirs name fs).2 = fs_files fs.
Proof. unfold makedirs. by repeat case_match. Qed.

Lemma makedirs_dirs name fs : fs_dirs fs ⊆ fs_dirs (makedirs name fs).2.
Proof. unfold makedirs. repeat case_match; simpl; set_solver. Qed.

Lemma read_file_fs path fs : (read_file path fs).2 = fs.
Proof. unfold read_file. by repeat case_match. Qed.

(** Reading a path looks at nothing but that path. *)
Lemma read_file_agree path fs1 fs2 :
  fs_files fs1 !! path = fs_files fs2 !! path →
  (path ∈ fs_dirs fs1 ↔ path ∈ fs_dirs fs2) →
  (read_file path fs1).1 = (read_file path fs2).1.
Proof.
  intros Hf Hd. unfold read_file. rewrite Hf.
  destruct (fs_files fs2 !! path); [done|].
  destruct (decide (path ∈ fs_dirs fs1)), (decide (path ∈ fs_dirs fs2)); simpl;
    tauto.
Qed.

Lemma read_file_both path fs1 fs2 :
  fs_files fs1 !! path = fs_files fs2 !! path →
  (path ∈ fs_dirs fs1 ↔ path ∈ fs_dirs fs2) →
  ∃ o, read_file path fs1 = (o, fs1) ∧ read_file path fs2 = (o, fs2).
Proof.
  intros Hf Hd. exists (read_file path fs1).1. split.
  - rewrite <- (read_file_fs path fs1) at 3. by destruct (read_file path fs1).
  - rewrite (read_file_agree path fs1 fs2) by done.
    rewrite <- (read_file_fs path fs2) at 3. by destruct (read_file path fs2).
Qed.

Lemma write_file_raises path a fs e w :
  write_file path a fs = (Raise e, w) → io_error e.
Proof. unfold write_file. repeat case_match; intros; by simplify_eq. Qed.

Lemma makedirs_raises name fs e w : makedirs name fs = (Raise e, w) → io_error e.
Proof. unfold makedirs. repeat case_match; intros; by simplify_eq. Qed.

Lemma fs_write_twice path a b fs : fs_write path b (fs_write path a fs) = fs_write path b fs.
Proof. unfold fs_write. simpl. by rewrite insert_insert_eq. Qed.

Lemma elem_of_ancestors_models x :
  x ∈ ancestors (S (String.length "models")) "models" ↔ x = "models".
Proof.
  cbn [String.length ancestors].
  rewrite decide_False by done.
  assert (dirname "models" = EmptyString) as -> by (by vm_compute).
  rewrite decide_False by done.
  rewrite decide_True by done. set_solver.
Qed.

(** Nothing but a regular file named [models] is in the way of
    [os.makedirs("models")]. *)
Lemma makedirs_models_ok fs :
  fs_files fs !! "models" = None →
  makedirs "models" fs = (Return tt, fs_mkdirs "models" fs).
Proof.
  intros Hfile. apply makedirs_ok; [done|].
  intros (d & Hd & Hsome). apply elem_of_ancestors_models in Hd as ->.
  rewrite Hfile in Hsome. by destruct Hsome.
Qed.

Lemma exists_path_isdir fs d : isdir fs d = true → exists_path fs d = true.
Proof. unfold exists_path. by intros ->. Qed.

(** Where the directory is there, [model.save] is a plain write. *)
Lemma keras_save_ok path a fs :
  writable fs path → keras_save path a fs = (Return tt, fs_write path a fs).
Proof.
  intros Hw. unfold keras_save. rewrite exists_path_isdir by apply Hw.
  unfold mbind, M_bind, mret, M_ret. by apply write_file_ok.
Qed.

Lemma keras_save_files path a fs q :
  q ≠ path → fs_files (keras_save path a fs).2 !! q = fs_files fs !! q.
Proof.
  intros Hq. unfold keras_save, mbind, M_bind, mret, M_ret.
  destruct (exists_path fs (dirname path)); [by apply write_file_files|].
  destruct (makedirs (dirname path) fs) as [[[]|e] w] eqn:Hmk;
    apply (f_equal snd) in Hmk; simpl in Hmk; subst w; simpl.
  - by rewrite write_file_files, makedirs_files.
  - by rewrite makedirs_files.
Qed.

Lemma keras_save_raises path a fs e w :
  keras_save path a fs = (Raise e, w) → io_error e.
Proof.
  unfold keras_save, mbind, M_bind, mret, M_ret.
  destruct (exists_path fs (dirname path)); [apply write_file_raises|].
  destruct (makedirs (dirname path) fs) as [[[]|e'] w'] eqn:Hmk.
  - apply write_file_raises.
  - intros [= <- <-]. by eapply makedirs_raises.
Qed.

Lemma writable_fs_write fs p q a : writable fs p → writable (fs_write q a fs) p.
Proof. done. Qed.

Lemma writable_fs_mkdirs_models fs p :
  p ≠ "models" → writable fs p → writable (fs_mkdirs "models" fs) p.
Proof.
  intros Hp [Hnd Hdir]. split.
  - unfold fs_mkdirs. simpl. rewrite elem_of_union, elem_of_ancestors_models. tauto.
  - unfold isdir in *. simpl.
    apply orb_true_iff in Hdir as [Hdir|Hdir]; apply orb_true_iff; [by left|right].
    apply bool_decide_eq_true in Hdir. apply bool_decide_eq_true. set_solver.
Qed.

(** The JSON object of a label list: entry [str(i)] is label [i]. *)
Lemma json_of_classes_lookup (classes : list string) (i : nat) :
  json_of_classes classes !! py_str_nat i = PStr <$> classes !! i.
Proof.
  unfold json_of_classes.
  assert (∀ (l : list string) (d : gmap string pyval) (k : nat),
    foldl (λ d p, <[py_str_nat p.1 := PStr p.2]> d) d (imap (λ j, pair (k + j)%nat) l)
      !! py_str_nat i =
    if decide (k ≤ i < k + length l)%nat then PStr <$> l !! (i - k)%nat
    else d !! py_str_nat i) as Hgen.
  { induction l as [|x l IH]; intros d k; simpl.
    - rewrite decide_False by lia. done.
    - rewrite (imap_ext _ (λ j, pair (S k + j)%nat)) by (intros; simpl; f_equal; lia).
      rewrite IH. clear IH.
      destruct (decide (S k ≤ i < S k + length l)%nat).
      + rewrite decide_True by lia.
        replace (i - k)%nat with (S (i - S k)) by lia. done.
      + destruct (decide (i = k)) as [->|Hne].
        * rewrite decide_True by lia. rewrite Nat.add_0_r, lookup_insert_eq.
          by rewrite Nat.sub_diag.
        * rewrite decide_False by lia. rewrite lookup_insert_ne; [done|].
          unfold py_str_nat. intros Heq%(inj pretty). simpl in Heq. lia. }
  specialize (Hgen classes ∅ 0%nat).
  rewrite (imap_ext _ pair) in Hgen by done.
  rewrite Hgen. case_decide.
  - by rewrite Nat.sub_0_r.
  - rewrite lookup_empty. rewrite lookup_ge_None_2 by lia. done.
Qed.

Lemma json_of_classes_size (classes : list string) :
  size (json_of_classes classes) = length classes.
Proof.
  unfold json_of_classes.
  assert (∀ (l : list string) (d : gmap string pyval) (k : nat),
    (∀ j, d !! py_str_nat (k + j) = None) →
    size (foldl (λ d p, <[py_str_nat p.1 := PStr p.2]> d) d
            (imap (λ j, pair (k + j)%nat) l))
      = (size d + length l)%nat) as Hgen.
  { induction l as [|x l IH]; intros d k Hd; simpl; [lia|].
    rewrite (imap_ext _ (λ j, pair (S k + j)%nat)) by (intros; simpl; f_equal; lia).
    rewrite IH.
    - rewrite map_size_insert_None by apply Hd. lia.
    - intros j. rewrite lookup_insert_ne.
      + replace (S k + j)%nat with (k + S j)%nat by lia. apply Hd.
      + unfold py_str_nat. intros Heq%(inj pretty). simpl in Heq. lia. }
  specialize (Hgen classes ∅ 0%nat).
  rewrite (imap_ext _ pair) in Hgen by done.
  rewrite Hgen by (intros; apply lookup_empty). by rewrite map_size_empty.
Qed.

(** Reading back the JSON object of a label list gives the list. *)
Lemma classes_of_json_of_classes (classes : list string) :
  classes_of_json (json_of_classes classes) = Return classes.
Proof.
  unfold classes_of_json. rewrite json_of_classes_size.
  apply traverse_Forall2_Return.
  apply Forall2_lookup. intros i.
  destruct (classes !! i) as [label|] eqn:Hi.
  - rewrite lookup_seq_lt by (by eapply lookup_lt_Some). constructor.
    simpl. by rewrite json_of_classes_lookup, Hi.
  - rewrite lookup_seq_ge by (by apply lookup_ge_None). constructor.
Qed.

End fs_lemmas.

(** Replaces the two reads of one path by their common outcome. *)
Ltac read_both Hf Hd :=
  let o := fresh "o" in
  let H1 := fresh in
  let H2 := fresh in
  destruct (read_file_both _ _ _ Hf Hd) as (o & H1 & H2);
  rewrite H1, H2; clear H1 H2; cbn [fst snd].

(** ** Label encoding *)

Section label_encoding.
Import LabelEncoder.

Lemma class_table_notin (l : list string) (d : gmap string nat) (f : nat → nat) x :
  x ∉ l →
  foldl (λ d p, <[p.2 := p.1]> d) d (imap (λ j, pair (f j)) l) !! x = d !! x.
Proof.
  revert d f. induction l as [|y l IH]; intros d f Hx; simpl; [done|].
  apply not_elem_of_cons in Hx as [Hxy Hx].
  rewrite (imap_ext _ (λ j, pair (f (S j)))) by done.
  rewrite IH by done. by rewrite lookup_insert_ne.
Qed.


Lemma class_table_lookup_from (l : list string) (d : gmap string nat) (k i : nat)
    (label : string) :
  NoDup l → l !! i = Some label →
  foldl (λ d p, <[p.2 := p.1]> d) d (imap (λ j, pair (k + j)%nat) l) !! label
    = Some (k + i)%nat.
Proof.
  revert d k i. induction l as [|y l IH]; intros d k i Hnd Hi; [done|].
  apply NoDup_cons in Hnd as [Hy Hnd]. simpl.
  rewrite (imap_ext _ (λ j, pair (S k + j)%nat)) by (intros; simpl; f_equal; lia).
  destruct i as [|i]; simpl in Hi.
  - injection Hi as ->.
    rewrite (class_table_notin l _ (λ j, (S k + j)%nat)) by done.
    simpl. by rewrite lookup_insert_eq.
  - rewrite (IH _ (S k) i) by done. f_equal. lia.
Qed.

(** In a duplicate-free list of classes, a label is encoded by its
    position. *)
Lemma class_table_lookup (classes : list string) (i : nat) (label : string) :
  NoDup classes → classes !! i = Some label → class_table classes !! label = Some i.
Proof.
  intros Hnd Hi. unfold class_table.
  by rewrite (class_table_lookup_from classes ∅ 0 i label).
Qed.

Lemma np_unique_NoDup (y : list string) : NoDup (np_unique y).
Proof.
  unfold np_unique. rewrite merge_sort_Permutation. apply NoDup_remove_dups.
Qed.

Lemma elem_of_np_unique (y : list string) (label : string) :
  label ∈ np_unique y ↔ label ∈ y.
Proof.
  unfold np_unique. rewrite merge_sort_Permutation. apply elem_of_remove_dups.
Qed.

Lemma string_take_all (n : nat) (s : string) :
  (String.length s ≤ n)%nat → string_take n s = s.
Proof.
  revert n. induction s as [|c s IH]; intros [|n] Hn; simpl in *; try done; [lia|].
  rewrite IH; [done|lia].
Qed.

Lemma string_take_length (n : nat) (s : string) :
  (String.length (string_take n s) ≤ n)%nat.
Proof.
  revert s. induction n as [|n IH]; intros [|c s]; simpl; try lia.
  specialize (IH s). lia.
Qed.

(** No class is longer than the dtype of the classes is wide. *)
Lemma dtype_width_ge (classes : list string) (label : string) :
  label ∈ classes → (String.length label ≤ dtype_width classes)%nat.
Proof.
  unfold dtype_width. induction classes as [|c classes IH]; intros Hin.
  - by apply elem_of_nil in Hin.
  - rewrite fmap_cons. cbn [foldr].
    apply elem_of_cons in Hin as [->|Hin]; [lia|].
    specialize (IH Hin). lia.
Qed.

(** The conversion to the dtype of the classes leaves the classes as
    they are. *)
Lemma as_dtype_of_classes (classes y : list string) :
  y ⊆ classes → as_dtype_of classes y = y.
Proof.
  intros Hy. unfold as_dtype_of. induction y as [|label y IH]; [done|].
  rewrite fmap_cons. rewrite string_take_all.
  - f_equal. apply IH. set_solver.
  - apply dtype_width_ge. set_solver.
Qed.

(** Every label the encoder was fitted on is encoded by its position
    in [classes_]. *)
Lemma transform_fitted (y : list string) (label : string) :
  label ∈ y →
  ∃ i, np_unique y !! i = Some label
       ∧ transform [label] {| classes_ := Some (np_unique y) |} = Return [Z.of_nat i].
Proof.
  intros Hin. apply elem_of_np_unique in Hin.
  pose proof Hin as Hin'.
  apply list_elem_of_lookup in Hin as [i Hi]. exists i. split; [done|].
  unfold transform. cbn [classes_].
  rewrite as_dtype_of_classes by set_solver.
  unfold encode. simpl.
  by rewrite (class_table_lookup _ i) by auto using np_unique_NoDup.
Qed.

Lemma class_table_inv_from (l : list string) (d : gmap string nat) (k n : nat)
    (label : string) :
  foldl (λ d p, <[p.2 := p.1]> d) d (imap (λ j, pair (k + j)%nat) l) !! label = Some n →
  d !! label = Some n ∨ ∃ i, n = (k + i)%nat ∧ l !! i = Some label.
Proof.
  revert d k. induction l as [|y l IH]; intros d k; simpl; [by left|].
  rewrite (imap_ext _ (λ j, pair (S k + j)%nat)) by (intros; simpl; f_equal; lia).
  intros [Hd|(i & -> & Hi)]%IH.
  - simpl in Hd. destruct (decide (y = label)) as [->|Hne].
    + rewrite lookup_insert_eq in Hd. injection Hd as <-.
      right. exists 0%nat. split; [lia|done].
    + rewrite lookup_insert_ne in Hd by done. by left.
  - right. exists (S i). split; [lia|done].
Qed.

(** A code is the position of its label in [classes]. *)
Lemma encode_sound (classes y : list string) (codes : list Z) :
  encode classes y = Return codes →
  Forall2 (λ label z, ∃ i, z = Z.of_nat i ∧ classes !! i = Some label) y codes.
Proof.
  intros Henc. apply traverse_Return_Forall2 in Henc.
  eapply Forall2_impl; [exact Henc|]. intros label z. simpl.
  destruct (class_table classes !! label) as [i|] eqn:Hi; [|done].
  intros [= <-]. exists i. split; [done|].
  apply (class_table_inv_from classes ∅ 0) in Hi as [Hi|(j & -> & Hj)]; [done|].
  done.
Qed.

End label_encoding.
(** Decides that a given exception is not one of the three. *)
Ltac not_untrained :=
  let Hu := fresh in
  intros Hu; apply (bool_decide_pack _) in Hu; vm_compute in Hu; exact Hu.

Lemma io_error_not_untrained e : io_error e → ¬ untrained_error e.
Proof. destruct e; try done; intros _; not_untrained. Qed.

(** ** PyTorchLSTMStrategy *)

Module PyTorchFacts.
Section facts.
Context `{Backend}.
Import PyTorchLSTMStrategy.

Lemma pt_load_state_dict_shape sd m m' :
  Torch.load_state_dict sd m = Return m' → Torch.shape_of m' = Torch.shape_of m.
Proof. unfold Torch.load_state_dict. case_decide; [|done]. by intros [= <-]. Qed.

Lemma pt_predict_keeps_flag X : keeps (λ s, _is_trained s = true) (predict X).
Proof. unfold predict, the_model. repeat keeps_step; done. Qed.

Lemma pt_export_keeps_flag : keeps (λ s, _is_trained s = true) export_to_onnx.
Proof. unfold export_to_onnx, the_model. repeat keeps_step; done. Qed.

Lemma pt_save_keeps_flag : keeps (λ s, _is_trained s = true) save_model.
Proof.
  unfold save_model, the_model, the_classes.
  repeat keeps_step; try done. apply pt_export_keeps_flag.
Qed.

Lemma pt_load_keeps_flag prefix : keeps (λ s, _is_trained s = true) (load_model prefix).
Proof. unfold load_model, the_classes. repeat keeps_step; done. Qed.

Lemma pt_train_keeps_flag X_train y_train X_test y_test :
  keeps (λ s, _is_trained s = true) (train X_train y_train X_test y_test).
Proof.
  unfold train, the_classes.
  repeat first [apply pt_predict_keeps_flag | keeps_step]; done.
Qed.

Lemma pt_run_keeps_flag c : keeps (λ s, _is_trained s = true) (run c).
Proof.
  destruct c; simpl.
  - apply keeps_bind; [apply pt_train_keeps_flag|intros; apply keeps_ret].
  - apply keeps_bind; [apply pt_predict_keeps_flag|intros; apply keeps_ret].
  - apply pt_save_keeps_flag.
  - apply pt_load_keeps_flag.
  - apply pt_export_keeps_flag.
Qed.

Lemma pt_run_all_keeps_flag calls σ :
  _is_trained σ.1 = true → _is_trained (run_all calls σ).1 = true.
Proof.
  revert σ. induction calls as [|c calls IH]; intros σ Hσ; [done|].
  simpl. apply IH. by apply pt_run_keeps_flag.
Qed.

(** *** Trained objects have a network and label classes *)

Ltac obj_simpl :=
  cbn [fst snd vocab_size embedding_dim hidden_dim max_len tokenizer label_encoder
       model _is_trained output_path set_tokenizer set_label_encoder set_model
       set_is_trained LabelEncoder.classes_] in *.

Ltac consistent_tac :=
  unfold consistent in *; obj_simpl; intros; simplify_eq;
  repeat match goal with
         | H : ?P → _ ∧ _, H' : ?P |- _ => specialize (H H')
         end;
  destruct_and?; eauto.

Lemma pt_wp_consistent {A} (m : M state A) σ :
  wp m (λ _ σ', consistent σ'.1) σ → consistent (m σ).2.1.
Proof. done. Qed.

Lemma pt_consistent_set_model m s : consistent s → consistent (set_model (Some m) s).
Proof. unfold consistent. simpl. intros Hs Ht. split; [by eexists|]. by apply Hs. Qed.

Lemma pt_predict_keeps_consistent X : keeps consistent (predict X).
Proof.
  unfold predict, the_model.
  repeat keeps_step; try done; by apply pt_consistent_set_model.
Qed.

Lemma pt_export_keeps_consistent : keeps consistent export_to_onnx.
Proof.
  unfold export_to_onnx, the_model.
  repeat keeps_step; try done; by apply pt_consistent_set_model.
Qed.

Lemma pt_save_keeps_consistent : keeps consistent save_model.
Proof.
  unfold save_model, the_model, the_classes.
  repeat keeps_step; try done. apply pt_export_keeps_consistent.
Qed.

Lemma pt_load_keeps_consistent prefix : keeps consistent (load_model prefix).
Proof.
  intros [self fs] Hself. apply (pt_wp_consistent (load_model prefix)).
  unfold load_model, the_classes.
  repeat (wp_step; obj_simpl); consistent_tac.
Qed.

Lemma pt_train_keeps_consistent X_train y_train X_test y_test :
  keeps consistent (train X_train y_train X_test y_test).
Proof.
  intros [self fs] Hself. apply (pt_wp_consistent (train X_train y_train X_test y_test)).
  unfold train, predict, the_classes, the_model, LabelEncoder.fit_transform.
  repeat (wp_step; obj_simpl); consistent_tac.
Qed.

Lemma pt_run_keeps_consistent c : keeps consistent (run c).
Proof.
  destruct c; simpl.
  - apply keeps_bind; [apply pt_train_keeps_consistent|intros; apply keeps_ret].
  - apply keeps_bind; [apply pt_predict_keeps_consistent|intros; apply keeps_ret].
  - apply pt_save_keeps_consistent.
  - apply pt_load_keeps_consistent.
  - apply pt_export_keeps_consistent.
Qed.

Lemma pt_reachable_consistent self : reachable self → consistent self.
Proof.
  induction 1 as [|self fs c _ IH]; [done|].
  by apply (pt_run_keeps_consistent c (self, fs)).
Qed.

(** A trained object that a client can hold has the three artifacts
    to persist. *)
Lemma pt_reachable_artifacts self :
  reachable self → _is_trained self = true → is_Some (artifacts self).
Proof.
  intros Hreach Hs. destruct (pt_reachable_consistent self Hreach Hs) as [[m Hm] [cs Hcs]].
  unfold artifacts. rewrite Hm, Hcs. simpl. eauto.
Qed.

(** *** predict and load_model on a new object *)

Lemma pt_predict_new vocab_size embedding_dim hidden_dim max_len output_path X fs :
  let self := init vocab_size embedding_dim hidden_dim max_len output_path in
  predict X (self, fs)
    = (Raise (AttributeError "'NoneType' object has no attribute 'eval'"), (self, fs)).
Proof. reflexivity. Qed.

Lemma pt_load_model_new vocab_size embedding_dim hidden_dim max_len output_path prefix fs :
  let self := init vocab_size embedding_dim hidden_dim max_len output_path in
  load_model prefix (self, fs)
    = (Raise (AttributeError "'LabelEncoder' object has no attribute 'classes_'"),
       (self, fs)).
Proof. reflexivity. Qed.

(** Whatever the files hold, the network [load_model] leaves in
    [self.model] has as many outputs as the encoder had classes before
    the call. *)
Lemma pt_load_model_sized self fs prefix classes :
  LabelEncoder.classes_ (label_encoder self) = Some classes →
  ∃ m, model (load_model prefix (self, fs)).2.1 = Some m
       ∧ Torch.tc_num_classes m = Z.of_nat (length classes).
Proof.
  intros Hcs.
  change (wp (load_model prefix)
            (λ _ σ', ∃ m, model σ'.1 = Some m
                          ∧ Torch.tc_num_classes m = Z.of_nat (length classes))
            (self, fs)).
  unfold load_model, the_classes.
  repeat (wp_step; obj_simpl); simplify_eq; try by eauto.
  all: eexists; split; [done|].
  all: match goal with
       | Hsd : Torch.load_state_dict _ _ = Return _ |- _ =>
           apply pt_load_state_dict_shape in Hsd; unfold Torch.shape_of in Hsd;
           by simplify_eq/=
       end.
Qed.

(** *** save_model *)

Lemma pt_save_model_untrained self fs :
  _is_trained self = false →
  save_model (self, fs) = (Raise (RuntimeError "Cannot save untrained model"), (self, fs)).
Proof. intros Hs. unfold save_model. py_unfold. simpl. by rewrite Hs. Qed.

Lemma pt_export_untrained self fs :
  _is_trained self = false →
  export_to_onnx (self, fs)
    = (Raise (RuntimeError "Model must be trained before exporting to ONNX"), (self, fs)).
Proof. intros Hs. unfold export_to_onnx. py_unfold. simpl. by rewrite Hs. Qed.

Lemma pt_select_time_raises t (x : list (list (list scalar))) e :
  Torch.select_time t x = Raise e → e = IndexError "index out of bounds for dimension 1".
Proof.
  unfold Torch.select_time. induction x as [|row x IH]; simpl; [done|].
  destruct (row !! t); simpl; [|by intros [= <-]].
  destruct (traverse _ x); simpl; [done|]. intros [= <-]. by apply IH.
Qed.

Lemma pt_forward_raises m x e : Torch.forward m x = Raise e → ¬ untrained_error e.
Proof.
  unfold Torch.forward.
  destruct (Torch.select_time _ _) as [v|e'] eqn:Htr; simpl; [done|]. intros [= <-].
  apply pt_select_time_raises in Htr as ->. not_untrained.
Qed.

Lemma pt_save_model_trained_error self fs e :
  _is_trained self = true → (save_model (self, fs)).1 = Raise e → ¬ untrained_error e.
Proof.
  intros Hs.
  change (wp save_model (λ o _, o = Raise e → ¬ untrained_error e) (self, fs)).
  unfold save_model, export_to_onnx, the_model, the_classes.
  repeat (wp_step; obj_simpl); simplify_eq/=; try done.
  all: try (rewrite Hs in *; discriminate).
  all: intros [= <-].
  all: first
    [ by eauto using io_error_not_untrained, write_file_raises, makedirs_raises,
         pt_forward_raises
    | not_untrained ].
Qed.

(** A trained object whose files can be written: [save_model] writes
    the three artifacts and goes on as [export_to_onnx]. *)
Lemma pt_save_model_trained self fs arts :
  _is_trained self = true → artifacts self = Some arts → can_save self fs →
  save_model (self, fs)
    = export_to_onnx
        (self, fs_write_all (zip (save_paths self) arts) (fs_mkdirs "models" fs)).
Proof.
  intros Hs Harts [Hmodels Hw].
  unfold artifacts in Harts.
  destruct (model self) as [m|] eqn:Hm; [|done].
  destruct (LabelEncoder.classes_ (label_encoder self)) as [classes|] eqn:Hcs; [|done].
  simpl in Harts. injection Harts as <-.
  unfold save_paths in *. apply Forall_cons in Hw as [Hw1 Hw].
  apply Forall_cons in Hw as [Hw2 Hw]. apply Forall_cons in Hw as [Hw3 _].
  apply (writable_fs_mkdirs_models fs) in Hw1; [|path_neq].
  apply (writable_fs_mkdirs_models fs) in Hw2; [|path_neq].
  apply (writable_fs_mkdirs_models fs) in Hw3; [|path_neq].
  unfold save_model, the_model, the_classes. py_unfold. cbn [fst snd].
  repeat (first [ rewrite Hs | rewrite Hm | rewrite Hcs
                | rewrite makedirs_models_ok by done
                | rewrite write_file_ok by done ];
          cbn [negb fst snd]).
  by rewrite fs_write_twice.
Qed.

(** [export_to_onnx] writes no file but [model.onnx]. *)
Lemma pt_export_files self fs q :
  q ≠ fstr_opt (output_path self) +:+ "/model.onnx" →
  fs_files (export_to_onnx (self, fs)).2.2 !! q = fs_files fs !! q.
Proof.
  intros Hq.
  change (wp export_to_onnx (λ _ σ', fs_files σ'.2 !! q = fs_files fs !! q) (self, fs)).
  unfold export_to_onnx, the_model.
  repeat (wp_step; obj_simpl); try done.
  all: match goal with
       | Hw : write_file _ _ _ = (_, ?w) |- _ =>
           apply (f_equal snd) in Hw; simpl in Hw; subst w;
           by rewrite write_file_files
       end.
Qed.

(** After [save_model] the three artifacts are in the files named by
    [save_paths], whether or not the export that follows succeeds. *)
Lemma pt_save_model_files self fs arts :
  _is_trained self = true → artifacts self = Some arts → can_save self fs →
  Forall2 (λ path a, fs_files (save_model (self, fs)).2.2 !! path = Some a)
    (save_paths self) arts.
Proof.
  intros Hs Harts Hfs. rewrite (pt_save_model_trained self fs arts) by done.
  unfold artifacts in Harts.
  destruct (model self) as [m|]; [|done].
  destruct (LabelEncoder.classes_ (label_encoder self)) as [classes|]; [|done].
  simpl in Harts. injection Harts as <-.
  unfold save_paths. repeat constructor.
  all: rewrite pt_export_files by path_neq; simpl.
  - rewrite !lookup_insert_ne by path_neq. by rewrite lookup_insert_eq.
  - rewrite !lookup_insert_ne by path_neq. by rewrite lookup_insert_eq.
  - by rewrite lookup_insert_eq.
Qed.

(** *** load_model *)

(** [load_model] looks at the three files of [load_paths] and at
    nothing else, and writes nothing. *)
Lemma pt_load_model_reads self prefix fs1 fs2 :
  same_at (load_paths prefix) fs1 fs2 →
  (load_model prefix (self, fs1)).1 = (load_model prefix (self, fs2)).1
  ∧ (load_model prefix (self, fs1)).2.1 = (load_model prefix (self, fs2)).2.1
  ∧ (load_model prefix (self, fs1)).2.2 = fs1.
Proof.
  unfold same_at, load_paths. intros Hsame.
  apply Forall_cons in Hsame as [[Hf1 Hd1] Hsame].
  apply Forall_cons in Hsame as [[Hf2 Hd2] Hsame].
  apply Forall_cons in Hsame as [[Hf3 Hd3] _].
  unfold load_model, the_classes, torch_load, json_load. py_unfold. cbn [fst snd].
  destruct (LabelEncoder.classes_ (label_encoder self)); [|done]. cbn [fst snd].
  read_both Hf1 Hd1. destruct o as [[]|]; cbn [fst snd]; try done.
  destruct (Torch.load_state_dict _ _); cbn [fst snd]; try done.
  read_both Hf2 Hd2. destruct o as [[]|]; cbn [fst snd]; try done.
  destruct (index_of_json _); cbn [fst snd]; try done.
  read_both Hf3 Hd3. destruct o as [[]|]; cbn [fst snd]; try done.
  by destruct (classes_of_json _).
Qed.

(** No file [save_model] writes is a file [load_model] reads. *)
Lemma pt_save_load_paths_differ self prefix p q :
  p ∈ save_paths self → q ∈ load_paths prefix → p ≠ q.
Proof.
  unfold save_paths, load_paths. intros Hp Hq.
  repeat (apply elem_of_cons in Hp as [->|Hp]);
    repeat (apply elem_of_cons in Hq as [->|Hq]);
    try (by apply elem_of_nil in Hp); try (by apply elem_of_nil in Hq); path_neq.
Qed.

(** *** train *)

Lemma pt_train_returns X_train y_train X_test y_test self fs metrics self' fs' :
  train X_train y_train X_test y_test (self, fs) = (Return metrics, (self', fs')) →
  _is_trained self' = true
  ∧ LabelEncoder.classes_ (label_encoder self')
      = Some (LabelEncoder.np_unique y_train)
  ∧ output_path self' = output_path self
  ∧ fs' = fs.
Proof.
  intros Htrain.
  assert (wp (train X_train y_train X_test y_test)
            (λ o σ', match o with
                     | Return _ =>
                         _is_trained σ'.1 = true
                         ∧ LabelEncoder.classes_ (label_encoder σ'.1)
                             = Some (LabelEncoder.np_unique y_train)
                         ∧ output_path σ'.1 = output_path self
                         ∧ σ'.2 = fs
                     | Raise _ => True
                     end) (self, fs)) as Hwp.
  { unfold train, predict, the_classes, the_model, LabelEncoder.fit_transform.
    repeat (wp_step; obj_simpl); by simplify_eq. }
  exact (wp_elim _ _ _ _ _ Hwp Htrain).
Qed.

(** *** export_to_onnx *)

Lemma pt_export_trained self fs m :
  _is_trained self = true → model self = Some m → 0 < max_len self →
  writable fs (fstr_opt (output_path self) +:+ "/model.onnx") →
  export_to_onnx (self, fs)
    = (Return tt,
       (set_model (Some (Torch.set_training false m)) self,
        fs_write (fstr_opt (output_path self) +:+ "/model.onnx")
          (OnnxFile (Onnx.torch_onnx_export (Torch.set_training false m)
                       [1; max_len self] "input_ids" "output"
                       ["input_ids"; "output"] 17)) fs)).
Proof.
  intros Hs Hm Hlen Hw.
  destruct (forward_returns (Torch.set_training false m)
              [replicate (Z.to_nat (max_len self)) 0]) as (pooled & _ & Hfwd).
  { repeat constructor. destruct (Z.to_nat (max_len self)) eqn:Hn; [lia|done]. }
  unfold export_to_onnx, the_model. py_unfold. cbn [fst snd].
  destruct (max_len self <? 0) eqn:Hneg; [lia|].
  repeat (first [ rewrite Hs | rewrite Hm | rewrite Hneg | rewrite Hfwd
                | rewrite write_file_ok by done ];
          cbn [negb fst snd]; obj_simpl).
  done.
Qed.

Lemma pt_torch_graph_declarations (m : Torch.TextClassifier) (n : Z) :
  let g := Onnx.torch_onnx_export m [1; n] "input_ids" "output"
             ["input_ids"; "output"] 17 in
  Onnx.graph_inputs g
    = [{| Onnx.tensor_name := "input_ids";
          Onnx.tensor_shape := [Onnx.Dynamic; Onnx.Fixed n] |}]
  ∧ Onnx.graph_outputs g
    = [{| Onnx.tensor_name := "output";
          Onnx.tensor_shape := [Onnx.Dynamic; Onnx.Fixed (Torch.tc_num_classes m)] |}]
  ∧ Onnx.opset g = 17.
Proof. done. Qed.

End facts.
End PyTorchFacts.
(** ** TensorFlowLSTMStrategy *)

Module TensorFlowFacts.
Section facts.
Context `{Backend}.
Import TensorFlowLSTMStrategy.

Ltac obj_simpl :=
  cbn [fst snd vocab_size max_len tokenizer label_encoder
       model _is_trained output_path set_tokenizer set_label_encoder set_model
       set_is_trained LabelEncoder.classes_] in *.

Ltac consistent_tac :=
  unfold consistent in *; obj_simpl; intros; simplify_eq;
  repeat match goal with
         | H : ?P → _ ∧ _, H' : ?P |- _ => specialize (H H')
         end;
  destruct_and?; eauto.

(** *** The trained flag is never reset *)

Lemma tf_predict_keeps_flag X_seq : keeps (λ s, _is_trained s = true) (predict X_seq).
Proof. unfold predict, argmax_predict, the_model. repeat keeps_step; done. Qed.

Lemma tf_export_keeps_flag : keeps (λ s, _is_trained s = true) export_to_onnx.
Proof. unfold export_to_onnx, the_model. repeat keeps_step; done. Qed.

Lemma tf_save_keeps_flag : keeps (λ s, _is_trained s = true) save_model.
Proof.
  unfold save_model, the_model, the_classes.
  repeat keeps_step; try done. apply tf_export_keeps_flag.
Qed.

Lemma tf_load_keeps_flag prefix : keeps (λ s, _is_trained s = true) (load_model prefix).
Proof. unfold load_model. repeat keeps_step; done. Qed.

Lemma tf_train_keeps_flag X_train y_train X_test y_test :
  keeps (λ s, _is_trained s = true) (train X_train y_train X_test y_test).
Proof.
  unfold train, argmax_predict, the_classes, the_model.
  repeat keeps_step; done.
Qed.

Lemma tf_run_keeps_flag c : keeps (λ s, _is_trained s = true) (run c).
Proof.
  destruct c; simpl.
  - apply keeps_bind; [apply tf_train_keeps_flag|intros; apply keeps_ret].
  - apply keeps_bind; [apply tf_predict_keeps_flag|intros; apply keeps_ret].
  - apply tf_save_keeps_flag.
  - apply tf_load_keeps_flag.
  - apply tf_export_keeps_flag.
Qed.

Lemma tf_run_all_keeps_flag calls σ :
  _is_trained σ.1 = true → _is_trained (run_all calls σ).1 = true.
Proof.
  revert σ. induction calls as [|c calls IH]; intros σ Hσ; [done|].
  simpl. apply IH. by apply tf_run_keeps_flag.
Qed.

(** *** Trained objects have a model and label classes *)

Lemma tf_wp_consistent {A} (m : M state A) σ :
  wp m (λ _ σ', consistent σ'.1) σ → consistent (m σ).2.1.
Proof. done. Qed.

Lemma tf_predict_keeps_consistent X_seq : keeps consistent (predict X_seq).
Proof. unfold predict, argmax_predict, the_model. repeat keeps_step; done. Qed.

Lemma tf_export_keeps_consistent : keeps consistent export_to_onnx.
Proof. unfold export_to_onnx, the_model. repeat keeps_step; done. Qed.

Lemma tf_save_keeps_consistent : keeps consistent save_model.
Proof.
  unfold save_model, the_model, the_classes.
  repeat keeps_step; try done. apply tf_export_keeps_consistent.
Qed.

Lemma tf_load_keeps_consistent prefix : keeps consistent (load_model prefix).
Proof.
  intros [self fs] Hself. apply (tf_wp_consistent (load_model prefix)).
  unfold load_model.
  repeat (wp_step; obj_simpl); consistent_tac.
Qed.

Lemma tf_train_keeps_consistent X_train y_train X_test y_test :
  keeps consistent (train X_train y_train X_test y_test).
Proof.
  intros [self fs] Hself. apply (tf_wp_consistent (train X_train y_train X_test y_test)).
  unfold train, argmax_predict, the_classes, the_model, LabelEncoder.fit_transform.
  repeat (wp_step; obj_simpl); consistent_tac.
Qed.

Lemma tf_run_keeps_consistent c : keeps consistent (run c).
Proof.
  destruct c; simpl.
  - apply keeps_bind; [apply tf_train_keeps_consistent|intros; apply keeps_ret].
  - apply keeps_bind; [apply tf_predict_keeps_consistent|intros; apply keeps_ret].
  - apply tf_save_keeps_consistent.
  - apply tf_load_keeps_consistent.
  - apply tf_export_keeps_consistent.
Qed.

Lemma tf_reachable_consistent self : reachable self → consistent self.
Proof.
  induction 1 as [|self fs c _ IH]; [done|].
  by apply (tf_run_keeps_consistent c (self, fs)).
Qed.

(** A trained object that a client can hold has the three artifacts
    to persist. *)
Lemma tf_reachable_artifacts self :
  reachable self → _is_trained self = true → is_Some (artifacts self).
Proof.
  intros Hreach Hs. destruct (tf_reachable_consistent self Hreach Hs) as [[m Hm] [cs Hcs]].
  unfold artifacts. rewrite Hm, Hcs. simpl. eauto.
Qed.

(** *** predict on a new object *)

Lemma tf_predict_new vocab_size max_len output_path X_seq fs :
  let self := init vocab_size max_len output_path in
  predict X_seq (self, fs)
    = (Raise (AttributeError "'NoneType' object has no attribute 'predict'"), (self, fs)).
Proof. reflexivity. Qed.

(** *** save_model *)

Lemma tf_save_model_untrained self fs :
  _is_trained self = false →
  save_model (self, fs) = (Raise (RuntimeError "Cannot save untrained model"), (self, fs)).
Proof. intros Hs. unfold save_model. py_unfold. simpl. by rewrite Hs. Qed.

Lemma tf_export_untrained self fs :
  _is_trained self = false →
  export_to_onnx (self, fs)
    = (Raise (RuntimeError "Model must be trained before exporting to ONNX"), (self, fs)).
Proof. intros Hs. unfold export_to_onnx. py_unfold. simpl. by rewrite Hs. Qed.

Lemma tf_save_model_trained_error self fs e :
  _is_trained self = true → (save_model (self, fs)).1 = Raise e → ¬ untrained_error e.
Proof.
  intros Hs.
  change (wp save_model (λ o _, o = Raise e → ¬ untrained_error e) (self, fs)).
  unfold save_model, export_to_onnx, the_model, the_classes.
  repeat (wp_step; obj_simpl); simplify_eq/=; try done.
  all: try (rewrite Hs in *; discriminate).
  all: intros [= <-].
  all: first
    [ by eauto using io_error_not_untrained, write_file_raises, makedirs_raises,
         keras_save_raises
    | not_untrained ].
Qed.

(** A trained object whose files can be written: [save_model] writes
    the three artifacts and goes on as [export_to_onnx]. *)
Lemma tf_save_model_trained self fs arts :
  _is_trained self = true → artifacts self = Some arts → can_save self fs →
  save_model (self, fs)
    = export_to_onnx
        (self, fs_write_all (zip (save_paths self) arts) (fs_mkdirs "models" fs)).
Proof.
  intros Hs Harts [Hmodels Hw].
  unfold artifacts in Harts.
  destruct (model self) as [m|] eqn:Hm; [|done].
  destruct (LabelEncoder.classes_ (label_encoder self)) as [classes|] eqn:Hcs; [|done].
  simpl in Harts. injection Harts as <-.
  unfold save_paths in *. apply Forall_cons in Hw as [Hw1 Hw].
  apply Forall_cons in Hw as [Hw2 Hw]. apply Forall_cons in Hw as [Hw3 _].
  apply (writable_fs_mkdirs_models fs) in Hw1; [|path_neq].
  apply (writable_fs_mkdirs_models fs) in Hw2; [|path_neq].
  apply (writable_fs_mkdirs_models fs) in Hw3; [|path_neq].
  unfold save_model, the_model, the_classes. py_unfold. cbn [fst snd].
  repeat (first [ rewrite Hs | rewrite Hm | rewrite Hcs
                | rewrite makedirs_models_ok by done
                | rewrite keras_save_ok by done
                | rewrite write_file_ok by done ];
          cbn [negb fst snd]).
  by rewrite fs_write_twice.
Qed.

(** [export_to_onnx] writes no file but [model.onnx]. *)
Lemma tf_export_files self fs q :
  q ≠ fstr_opt (output_path self) +:+ "/model.onnx" →
  fs_files (export_to_onnx (self, fs)).2.2 !! q = fs_files fs !! q.
Proof.
  intros Hq.
  change (wp export_to_onnx (λ _ σ', fs_files σ'.2 !! q = fs_files fs !! q) (self, fs)).
  unfold export_to_onnx, the_model.
  repeat (wp_step; obj_simpl); try done.
  all: repeat match goal with
       | Hw : write_file _ _ _ = (_, ?w) |- _ =>
           apply (f_equal snd) in Hw; simpl in Hw; subst w
       | Hw : makedirs _ _ = (_, ?w) |- _ =>
           apply (f_equal snd) in Hw; simpl in Hw; subst w
       end.
  all: by rewrite ?write_file_files, ?makedirs_files.
Qed.

(** After [save_model] the three artifacts are in the files named by
    [save_paths], whether or not the export that follows succeeds. *)
Lemma tf_save_model_files self fs arts :
  _is_trained self = true → artifacts self = Some arts → can_save self fs →
  Forall2 (λ path a, fs_files (save_model (self, fs)).2.2 !! path = Some a)
    (save_paths self) arts.
Proof.
  intros Hs Harts Hfs. rewrite (tf_save_model_trained self fs arts) by done.
  unfold artifacts in Harts.
  destruct (model self) as [m|]; [|done].
  destruct (LabelEncoder.classes_ (label_encoder self)) as [classes|]; [|done].
  simpl in Harts. injection Harts as <-.
  unfold save_paths. repeat constructor.
  all: rewrite tf_export_files by path_neq; simpl.
  - rewrite !lookup_insert_ne by path_neq. by rewrite lookup_insert_eq.
  - rewrite !lookup_insert_ne by path_neq. by rewrite lookup_insert_eq.
  - by rewrite lookup_insert_eq.
Qed.

(** *** load_model *)

(** [load_model] looks at the three files of [load_paths] and at
    nothing else, and writes nothing. *)
Lemma tf_load_model_reads self prefix fs1 fs2 :
  same_at (load_paths prefix) fs1 fs2 →
  (load_model prefix (self, fs1)).1 = (load_model prefix (self, fs2)).1
  ∧ (load_model prefix (self, fs1)).2.1 = (load_model prefix (self, fs2)).2.1
  ∧ (load_model prefix (self, fs1)).2.2 = fs1.
Proof.
  unfold same_at, load_paths. intros Hsame.
  apply Forall_cons in Hsame as [[Hf1 Hd1] Hsame].
  apply Forall_cons in Hsame as [[Hf2 Hd2] Hsame].
  apply Forall_cons in Hsame as [[Hf3 Hd3] _].
  unfold load_model, keras_load_model, json_load. py_unfold. cbn [fst snd].
  read_both Hf1 Hd1. destruct o as [[]|]; cbn [fst snd]; try done.
  read_both Hf2 Hd2. destruct o as [[]|]; cbn [fst snd]; try done.
  destruct (index_of_json _); cbn [fst snd]; try done.
  read_both Hf3 Hd3. destruct o as [[]|]; cbn [fst snd]; try done.
  by destruct (classes_of_json _).
Qed.

(** No file [save_model] writes is a file [load_model] reads. *)
Lemma tf_save_load_paths_differ self prefix p q :
  p ∈ save_paths self → q ∈ load_paths prefix → p ≠ q.
Proof.
  unfold save_paths, load_paths. intros Hp Hq.
  repeat (apply elem_of_cons in Hp as [->|Hp]);
    repeat (apply elem_of_cons in Hq as [->|Hq]);
    try (by apply elem_of_nil in Hp); try (by apply elem_of_nil in Hq); path_neq.
Qed.

(** *** train *)

Lemma tf_train_returns X_train y_train X_test y_test self fs metrics self' fs' :
  train X_train y_train X_test y_test (self, fs) = (Return metrics, (self', fs')) →
  _is_trained self' = true
  ∧ LabelEncoder.classes_ (label_encoder self')
      = Some (LabelEncoder.np_unique y_train)
  ∧ output_path self' = output_path self
  ∧ fs' = fs.
Proof.
  intros Htrain.
  assert (wp (train X_train y_train X_test y_test)
            (λ o σ', match o with
                     | Return _ =>
                         _is_trained σ'.1 = true
                         ∧ LabelEncoder.classes_ (label_encoder σ'.1)
                             = Some (LabelEncoder.np_unique y_train)
                         ∧ output_path σ'.1 = output_path self
                         ∧ σ'.2 = fs
                     | Raise _ => True
                     end) (self, fs)) as Hwp.
  { unfold train, argmax_predict, the_classes, the_model, LabelEncoder.fit_transform.
    repeat (wp_step; obj_simpl); by simplify_eq. }
  exact (wp_elim _ _ _ _ _ Hwp Htrain).
Qed.

(** *** export_to_onnx *)

(** When [export_to_onnx] returns, [model.onnx] holds the graph
    converted from [self.model] under the input signature of line 330. *)
Lemma tf_export_returns self fs self' fs' :
  export_to_onnx (self, fs) = (Return tt, (self', fs')) →
  ∃ m, model self = Some m
       ∧ fs_files fs' !! (fstr_opt (output_path self) +:+ "/model.onnx")
           = Some (OnnxFile (Onnx.tf2onnx_from_keras m "input"
                               [Onnx.Dynamic; Onnx.Fixed (max_len self)] 17)).
Proof.
  intros Hexp.
  assert (wp export_to_onnx
            (λ o σ', match o with
                     | Return _ =>
                         ∃ m, model self = Some m
                              ∧ fs_files σ'.2 !! (fstr_opt (output_path self) +:+ "/model.onnx")
                                  = Some (OnnxFile (Onnx.tf2onnx_from_keras m "input"
                                            [Onnx.Dynamic; Onnx.Fixed (max_len self)] 17))
                     | Raise _ => True
                     end) (self, fs)) as Hwp.
  { unfold export_to_onnx, the_model.
    repeat (wp_step; obj_simpl); try done.
    eexists. split; [done|].
    match goal with
    | Hw : write_file _ _ _ = (Return _, _) |- _ =>
        unfold write_file in Hw; repeat case_match; simplify_eq; simpl
    end.
    by rewrite lookup_insert_eq. }
  exact (wp_elim _ _ _ _ _ Hwp Hexp).
Qed.

(** The model a [train] that returned leaves in [self.model] is the
    one of [_build_model], with its layer names. *)
Lemma tf_train_model_names X_train y_train X_test y_test self fs metrics self' fs' :
  train X_train y_train X_test y_test (self, fs) = (Return metrics, (self', fs')) →
  ∃ m, model self' = Some m
       ∧ KerasModel.input_name m = "input"
       ∧ KerasModel.output_name m = "output"
       ∧ max_len self' = max_len self.
Proof.
  intros Htrain.
  assert (wp (train X_train y_train X_test y_test)
            (λ o σ', match o with
                     | Return _ =>
                         ∃ m, model σ'.1 = Some m
                              ∧ KerasModel.input_name m = "input"
                              ∧ KerasModel.output_name m = "output"
                              ∧ max_len σ'.1 = max_len self
                     | Raise _ => True
                     end) (self, fs)) as Hwp.
  { unfold train, argmax_predict, the_classes, the_model, LabelEncoder.fit_transform.
    repeat (wp_step; obj_simpl); try done. simplify_eq. by eexists. }
  exact (wp_elim _ _ _ _ _ Hwp Htrain).
Qed.

End facts.
End TensorFlowFacts.
(** ** ScikitLearnTFIDFStrategy *)

Module ScikitLearnFacts.
Section facts.
Context `{Backend}.
Import ScikitLearnTFIDFStrategy.

Ltac obj_simpl :=
  cbn [fst snd max_features max_len pipeline label_encoder
       _is_trained output_path set_pipeline set_label_encoder
       set_is_trained LabelEncoder.classes_] in *.

Ltac consistent_tac :=
  unfold consistent in *; obj_simpl; intros; simplify_eq;
  repeat match goal with
         | H : ?P → _ ∧ _, H' : ?P |- _ => specialize (H H')
         end;
  destruct_and?; eauto.

Lemma sk_wp_on_pipeline {A} (m : M Pipeline.Pipeline A) Q (σ : state) :
  (∀ o p, m (pipeline σ.1) = (o, p) → Q o (set_pipeline p σ.1, σ.2)) →
  wp (on_pipeline m) Q σ.
Proof.
  intros HQ. unfold wp, on_pipeline.
  destruct (m (pipeline σ.1)) as [o p] eqn:Hm. by apply HQ.
Qed.

Lemma sk_keeps_on_pipeline {A} (J : t → Prop) (m : M Pipeline.Pipeline A) :
  (∀ s p, J s → J (set_pipeline p s)) → keeps J (on_pipeline m).
Proof.
  intros HJ σ Hσ. unfold on_pipeline.
  destruct (m (pipeline σ.1)) as [o p]. by apply HJ.
Qed.

Ltac sk_step :=
  lazymatch goal with
  | |- wp (on_pipeline _) _ _ =>
      apply sk_wp_on_pipeline; intros [?|?] ? ?; cbn beta iota; cbn [fst snd]
  | |- _ => wp_step
  end.

Ltac sk_keeps_step :=
  lazymatch goal with
  | |- keeps _ (on_pipeline _) => apply sk_keeps_on_pipeline; intros ? ? ?; simpl
  | |- _ => keeps_step
  end.

(** *** The trained flag is never reset *)

Lemma sk_predict_keeps_flag X : keeps (λ s, _is_trained s = true) (predict X).
Proof. unfold predict, pipeline_predict. repeat sk_keeps_step; done. Qed.

Lemma sk_export_keeps_flag : keeps (λ s, _is_trained s = true) export_to_onnx.
Proof. unfold export_to_onnx. repeat sk_keeps_step; done. Qed.

Lemma sk_save_keeps_flag : keeps (λ s, _is_trained s = true) save_model.
Proof.
  unfold save_model, the_classes.
  repeat sk_keeps_step; try done. apply sk_export_keeps_flag.
Qed.

Lemma sk_load_keeps_flag prefix : keeps (λ s, _is_trained s = true) (load_model prefix).
Proof. unfold load_model. repeat sk_keeps_step; done. Qed.

Lemma sk_train_keeps_flag X_train y_train X_test y_test :
  keeps (λ s, _is_trained s = true) (train X_train y_train X_test y_test).
Proof.
  unfold train, pipeline_predict, the_classes.
  repeat sk_keeps_step; done.
Qed.

Lemma sk_run_keeps_flag c : keeps (λ s, _is_trained s = true) (run c).
Proof.
  destruct c; simpl.
  - apply keeps_bind; [apply sk_train_keeps_flag|intros; apply keeps_ret].
  - apply keeps_bind; [apply sk_predict_keeps_flag|intros; apply keeps_ret].
  - apply sk_save_keeps_flag.
  - apply sk_load_keeps_flag.
  - apply sk_export_keeps_flag.
Qed.

Lemma sk_run_all_keeps_flag calls σ :
  _is_trained σ.1 = true → _is_trained (run_all calls σ).1 = true.
Proof.
  revert σ. induction calls as [|c calls IH]; intros σ Hσ; [done|].
  simpl. apply IH. by apply sk_run_keeps_flag.
Qed.

(** *** Trained objects have label classes *)

Lemma sk_wp_consistent {A} (m : M state A) σ :
  wp m (λ _ σ', consistent σ'.1) σ → consistent (m σ).2.1.
Proof. done. Qed.

Lemma sk_predict_keeps_consistent X : keeps consistent (predict X).
Proof. unfold predict, pipeline_predict. repeat sk_keeps_step; done. Qed.

Lemma sk_export_keeps_consistent : keeps consistent export_to_onnx.
Proof. unfold export_to_onnx. repeat sk_keeps_step; done. Qed.

Lemma sk_save_keeps_consistent : keeps consistent save_model.
Proof.
  unfold save_model, the_classes.
  repeat sk_keeps_step; try done. apply sk_export_keeps_consistent.
Qed.

Lemma sk_load_keeps_consistent prefix : keeps consistent (load_model prefix).
Proof.
  intros [self fs] Hself. apply (sk_wp_consistent (load_model prefix)).
  unfold load_model.
  repeat (sk_step; obj_simpl); unfold consistent in *; obj_simpl; eauto.
Qed.

Lemma sk_train_keeps_consistent X_train y_train X_test y_test :
  keeps consistent (train X_train y_train X_test y_test).
Proof.
  intros [self fs] Hself. apply (sk_wp_consistent (train X_train y_train X_test y_test)).
  unfold train, pipeline_predict, the_classes, LabelEncoder.fit_transform.
  repeat (sk_step; obj_simpl); unfold consistent in *; obj_simpl; eauto.
Qed.

Lemma sk_run_keeps_consistent c : keeps consistent (run c).
Proof.
  destruct c; simpl.
  - apply keeps_bind; [apply sk_train_keeps_consistent|intros; apply keeps_ret].
  - apply keeps_bind; [apply sk_predict_keeps_consistent|intros; apply keeps_ret].
  - apply sk_save_keeps_consistent.
  - apply sk_load_keeps_consistent.
  - apply sk_export_keeps_consistent.
Qed.

Lemma sk_reachable_consistent self : reachable self → consistent self.
Proof.
  induction 1 as [|self fs c _ IH]; [done|].
  by apply (sk_run_keeps_consistent c (self, fs)).
Qed.

(** *** predict *)

Lemma sk_predict_untrained self fs X :
  _is_trained self = false →
  predict X (self, fs)
    = (Raise (RuntimeError "Model must be trained before predicting"), (self, fs)).
Proof. intros Hs. unfold predict. py_unfold. simpl. by rewrite Hs. Qed.

(** *** save_model *)

Lemma sk_save_model_untrained self fs :
  _is_trained self = false →
  save_model (self, fs) = (Raise (RuntimeError "Cannot save untrained model"), (self, fs)).
Proof. intros Hs. unfold save_model. py_unfold. simpl. by rewrite Hs. Qed.

Lemma sk_export_untrained self fs :
  _is_trained self = false →
  export_to_onnx (self, fs)
    = (Raise (RuntimeError "Model must be trained before exporting to ONNX"), (self, fs)).
Proof. intros Hs. unfold export_to_onnx. py_unfold. simpl. by rewrite Hs. Qed.

Lemma sk_convert_sklearn_raises p name shape target_opset e :
  Onnx.convert_sklearn p name shape target_opset = Raise e → ¬ untrained_error e.
Proof.
  unfold Onnx.convert_sklearn. destruct (Pipeline.clf_classes_ p); [done|].
  intros [= <-]. not_untrained.
Qed.

Lemma sk_save_model_trained_error self fs e :
  _is_trained self = true → (save_model (self, fs)).1 = Raise e → ¬ untrained_error e.
Proof.
  intros Hs.
  change (wp save_model (λ o _, o = Raise e → ¬ untrained_error e) (self, fs)).
  unfold save_model, export_to_onnx, the_classes.
  repeat (sk_step; obj_simpl); simplify_eq/=; try done.
  all: try (rewrite Hs in *; discriminate).
  all: intros [= <-].
  all: first
    [ by eauto using io_error_not_untrained, write_file_raises, makedirs_raises,
         sk_convert_sklearn_raises
    | not_untrained ].
Qed.

(** A trained object with a fitted vocabulary whose files can be
    written: [save_model] writes the three artifacts and goes on as
    [export_to_onnx]. *)
Lemma sk_save_model_trained self fs arts :
  _is_trained self = true → artifacts self = Some arts → can_save self fs →
  save_model (self, fs)
    = export_to_onnx (self, fs_write_all (zip (save_paths self) arts) fs).
Proof.
  intros Hs Harts Hw.
  unfold artifacts in Harts.
  destruct (Pipeline.vocabulary_ (pipeline self)) as [vocab|] eqn:Hv; [|done].
  destruct (LabelEncoder.classes_ (label_encoder self)) as [classes|] eqn:Hcs; [|done].
  simpl in Harts. injection Harts as <-.
  unfold can_save, save_paths in *. apply Forall_cons in Hw as [Hw1 Hw].
  apply Forall_cons in Hw as [Hw2 Hw]. apply Forall_cons in Hw as [Hw3 _].
  unfold save_model, the_classes. py_unfold. cbn [fst snd].
  repeat (first [ rewrite Hs | rewrite Hv | rewrite Hcs
                | rewrite write_file_ok by done ];
          cbn [negb fst snd]).
  by rewrite fs_write_twice.
Qed.

(** [export_to_onnx] writes no file but [model.onnx]. *)
Lemma sk_export_files self fs q :
  q ≠ fstr_opt (output_path self) +:+ "/model.onnx" →
  fs_files (export_to_onnx (self, fs)).2.2 !! q = fs_files fs !! q.
Proof.
  intros Hq.
  change (wp export_to_onnx (λ _ σ', fs_files σ'.2 !! q = fs_files fs !! q) (self, fs)).
  unfold export_to_onnx.
  repeat (sk_step; obj_simpl); try done.
  all: repeat match goal with
       | Hw : write_file _ _ _ = (_, ?w) |- _ =>
           apply (f_equal snd) in Hw; simpl in Hw; subst w
       | Hw : makedirs _ _ = (_, ?w) |- _ =>
           apply (f_equal snd) in Hw; simpl in Hw; subst w
       end.
  all: by rewrite ?write_file_files, ?makedirs_files.
Qed.

(** After [save_model] the three artifacts are in the files named by
    [save_paths], whether or not the export that follows succeeds. *)
Lemma sk_save_model_files self fs arts :
  _is_trained self = true → artifacts self = Some arts → can_save self fs →
  Forall2 (λ path a, fs_files (save_model (self, fs)).2.2 !! path = Some a)
    (save_paths self) arts.
Proof.
  intros Hs Harts Hfs. rewrite (sk_save_model_trained self fs arts) by done.
  unfold artifacts in Harts.
  destruct (Pipeline.vocabulary_ (pipeline self)) as [vocab|]; [|done].
  destruct (LabelEncoder.classes_ (label_encoder self)) as [classes|]; [|done].
  simpl in Harts. injection Harts as <-.
  unfold save_paths. repeat constructor.
  all: rewrite sk_export_files by path_neq; simpl.
  - rewrite !lookup_insert_ne by path_neq. by rewrite lookup_insert_eq.
  - rewrite !lookup_insert_ne by path_neq. by rewrite lookup_insert_eq.
  - by rewrite lookup_insert_eq.
Qed.

(** *** load_model *)

(** [load_model] looks at the three files of [load_paths] and at
    nothing else, and writes nothing. *)
Lemma sk_load_model_reads self prefix fs1 fs2 :
  same_at (load_paths prefix) fs1 fs2 →
  (load_model prefix (self, fs1)).1 = (load_model prefix (self, fs2)).1
  ∧ (load_model prefix (self, fs1)).2.1 = (load_model prefix (self, fs2)).2.1
  ∧ (load_model prefix (self, fs1)).2.2 = fs1.
Proof.
  unfold same_at, load_paths. intros Hsame.
  apply Forall_cons in Hsame as [[Hf1 Hd1] Hsame].
  apply Forall_cons in Hsame as [[Hf2 Hd2] Hsame].
  apply Forall_cons in Hsame as [[Hf3 Hd3] _].
  unfold load_model, joblib_load, json_load, on_pipeline. py_unfold. cbn [fst snd].
  read_both Hf1 Hd1. destruct o as [[]|]; cbn [fst snd]; try done.
  read_both Hf2 Hd2. destruct o as [[]|]; cbn [fst snd]; try done.
  destruct (index_of_json _); cbn [fst snd]; try done.
  read_both Hf3 Hd3. destruct o as [[]|]; cbn [fst snd]; try done.
  by destruct (classes_of_json _).
Qed.

(** No file [save_model] writes is a file [load_model] reads. *)
Lemma sk_save_load_paths_differ self prefix p q :
  p ∈ save_paths self → q ∈ load_paths prefix → p ≠ q.
Proof.
  unfold save_paths, load_paths. intros Hp Hq.
  repeat (apply elem_of_cons in Hp as [->|Hp]);
    repeat (apply elem_of_cons in Hq as [->|Hq]);
    try (by apply elem_of_nil in Hp); try (by apply elem_of_nil in Hq); path_neq.
Qed.

(** *** train *)

(** The object after a [train] that returned: the label classes are
    the distinct training labels, and the pipeline is fitted on their
    codes. *)
Lemma sk_train_returns X_train y_train X_test y_test self fs metrics self' fs' :
  train X_train y_train X_test y_test (self, fs) = (Return metrics, (self', fs')) →
  _is_trained self' = true
  ∧ LabelEncoder.classes_ (label_encoder self')
      = Some (LabelEncoder.np_unique y_train)
  ∧ output_path self' = output_path self
  ∧ fs' = fs
  ∧ ∃ y_train_enc,
      LabelEncoder.encode (LabelEncoder.np_unique y_train) y_train = Return y_train_enc
      ∧ (2 ≤ length (Pipeline.np_unique y_train_enc))%nat
      ∧ Pipeline.clf_classes_ (pipeline self')
          = Some (PInt <$> Pipeline.np_unique y_train_enc)
      ∧ is_Some (Pipeline.vocabulary_ (pipeline self'))
      ∧ is_Some (Pipeline.fitted_params (pipeline self')).
Proof.
  intros Htrain.
  assert (wp (train X_train y_train X_test y_test)
            (λ o σ', match o with
                     | Return _ =>
                         _is_trained σ'.1 = true
                         ∧ LabelEncoder.classes_ (label_encoder σ'.1)
                             = Some (LabelEncoder.np_unique y_train)
                         ∧ output_path σ'.1 = output_path self
                         ∧ σ'.2 = fs
                         ∧ ∃ y_train_enc,
                             LabelEncoder.encode (LabelEncoder.np_unique y_train) y_train
                               = Return y_train_enc
                             ∧ (2 ≤ length (Pipeline.np_unique y_train_enc))%nat
                             ∧ Pipeline.clf_classes_ (pipeline σ'.1)
                                 = Some (PInt <$> Pipeline.np_unique y_train_enc)
                             ∧ is_Some (Pipeline.vocabulary_ (pipeline σ'.1))
                             ∧ is_Some (Pipeline.fitted_params (pipeline σ'.1))
                     | Raise _ => True
                     end) (self, fs)) as Hwp.
  { unfold train, pipeline_predict, the_classes, LabelEncoder.fit_transform.
    repeat (sk_step; obj_simpl); try done.
    match goal with
    | Hfit : Pipeline.fit _ _ _ = _ |- _ =>
        unfold Pipeline.fit in Hfit; repeat case_decide; simplify_eq
    end.
    simpl. split_and!; try done.
    eexists. split; [done|]. split_and!; simpl; eauto. lia. }
  exact (wp_elim _ _ _ _ _ Hwp Htrain).
Qed.

(** *** predict *)

Lemma sk_elem_of_pipeline_np_unique (y : list Z) (z : Z) :
  z ∈ Pipeline.np_unique y ↔ z ∈ y.
Proof.
  unfold Pipeline.np_unique. rewrite merge_sort_Permutation.
  apply elem_of_remove_dups.
Qed.

(** A fitted pipeline predicts, for every sample of an input that has
    samples, one of the targets in [classes_]. *)
Lemma sk_pipeline_predict_fitted (p : Pipeline.Pipeline) (X : list string) classes :
  Pipeline.clf_classes_ p = Some classes → classes ≠ [] → X ≠ [] →
  is_Some (Pipeline.vocabulary_ p) → is_Some (Pipeline.fitted_params p) →
  ∃ preds, Pipeline.predict X p = Return preds
           ∧ length preds = length X
           ∧ Forall (λ v, v ∈ classes) preds.
Proof.
  intros Hcs Hne HX [vocab Hv] [params Hp]. unfold Pipeline.predict.
  rewrite Hv, Hcs, Hp. rewrite decide_False by done. clear HX.
  induction X as [|x X (preds & IH & Hlen & Hall)]; simpl.
  - exists []. by repeat split.
  - destruct (lookup_lt_is_Some_2 classes
                (pipeline_decision params vocab (length classes) x)) as [c Hc].
    { apply pipeline_decision_lt. destruct classes; [done|simpl; lia]. }
    rewrite Hc. simpl. rewrite IH. simpl.
    exists (c :: preds). split_and!; [done|simpl; lia|].
    constructor; [|done]. by eapply list_elem_of_lookup_2.
Qed.

(** *** export_to_onnx *)

(** When [export_to_onnx] returns, [model.onnx] holds the graph
    converted from [self.pipeline] with the initial types of line 419. *)
Lemma sk_export_returns self fs self' fs' :
  export_to_onnx (self, fs) = (Return tt, (self', fs')) →
  ∃ g, Onnx.convert_sklearn (pipeline self) "input" [Onnx.Dynamic] 17 = Return g
       ∧ fs_files fs' !! (fstr_opt (output_path self) +:+ "/model.onnx")
           = Some (OnnxFile g).
Proof.
  intros Hexp.
  assert (wp export_to_onnx
            (λ o σ', match o with
                     | Return _ =>
                         ∃ g, Onnx.convert_sklearn (pipeline self) "input"
                                [Onnx.Dynamic] 17 = Return g
                              ∧ fs_files σ'.2 !! (fstr_opt (output_path self) +:+ "/model.onnx")
                                  = Some (OnnxFile g)
                     | Raise _ => True
                     end) (self, fs)) as Hwp.
  { unfold export_to_onnx.
    repeat (sk_step; obj_simpl); try done.
    eexists. split; [done|].
    match goal with
    | Hw : write_file _ _ _ = (Return _, _) |- _ =>
        unfold write_file in Hw; repeat case_match; simplify_eq; simpl
    end.
    by rewrite lookup_insert_eq. }
  exact (wp_elim _ _ _ _ _ Hwp Hexp).
Qed.

(** After a [train] that returned, the object has the three artifacts
    to persist. *)
Lemma sk_trained_artifacts X_train y_train X_test y_test self fs metrics self' fs' :
  train X_train y_train X_test y_test (self, fs) = (Return metrics, (self', fs')) →
  is_Some (artifacts self').
Proof.
  intros Hret.
  apply sk_train_returns in Hret
    as (_ & Hcs & _ & _ & y_enc & _ & _ & _ & [vocab Hvoc] & _).
  unfold artifacts. rewrite Hvoc, Hcs. simpl. eauto.
Qed.

End facts.
End ScikitLearnFacts.
(** * The lifecycle contract of the three strategies *)

(** ** C1: predict on an untrained object *)

Section predict_guard.
Context `{Backend}.

(** C1 fails on the two recurrent strategies.  On a new object (trained
    flag unset) [PyTorchLSTMStrategy.predict] and
    [TensorFlowLSTMStrategy.predict] fail with the [AttributeError] of
    a method call on [None], which is not an untrained-model error;
    only [ScikitLearnTFIDFStrategy.predict] checks the flag and raises
    the untrained-model error. *)
Theorem predict_untrained_outcomes
    (vocab_size embedding_dim hidden_dim max_len max_features : Z)
    (output_path : option string) (X : list string) (X_seq : list (list Z))
    (fs : FileSystem) :
  let pt := PyTorchLSTMStrategy.init vocab_size embedding_dim hidden_dim max_len output_path in
  let tf := TensorFlowLSTMStrategy.init vocab_size max_len output_path in
  let sk := ScikitLearnTFIDFStrategy.init max_features output_path in
  (PyTorchLSTMStrategy._is_trained pt = false
   ∧ PyTorchLSTMStrategy.predict X (pt, fs)
       = (Raise (AttributeError "'NoneType' object has no attribute 'eval'"), (pt, fs))
   ∧ ¬ untrained_error (AttributeError "'NoneType' object has no attribute 'eval'"))
  ∧ (TensorFlowLSTMStrategy._is_trained tf = false
     ∧ TensorFlowLSTMStrategy.predict X_seq (tf, fs)
         = (Raise (AttributeError "'NoneType' object has no attribute 'predict'"), (tf, fs))
     ∧ ¬ untrained_error (AttributeError "'NoneType' object has no attribute 'predict'"))
  ∧ (ScikitLearnTFIDFStrategy._is_trained sk = false
     ∧ ScikitLearnTFIDFStrategy.predict X (sk, fs)
         = (Raise (RuntimeError "Model must be trained before predicting"), (sk, fs))
     ∧ untrained_error (RuntimeError "Model must be trained before predicting")).
Proof.
  cbv zeta. split_and!; try reflexivity; try not_untrained.
  unfold untrained_error. set_solver.
Qed.

(** The guarded sibling: [ScikitLearnTFIDFStrategy.predict] raises the
    untrained-model error on every object whose flag is unset. *)
Lemma sklearn_predict_guarded (self : ScikitLearnTFIDFStrategy.t) fs X :
  ScikitLearnTFIDFStrategy._is_trained self = false →
  ScikitLearnTFIDFStrategy.predict X (self, fs)
    = (Raise (RuntimeError "Model must be trained before predicting"), (self, fs)).
Proof. apply ScikitLearnFacts.sk_predict_untrained. Qed.

End predict_guard.

(** An object whose flag is unset can even predict: a [load_model]
    that found the model file but no vocabulary file leaves
    [self.model] set and the flag unset. *)
Example tensorflow_predict_flag_unset :
  let m := TensorFlowLSTMStrategy._build_model Demo.tensorflow_new 2 in
  let fs := fs_write "models/p_model.h5" (KerasFile m)
              {| fs_dirs := {["models"]}; fs_files := ∅ |} in
  let σ := (TensorFlowLSTMStrategy.load_model "p" (Demo.tensorflow_new, fs)).2 in
  TensorFlowLSTMStrategy._is_trained σ.1 = false
  ∧ (TensorFlowLSTMStrategy.predict [[2; 3]] σ).1 = Return [1].
Proof. by vm_compute. Qed.

(** Proves a decidable closed proposition by evaluation. *)
Ltac by_compute := apply (bool_decide_unpack _); vm_compute; exact I.

(** Checks, by evaluation, what the files of a given file system hold. *)
Ltac files_hold :=
  repeat (constructor; [vm_compute; reflexivity|]); constructor.

Lemma demo_pytorch_can_save :
  PyTorchLSTMStrategy.can_save Demo.pytorch_trained Demo.fs0.
Proof. split; [by vm_compute|by_compute]. Defined.

Lemma demo_tensorflow_can_save :
  TensorFlowLSTMStrategy.can_save Demo.tensorflow_trained Demo.fs0.
Proof. split; [by vm_compute|by_compute]. Defined.

Lemma demo_sklearn_can_save :
  ScikitLearnTFIDFStrategy.can_save Demo.sklearn_trained Demo.fs0.
Proof. unfold ScikitLearnTFIDFStrategy.can_save. by_compute. Defined.

(** ** C6: save_model *)

Section save.
Context `{Backend}.

Lemma save_contract_intro {S : Type}
    (trained : S → bool) (artifacts : S → option (list artifact))
    (can_save : S → FileSystem → Prop) (save_paths : S → list string)
    (before_writes : FileSystem → FileSystem)
    (save_model export_to_onnx : M (S * FileSystem) unit) :
  (∀ self fs, trained self = false →
     save_model (self, fs)
       = (Raise (RuntimeError "Cannot save untrained model"), (self, fs))) →
  (∀ self fs e, trained self = true →
     (save_model (self, fs)).1 = Raise e → ¬ untrained_error e) →
  (∀ self fs arts,
     trained self = true → artifacts self = Some arts → can_save self fs →
     length arts = 3%nat
     ∧ save_model (self, fs)
       = export_to_onnx
           (self, fs_write_all (zip (save_paths self) arts) (before_writes fs))) →
  save_contract trained artifacts can_save save_paths before_writes
    save_model export_to_onnx.
Proof.
  intros Hun Htr Hsave. split; [|done].
  intros self fs. split.
  - intros (e & He & Hu). destruct (trained self) eqn:Hs; [|done].
    by destruct (Htr self fs e).
  - intros Hs. eexists. rewrite Hun by done. split; [done|].
    unfold untrained_error. set_solver.
Qed.

(** C6.  Each strategy's [save_model] obeys [save_contract].  The three
    artifacts are those of [artifacts]: the model parameters (the
    network's [state_dict], the Keras model, the pipeline), the
    vocabulary as a token → index JSON object and the label map as a
    JSON object whose entry [str(i)] is the label of class [i]. *)
Theorem save_model_contract :
  save_contract PyTorchLSTMStrategy._is_trained PyTorchLSTMStrategy.artifacts
    PyTorchLSTMStrategy.can_save PyTorchLSTMStrategy.save_paths (fs_mkdirs "models")
    PyTorchLSTMStrategy.save_model PyTorchLSTMStrategy.export_to_onnx
  ∧ save_contract TensorFlowLSTMStrategy._is_trained TensorFlowLSTMStrategy.artifacts
      TensorFlowLSTMStrategy.can_save TensorFlowLSTMStrategy.save_paths (fs_mkdirs "models")
      TensorFlowLSTMStrategy.save_model TensorFlowLSTMStrategy.export_to_onnx
  ∧ save_contract ScikitLearnTFIDFStrategy._is_trained ScikitLearnTFIDFStrategy.artifacts
      ScikitLearnTFIDFStrategy.can_save ScikitLearnTFIDFStrategy.save_paths id
      ScikitLearnTFIDFStrategy.save_model ScikitLearnTFIDFStrategy.export_to_onnx
  ∧ (∀ (classes : list string) (i : nat),
       json_of_classes classes !! py_str_nat i = PStr <$> classes !! i)
  ∧ (∀ (index : gmap string Z) (token : string),
       json_of_index index !! token = PInt <$> index !! token).
Proof.
  split_and!.
  - apply save_contract_intro.
    + apply PyTorchFacts.pt_save_model_untrained.
    + apply PyTorchFacts.pt_save_model_trained_error.
    + intros self fs arts Hs Harts Hfs. split.
      * unfold PyTorchLSTMStrategy.artifacts in Harts.
        destruct (PyTorchLSTMStrategy.model self); [|done].
        destruct (LabelEncoder.classes_ _); [|done]. by simplify_eq/=.
      * by apply PyTorchFacts.pt_save_model_trained.
  - apply save_contract_intro.
    + apply TensorFlowFacts.tf_save_model_untrained.
    + apply TensorFlowFacts.tf_save_model_trained_error.
    + intros self fs arts Hs Harts Hfs. split.
      * unfold TensorFlowLSTMStrategy.artifacts in Harts.
        destruct (TensorFlowLSTMStrategy.model self); [|done].
        destruct (LabelEncoder.classes_ _); [|done]. by simplify_eq/=.
      * by apply TensorFlowFacts.tf_save_model_trained.
  - apply save_contract_intro.
    + apply ScikitLearnFacts.sk_save_model_untrained.
    + apply ScikitLearnFacts.sk_save_model_trained_error.
    + intros self fs arts Hs Harts Hfs. split.
      * unfold ScikitLearnTFIDFStrategy.artifacts in Harts.
        destruct (Pipeline.vocabulary_ _); [|done].
        destruct (LabelEncoder.classes_ _); [|done]. by simplify_eq/=.
      * by apply ScikitLearnFacts.sk_save_model_trained.
  - apply json_of_classes_lookup.
  - intros index token. unfold json_of_index. apply lookup_fmap.
Qed.

End save.

Lemma save_model_contract_witness :
  ∃ arts,
    ScikitLearnTFIDFStrategy.artifacts Demo.sklearn_trained = Some arts
    ∧ length arts = 3%nat
    ∧ ScikitLearnTFIDFStrategy.save_model (Demo.sklearn_trained, Demo.fs0)
      = ScikitLearnTFIDFStrategy.export_to_onnx
          (Demo.sklearn_trained,
           fs_write_all (zip (ScikitLearnTFIDFStrategy.save_paths Demo.sklearn_trained) arts)
             (id Demo.fs0)).
Proof.
  eexists. split; [vm_compute; reflexivity|].
  destruct (save_model_contract (H:=Toy.backend)) as (_ & _ & [_ Hsave] & _).
  apply Hsave.
  - vm_compute; reflexivity.
  - vm_compute; reflexivity.
  - exact demo_sklearn_can_save.
Defined.

(** ** C7: the label map *)

Section labels.
Context `{Backend}.

Lemma label_round_trip_intro {S : Type} (trained : S → bool)
    (train : list string → list string → list string → list string →
             M (S * FileSystem) Metrics)
    (label_encoder : S → LabelEncoder.LabelEncoder)
    (artifacts : S → option (list artifact)) (can_save : S → FileSystem → Prop)
    (output_path : S → option string)
    (save_model : M (S * FileSystem) unit) :
  (∀ X_train y_train X_test y_test self fs metrics self' fs',
     train X_train y_train X_test y_test (self, fs) = (Return metrics, (self', fs')) →
     trained self' = true
     ∧ LabelEncoder.classes_ (label_encoder self')
         = Some (LabelEncoder.np_unique y_train)) →
  (∀ self fs arts classes,
     trained self = true →
     LabelEncoder.classes_ (label_encoder self) = Some classes →
     artifacts self = Some arts → can_save self fs →
     fs_files (save_model (self, fs)).2.2
       !! (fstr_opt (output_path self) +:+ "/scaler.json")
       = Some (JsonFile (json_of_classes classes))) →
  label_round_trip train label_encoder artifacts can_save output_path save_model.
Proof.
  intros Htrain Hsave X_train y_train X_test y_test self fs metrics self' fs' Hret
    label Hlabel.
  apply Htrain in Hret as [Hs Hcs].
  destruct (transform_fitted y_train label Hlabel) as (i & Hi & Henc).
  exists i. split.
  - destruct (label_encoder self') as [cs]. simpl in Hcs. by subst cs.
  - intros fs0 arts Harts Hfs0.
    exists (json_of_classes (LabelEncoder.np_unique y_train)),
      (LabelEncoder.np_unique y_train).
    split_and!.
    + by eapply Hsave.
    + by rewrite json_of_classes_lookup, Hi.
    + apply classes_of_json_of_classes.
    + done.
Qed.

(** C7.  For each strategy, after a [train] that returned, every label
    of the training labels makes the round trip through the fitted
    encoder and the persisted label map. *)
Theorem label_map_round_trip :
  label_round_trip PyTorchLSTMStrategy.train PyTorchLSTMStrategy.label_encoder
    PyTorchLSTMStrategy.artifacts PyTorchLSTMStrategy.can_save
    PyTorchLSTMStrategy.output_path PyTorchLSTMStrategy.save_model
  ∧ label_round_trip TensorFlowLSTMStrategy.train TensorFlowLSTMStrategy.label_encoder
      TensorFlowLSTMStrategy.artifacts TensorFlowLSTMStrategy.can_save
      TensorFlowLSTMStrategy.output_path TensorFlowLSTMStrategy.save_model
  ∧ label_round_trip ScikitLearnTFIDFStrategy.train ScikitLearnTFIDFStrategy.label_encoder
      ScikitLearnTFIDFStrategy.artifacts ScikitLearnTFIDFStrategy.can_save
      ScikitLearnTFIDFStrategy.output_path ScikitLearnTFIDFStrategy.save_model.
Proof.
  split_and!.
  - apply (label_round_trip_intro PyTorchLSTMStrategy._is_trained).
    + intros * Hret. apply PyTorchFacts.pt_train_returns in Hret. tauto.
    + intros self fs arts classes Hs Hcs Harts Hfs.
      pose proof (PyTorchFacts.pt_save_model_files self fs arts Hs Harts Hfs) as Hfiles.
      unfold PyTorchLSTMStrategy.artifacts in Harts. rewrite Hcs in Harts.
      destruct (PyTorchLSTMStrategy.model self); simplify_eq/=.
      unfold PyTorchLSTMStrategy.save_paths in Hfiles.
      by repeat (apply Forall2_cons in Hfiles as [? Hfiles]).
  - apply (label_round_trip_intro TensorFlowLSTMStrategy._is_trained).
    + intros * Hret. apply TensorFlowFacts.tf_train_returns in Hret. tauto.
    + intros self fs arts classes Hs Hcs Harts Hfs.
      pose proof (TensorFlowFacts.tf_save_model_files self fs arts Hs Harts Hfs) as Hfiles.
      unfold TensorFlowLSTMStrategy.artifacts in Harts. rewrite Hcs in Harts.
      destruct (TensorFlowLSTMStrategy.model self); simplify_eq/=.
      unfold TensorFlowLSTMStrategy.save_paths in Hfiles.
      by repeat (apply Forall2_cons in Hfiles as [? Hfiles]).
  - apply (label_round_trip_intro ScikitLearnTFIDFStrategy._is_trained).
    + intros * Hret. apply ScikitLearnFacts.sk_train_returns in Hret. tauto.
    + intros self fs arts classes Hs Hcs Harts Hfs.
      pose proof (ScikitLearnFacts.sk_save_model_files self fs arts Hs Harts Hfs) as Hfiles.
      unfold ScikitLearnTFIDFStrategy.artifacts in Harts. rewrite Hcs in Harts.
      destruct (Pipeline.vocabulary_ _); simplify_eq/=.
      unfold ScikitLearnTFIDFStrategy.save_paths in Hfiles.
      by repeat (apply Forall2_cons in Hfiles as [? Hfiles]).
Qed.

End labels.

Lemma label_map_round_trip_witness :
  ∃ i,
    LabelEncoder.transform ["pos"]
      (ScikitLearnTFIDFStrategy.label_encoder Demo.sklearn_trained)
      = Return [Z.of_nat i]
    ∧ ∀ fs0 arts,
        ScikitLearnTFIDFStrategy.artifacts Demo.sklearn_trained = Some arts →
        ScikitLearnTFIDFStrategy.can_save Demo.sklearn_trained fs0 →
        ∃ d classes,
          fs_files (ScikitLearnTFIDFStrategy.save_model (Demo.sklearn_trained, fs0)).2.2
            !! (fstr_opt (ScikitLearnTFIDFStrategy.output_path Demo.sklearn_trained)
                +:+ "/scaler.json") = Some (JsonFile d)
          ∧ d !! py_str_nat i = Some (PStr "pos")
          ∧ classes_of_json d = Return classes
          ∧ classes !! i = Some "pos".
Proof.
  destruct (label_map_round_trip (H:=Toy.backend)) as (_ & _ & Hsk).
  apply (Hsk Demo.X_train Demo.y_train Demo.X_train Demo.y_train
           Demo.sklearn_new Demo.fs0
           Demo.metrics
           Demo.sklearn_trained Demo.fs0).
  - vm_compute; reflexivity.
  - by_compute.
Defined.

(** ** C3: what the linear strategy predicts *)

Section linear_predictions.
Context `{Backend}.

(** C3, as the code has it.  After a [train] that returned, [predict]
    of the linear strategy on an input of at least one sample returns
    one value per sample, and each is an integer class index [i], the
    code of a training label in the fitted label encoder, as for the
    recurrent strategies; none is a label string.  (An input without
    samples is refused by the input validation of the pipeline.) *)
Theorem sklearn_predict_class_indices
    (X_train y_train X_test y_test : list string)
    (self : ScikitLearnTFIDFStrategy.t) (fs : FileSystem) (metrics : Metrics)
    (self' : ScikitLearnTFIDFStrategy.t) (fs' : FileSystem)
    (X : list string) (fs0 : FileSystem) :
  ScikitLearnTFIDFStrategy.train X_train y_train X_test y_test (self, fs)
    = (Return metrics, (self', fs')) →
  X ≠ [] →
  ∃ preds,
    ScikitLearnTFIDFStrategy.predict X (self', fs0) = (Return preds, (self', fs0))
    ∧ length preds = length X
    ∧ LabelEncoder.classes_ (ScikitLearnTFIDFStrategy.label_encoder self')
        = Some (LabelEncoder.np_unique y_train)
    ∧ Forall (λ v, ∃ i label,
                v = PInt (Z.of_nat i)
                ∧ LabelEncoder.np_unique y_train !! i = Some label
                ∧ label ∈ y_train) preds.
Proof.
  intros Hret HX.
  apply ScikitLearnFacts.sk_train_returns in Hret
    as (Hs & Hcs & _ & _ & y_enc & Henc & Hlen & Hclf & Hvoc & Hpar).
  destruct (ScikitLearnFacts.sk_pipeline_predict_fitted
              (ScikitLearnTFIDFStrategy.pipeline self') X _ Hclf)
    as (preds & Hpred & Hlen' & Hall); [|done|done|done|].
  { intros Hnil. apply fmap_nil_inv in Hnil. rewrite Hnil in Hlen. simpl in Hlen. lia. }
  exists preds. split_and!; [|done|done|].
  - unfold ScikitLearnTFIDFStrategy.predict, ScikitLearnTFIDFStrategy.pipeline_predict.
    py_unfold. cbn [fst snd]. rewrite Hs. cbn [negb fst snd]. by rewrite Hpred.
  - eapply Forall_impl; [exact Hall|]. intros v Hv.
    apply list_elem_of_fmap in Hv as (z & -> & Hz).
    apply (proj1 (ScikitLearnFacts.sk_elem_of_pipeline_np_unique _ _)) in Hz.
    apply encode_sound in Henc.
    apply list_elem_of_lookup in Hz as [j Hj].
    destruct (Forall2_lookup_r _ _ _ _ _ Henc Hj) as (label & Hlabel & i & -> & Hi).
    exists i, label. split_and!; [done|done|].
    by eapply list_elem_of_lookup_2.
Qed.

End linear_predictions.

Lemma sklearn_predict_class_indices_witness :
  ∃ preds,
    ScikitLearnTFIDFStrategy.predict ["good service"] (Demo.sklearn_trained, Demo.fs0)
      = (Return preds, (Demo.sklearn_trained, Demo.fs0))
    ∧ length preds = length ["good service"]
    ∧ LabelEncoder.classes_ (ScikitLearnTFIDFStrategy.label_encoder Demo.sklearn_trained)
        = Some (LabelEncoder.np_unique Demo.y_train)
    ∧ Forall (λ v, ∃ i label,
                v = PInt (Z.of_nat i)
                ∧ LabelEncoder.np_unique Demo.y_train !! i = Some label
                ∧ label ∈ Demo.y_train) preds.
Proof.
  apply (sklearn_predict_class_indices Demo.X_train Demo.y_train Demo.X_train
           Demo.y_train Demo.sklearn_new Demo.fs0
           Demo.metrics
           Demo.sklearn_trained Demo.fs0).
  - vm_compute; reflexivity.
  - by_compute.
Defined.

(** C3 as stated fails: trained on the end-to-end scenario of the
    specification (labels [pos] and [neg]), the linear strategy
    predicts the integer 0 for [good service], which is no label
    string. *)
Lemma sklearn_predict_not_label_strings :
  ScikitLearnTFIDFStrategy._is_trained Demo.sklearn_trained = true
  ∧ (ScikitLearnTFIDFStrategy.predict ["good service"]
       (Demo.sklearn_trained, Demo.fs0)).1 = Return [PInt 0]
  ∧ ¬ ∃ label : string, PInt 0 = PStr label.
Proof. split_and!; [by vm_compute..|]. by intros [label ?]. Qed.

(** ** C8: the declarations of the exported graph *)

Section export.
Context `{Backend}.
Import Onnx.

(** C8 fails on the linear strategy.  When [export_to_onnx] of
    [ScikitLearnTFIDFStrategy] returns, the graph in [model.onnx]
    declares the input [input] with an open dimension and opset 17, but
    its outputs are [output_label] and [output_probability]: none is
    named [output]. *)
Theorem sklearn_export_declarations
    (self self' : ScikitLearnTFIDFStrategy.t) (fs fs' : FileSystem) :
  ScikitLearnTFIDFStrategy.export_to_onnx (self, fs) = (Return tt, (self', fs')) →
  ∃ g,
    fs_files fs' !! (fstr_opt (ScikitLearnTFIDFStrategy.output_path self) +:+ "/model.onnx")
      = Some (OnnxFile g)
    ∧ graph_inputs g = [{| tensor_name := "input"; tensor_shape := [Dynamic] |}]
    ∧ tensor_name <$> graph_outputs g = ["output_label"; "output_probability"]
    ∧ ("output" ∉ tensor_name <$> graph_outputs g)
    ∧ opset g = 17.
Proof.
  intros Hexp. apply ScikitLearnFacts.sk_export_returns in Hexp as (g & Hg & Hfile).
  exists g. split; [done|].
  unfold convert_sklearn in Hg.
  destruct (Pipeline.clf_classes_ _); [|done]. injection Hg as <-. simpl.
  split_and!; try done. set_solver.
Qed.

(** The recurrent strategies do declare an output named [output]:
    [PyTorchLSTMStrategy] passes the names to the exporter. *)
Lemma pytorch_export_declarations (self : PyTorchLSTMStrategy.t) fs m :
  PyTorchLSTMStrategy._is_trained self = true →
  PyTorchLSTMStrategy.model self = Some m →
  0 < PyTorchLSTMStrategy.max_len self →
  writable fs (fstr_opt (PyTorchLSTMStrategy.output_path self) +:+ "/model.onnx") →
  ∃ g,
    (PyTorchLSTMStrategy.export_to_onnx (self, fs)).1 = Return tt
    ∧ fs_files (PyTorchLSTMStrategy.export_to_onnx (self, fs)).2.2
        !! (fstr_opt (PyTorchLSTMStrategy.output_path self) +:+ "/model.onnx")
        = Some (OnnxFile g)
    ∧ graph_inputs g
        = [{| tensor_name := "input_ids";
              tensor_shape := [Dynamic; Fixed (PyTorchLSTMStrategy.max_len self)] |}]
    ∧ graph_outputs g
        = [{| tensor_name := "output";
              tensor_shape := [Dynamic; Fixed (Torch.tc_num_classes m)] |}]
    ∧ opset g = 17.
Proof.
  intros Hs Hm Hlen Hw. rewrite (PyTorchFacts.pt_export_trained self fs m) by done.
  eexists. split; [done|]. split; [apply lookup_insert_eq|]. done.
Qed.

(** [TensorFlowLSTMStrategy] names the input in the signature and
    takes the output name from the model, which [_build_model] names
    [output]. *)
Lemma tensorflow_export_declarations
    X_train y_train X_test y_test (self : TensorFlowLSTMStrategy.t) fs metrics
    self' fs' σ'' fs0 :
  TensorFlowLSTMStrategy.train X_train y_train X_test y_test (self, fs)
    = (Return metrics, (self', fs')) →
  TensorFlowLSTMStrategy.export_to_onnx (self', fs0) = (Return tt, σ'') →
  ∃ g,
    fs_files σ''.2 !! (fstr_opt (TensorFlowLSTMStrategy.output_path self') +:+ "/model.onnx")
      = Some (OnnxFile g)
    ∧ graph_inputs g
        = [{| tensor_name := "input";
              tensor_shape := [Dynamic; Fixed (TensorFlowLSTMStrategy.max_len self)] |}]
    ∧ tensor_name <$> graph_outputs g = ["output"]
    ∧ opset g = 17.
Proof.
  intros Htrain Hexp. destruct σ'' as [self'' fs''].
  apply TensorFlowFacts.tf_train_model_names in Htrain as (m & Hm & _ & Hout & Hlen).
  apply TensorFlowFacts.tf_export_returns in Hexp as (m' & Hm' & Hfile).
  rewrite Hm in Hm'. injection Hm' as <-.
  eexists. split; [exact Hfile|]. simpl. by rewrite Hout, Hlen.
Qed.

End export.

Lemma sklearn_export_declarations_witness :
  let σ := ScikitLearnTFIDFStrategy.export_to_onnx (Demo.sklearn_trained, Demo.fs0) in
  ∃ g,
    fs_files σ.2.2
      !! (fstr_opt (ScikitLearnTFIDFStrategy.output_path Demo.sklearn_trained)
          +:+ "/model.onnx") = Some (OnnxFile g)
    ∧ Onnx.graph_inputs g
        = [{| Onnx.tensor_name := "input"; Onnx.tensor_shape := [Onnx.Dynamic] |}]
    ∧ Onnx.tensor_name <$> Onnx.graph_outputs g = ["output_label"; "output_probability"]
    ∧ ("output" ∉ Onnx.tensor_name <$> Onnx.graph_outputs g)
    ∧ Onnx.opset g = 17.
Proof.
  apply (sklearn_export_declarations Demo.sklearn_trained
           (ScikitLearnTFIDFStrategy.export_to_onnx (Demo.sklearn_trained, Demo.fs0)).2.1
           Demo.fs0
           (ScikitLearnTFIDFStrategy.export_to_onnx (Demo.sklearn_trained, Demo.fs0)).2.2).
  vm_compute; reflexivity.
Defined.

(** ** C9: load_model on a new PyTorchLSTMStrategy *)

Section load_order.
Context `{Backend}.
Import PyTorchLSTMStrategy.

(** C9.  On a new [PyTorchLSTMStrategy], whatever the prefix and the
    file system, [load_model] raises the [AttributeError] of the
    missing [classes_] of the fresh label encoder at its first line:
    nothing is assigned, no file is read, the flag stays unset.  On an
    object whose encoder has classes, the network [load_model] builds
    has as many outputs as the encoder had classes BEFORE the call,
    whatever [scaler.json] holds. *)
Theorem load_model_sizes_network_before_reading
    (vocab_size embedding_dim hidden_dim max_len : Z) (output_path : option string)
    (prefix : string) (fs : FileSystem) :
  let new := init vocab_size embedding_dim hidden_dim max_len output_path in
  (load_model prefix (new, fs)
     = (Raise (AttributeError "'LabelEncoder' object has no attribute 'classes_'"),
        (new, fs))
   ∧ _is_trained new = false)
  ∧ (∀ self classes,
       LabelEncoder.classes_ (label_encoder self) = Some classes →
       ∃ m, model (load_model prefix (self, fs)).2.1 = Some m
            ∧ Torch.tc_num_classes m = Z.of_nat (length classes)).
Proof.
  cbv zeta. split; [by split|].
  intros self classes Hcs. by apply PyTorchFacts.pt_load_model_sized.
Qed.

End load_order.

Lemma load_model_sizes_network_before_reading_witness :
  ∃ m,
    PyTorchLSTMStrategy.model
      (PyTorchLSTMStrategy.load_model "p" (Demo.pytorch_trained, Demo.fs0)).2.1 = Some m
    ∧ Torch.tc_num_classes m = Z.of_nat (length ["neg"; "pos"]).
Proof.
  apply (load_model_sizes_network_before_reading 10000 64 64 30 None "p" Demo.fs0).
  vm_compute; reflexivity.
Defined.

(** ** C10: the trained flag is never reset *)

Section flag.
Context `{Backend}.

(** C10.  For each strategy: a call of any of the five methods on an
    object whose flag is set leaves it set, on every file system and
    whether the call returns or raises; hence so does every sequence
    of calls. *)
Theorem trained_flag_monotone :
  ((∀ c self fs,
      PyTorchLSTMStrategy._is_trained self = true →
      PyTorchLSTMStrategy._is_trained (PyTorchLSTMStrategy.run c (self, fs)).2.1 = true)
   ∧ (∀ calls σ,
        PyTorchLSTMStrategy._is_trained σ.1 = true →
        PyTorchLSTMStrategy._is_trained (PyTorchLSTMStrategy.run_all calls σ).1 = true))
  ∧ ((∀ c self fs,
        TensorFlowLSTMStrategy._is_trained self = true →
        TensorFlowLSTMStrategy._is_trained
          (TensorFlowLSTMStrategy.run c (self, fs)).2.1 = true)
     ∧ (∀ calls σ,
          TensorFlowLSTMStrategy._is_trained σ.1 = true →
          TensorFlowLSTMStrategy._is_trained
            (TensorFlowLSTMStrategy.run_all calls σ).1 = true))
  ∧ ((∀ c self fs,
        ScikitLearnTFIDFStrategy._is_trained self = true →
        ScikitLearnTFIDFStrategy._is_trained
          (ScikitLearnTFIDFStrategy.run c (self, fs)).2.1 = true)
     ∧ (∀ calls σ,
          ScikitLearnTFIDFStrategy._is_trained σ.1 = true →
          ScikitLearnTFIDFStrategy._is_trained
            (ScikitLearnTFIDFStrategy.run_all calls σ).1 = true)).
Proof.
  split_and!.
  - intros c self fs. apply (PyTorchFacts.pt_run_keeps_flag c (self, fs)).
  - apply PyTorchFacts.pt_run_all_keeps_flag.
  - intros c self fs. apply (TensorFlowFacts.tf_run_keeps_flag c (self, fs)).
  - apply TensorFlowFacts.tf_run_all_keeps_flag.
  - intros c self fs. apply (ScikitLearnFacts.sk_run_keeps_flag c (self, fs)).
  - apply ScikitLearnFacts.sk_run_all_keeps_flag.
Qed.

End flag.

Lemma trained_flag_monotone_witness :
  PyTorchLSTMStrategy._is_trained
    (PyTorchLSTMStrategy.run_all
       [PyTorchLSTMStrategy.LoadModel "missing";
        PyTorchLSTMStrategy.Predict ["good service"];
        PyTorchLSTMStrategy.SaveModel;
        PyTorchLSTMStrategy.Train [] [] [] [];
        PyTorchLSTMStrategy.ExportToOnnx]
       (Demo.pytorch_trained, Demo.fs0)).1 = true.
Proof.
  destruct (trained_flag_monotone (H:=Toy.backend)) as ([_ Hpt] & _ & _).
  apply Hpt. vm_compute; reflexivity.
Defined.
(** * More of the lifecycle *)

(** ** JSON round trips *)

Section json_round_trips.
Context `{Backend}.

(** Reading back the JSON object of a token → index dictionary gives
    the dictionary. *)
Lemma index_of_json_of_index (d : gmap string Z) :
  index_of_json (json_of_index d) = Return d.
Proof.
  unfold index_of_json, json_of_index.
  rewrite bool_decide_eq_true_2.
  - f_equal. apply map_eq. intros k.
    rewrite lookup_omap, lookup_fmap. by destruct (d !! k).
  - intros k v. rewrite lookup_fmap.
    destruct (d !! k); intros [= <-]. by eexists.
Qed.

(** What [index_of_json] returns was the content of the file. *)
Lemma index_of_json_Return (j : gmap string pyval) (d : gmap string Z) :
  index_of_json j = Return d → j = json_of_index d.
Proof.
  unfold index_of_json, json_of_index. case_bool_decide as Hall; [|done].
  intros [= <-]. apply map_eq. intros k.
  rewrite lookup_fmap, lookup_omap.
  destruct (j !! k) as [v|] eqn:Hk; [|done]. simpl.
  destruct (Hall k v Hk) as [z Hz]. rewrite Hz. simpl.
  destruct v; by simplify_eq/=.
Qed.

Lemma read_file_Some path fs a :
  fs_files fs !! path = Some a → read_file path fs = (Return a, fs).
Proof. intros Hf. unfold read_file. by rewrite Hf. Qed.

Lemma read_file_Return path fs a w :
  read_file path fs = (Return a, w) → fs_files fs !! path = Some a ∧ w = fs.
Proof. unfold read_file. repeat case_match; intros; by simplify_eq. Qed.

Lemma read_file_missing path fs :
  fs_files fs !! path = None → path ∉ fs_dirs fs →
  read_file path fs = (Raise (FileNotFoundError path), fs).
Proof.
  intros Hf Hd. unfold read_file. rewrite Hf. by rewrite decide_False.
Qed.

Lemma json_load_Return path fs d w :
  json_load path fs = (Return d, w) → fs_files fs !! path = Some (JsonFile d) ∧ w = fs.
Proof.
  unfold json_load. py_unfold.
  destruct (read_file path fs) as [[a|e] w'] eqn:Hr; [|done].
  apply read_file_Return in Hr as [Hf ->].
  destruct a; intros; by simplify_eq.
Qed.

Lemma json_load_Some path fs d :
  fs_files fs !! path = Some (JsonFile d) → json_load path fs = (Return d, fs).
Proof. intros Hf. unfold json_load. py_unfold. by rewrite (read_file_Some _ _ _ Hf). Qed.

Lemma torch_load_Return path fs sd w :
  torch_load path fs = (Return sd, w) → fs_files fs !! path = Some (TorchFile sd) ∧ w = fs.
Proof.
  unfold torch_load. py_unfold.
  destruct (read_file path fs) as [[a|e] w'] eqn:Hr; [|done].
  apply read_file_Return in Hr as [Hf ->].
  destruct a; intros; by simplify_eq.
Qed.

Lemma torch_load_Some path fs sd :
  fs_files fs !! path = Some (TorchFile sd) → torch_load path fs = (Return sd, fs).
Proof. intros Hf. unfold torch_load. py_unfold. by rewrite (read_file_Some _ _ _ Hf). Qed.

Lemma keras_load_model_Return path fs m w :
  keras_load_model path fs = (Return m, w) →
  fs_files fs !! path = Some (KerasFile m) ∧ w = fs.
Proof.
  unfold keras_load_model. py_unfold.
  destruct (read_file path fs) as [[a|e] w'] eqn:Hr; [|done].
  apply read_file_Return in Hr as [Hf ->].
  destruct a; intros; by simplify_eq.
Qed.

Lemma keras_load_model_Some path fs m :
  fs_files fs !! path = Some (KerasFile m) → keras_load_model path fs = (Return m, fs).
Proof.
  intros Hf. unfold keras_load_model. py_unfold. by rewrite (read_file_Some _ _ _ Hf).
Qed.

Lemma joblib_load_Return path fs p w :
  joblib_load path fs = (Return p, w) →
  fs_files fs !! path = Some (JoblibFile p) ∧ w = fs.
Proof.
  unfold joblib_load. py_unfold.
  destruct (read_file path fs) as [[a|e] w'] eqn:Hr; [|done].
  apply read_file_Return in Hr as [Hf ->].
  destruct a; intros; by simplify_eq.
Qed.

Lemma joblib_load_Some path fs p :
  fs_files fs !! path = Some (JoblibFile p) → joblib_load path fs = (Return p, fs).
Proof.
  intros Hf. unfold joblib_load. py_unfold. by rewrite (read_file_Some _ _ _ Hf).
Qed.

(** A model file that is not there: the three loaders raise and leave
    the file system as it is. *)
Lemma read_file_None path fs :
  fs_files fs !! path = None →
  ∃ e, read_file path fs = (Raise e, fs) ∧ io_error e.
Proof.
  intros Hf. unfold read_file. rewrite Hf. case_decide; by eexists.
Qed.

End json_round_trips.

(** Replaces a load that returned by what it found. *)
Ltac load_inv :=
  repeat match goal with
         | H : json_load _ _ = (Return _, _) |- _ =>
             apply json_load_Return in H as [? ->]
         | H : torch_load _ _ = (Return _, _) |- _ =>
             apply torch_load_Return in H as [? ->]
         | H : keras_load_model _ _ = (Return _, _) |- _ =>
             apply keras_load_model_Return in H as [? ->]
         | H : joblib_load _ _ = (Return _, _) |- _ =>
             apply joblib_load_Return in H as [? ->]
         end.


(** ** The tokenizer attributes that matter *)

Lemma word_to_ids_ext (tok1 tok2 : Keras.Tokenizer) (w : string) :
  Keras.num_words tok1 = Keras.num_words tok2 →
  Keras.oov_token tok1 = Keras.oov_token tok2 →
  Keras.word_index tok1 = Keras.word_index tok2 →
  Keras.word_to_ids tok1 w = Keras.word_to_ids tok2 w.
Proof.
  intros Hn Ho Hw. unfold Keras.word_to_ids, Keras.oov_token_index.
  by rewrite Hn, Ho, Hw.
Qed.

(** [texts_to_sequences] reads [num_words], [oov_token] and
    [word_index] and no other attribute of the tokenizer. *)
Lemma encode_texts_ext (tok1 tok2 : Keras.Tokenizer) (max_len : Z) (X : list string) :
  Keras.num_words tok1 = Keras.num_words tok2 →
  Keras.oov_token tok1 = Keras.oov_token tok2 →
  Keras.word_index tok1 = Keras.word_index tok2 →
  encode_texts tok1 max_len X = encode_texts tok2 max_len X.
Proof.
  intros Hn Ho Hw. unfold encode_texts, Keras.texts_to_sequences. f_equal.
  apply list_fmap_ext. intros _ text _.
  induction (Keras.text_to_word_sequence text) as [|w ws IH]; [done|].
  rewrite !bind_cons. f_equal; [by apply word_to_ids_ext|done].
Qed.
(** ** The vocabulary a tokenizer is fitted with *)

Module TokenFacts.
Import Keras KerasFacts.

(** What is left of a character after [lower] and the translation of
    the filtered characters: the separator, or a character of a
    word. *)
Lemma translate_lower_char (c : ascii) :
  let c' := if default_filters (ascii_lower c) then " "%char else ascii_lower c in
  Ascii.eqb c' " " || word_char c' = true.
Proof. destruct c as [[] [] [] [] [] [] [] []]; reflexivity. Qed.

Lemma translate_lower_forall (text : string) :
  string_forall (λ c, Ascii.eqb c " " || word_char c)
    (py_translate default_filters " " (py_lower text)) = true.
Proof.
  induction text as [|c text IH]; [done|]. simpl.
  rewrite IH, andb_true_r. apply translate_lower_char.
Qed.

Lemma py_split_forall (P : ascii → bool) (sep : ascii) (s : string) :
  string_forall P s = true →
  Forall (λ w, string_forall (λ c, P c && negb (Ascii.eqb c sep)) w = true)
    (py_split sep s).
Proof.
  induction s as [|c s IH]; simpl.
  - intros _. by repeat constructor.
  - intros [Hc Hs]%andb_true_iff. specialize (IH Hs).
    destruct (Ascii.eqb c sep) eqn:Hsep.
    + by constructor.
    + destruct (py_split sep s) as [|w ws].
      * repeat constructor. simpl. by rewrite Hc, Hsep.
      * apply Forall_cons in IH as [Hw Hws]. constructor; [|done].
        simpl. by rewrite Hc, Hsep, Hw.
Qed.

Lemma string_forall_impl (P Q : ascii → bool) (s : string) :
  (∀ c, P c = true → Q c = true) → string_forall P s = true → string_forall Q s = true.
Proof.
  intros HPQ. induction s as [|c s IH]; [done|]. simpl.
  intros [Hc Hs]%andb_true_iff. by rewrite (HPQ c Hc), IH.
Qed.

(** The words of a text are not empty, and made of characters that are
    neither filtered, nor the separator, nor upper-case letters. *)
Lemma text_to_word_sequence_clean (text w : string) :
  w ∈ text_to_word_sequence text → w ≠ EmptyString ∧ string_forall word_char w = true.
Proof.
  unfold text_to_word_sequence. intros [Hne Hw]%list_elem_of_filter.
  split; [done|].
  pose proof (py_split_forall _ " " _ (translate_lower_forall text)) as Hall.
  rewrite Forall_forall in Hall. specialize (Hall w Hw).
  revert Hall. apply string_forall_impl. intros c.
  generalize (word_char c). intros b.
  by destruct (Ascii.eqb c " "), b.
Qed.

Lemma corpus_words_clean (texts : list string) (w : string) :
  w ∈ corpus_words texts → w ≠ EmptyString ∧ string_forall word_char w = true.
Proof.
  unfold corpus_words. intros (text & Hw & _)%list_elem_of_bind.
  by eapply text_to_word_sequence_clean.
Qed.

(** *** The counts *)

Lemma count_word_keys (w k : string) (wc : list (string * Z)) :
  k ∈ (count_word w wc).*1 ↔ k = w ∨ k ∈ wc.*1.
Proof.
  induction wc as [|[w' c] wc IH]; simpl.
  - rewrite list_elem_of_singleton. set_solver.
  - case_decide as Hw; simpl.
    + subst w'. rewrite !elem_of_cons. simpl. tauto.
    + rewrite !elem_of_cons, IH. simpl. tauto.
Qed.

Lemma fold_count_word_keys (ws : list string) (wc : list (string * Z)) (k : string) :
  k ∈ (foldl (λ wc w, count_word w wc) wc ws).*1 ↔ k ∈ ws ∨ k ∈ wc.*1.
Proof.
  revert wc. induction ws as [|w ws IH]; intros wc; simpl.
  - set_solver.
  - rewrite IH, count_word_keys, elem_of_cons. tauto.
Qed.

Lemma fit_counts_keys (texts : list string) (wc : list (string * Z)) (k : string) :
  k ∈ (foldl (λ wc text, foldl (λ wc w, count_word w wc) wc (text_to_word_sequence text))
         wc texts).*1
  ↔ k ∈ corpus_words texts ∨ k ∈ wc.*1.
Proof.
  revert wc. induction texts as [|text texts IH]; intros wc; cbn [foldl].
  - unfold corpus_words. set_solver.
  - rewrite IH, fold_count_word_keys. unfold corpus_words.
    rewrite bind_cons, elem_of_app. tauto.
Qed.

Lemma count_word_NoDup (w : string) (wc : list (string * Z)) :
  NoDup wc.*1 → NoDup (count_word w wc).*1.
Proof.
  induction wc as [|[w' c] wc IH]; simpl.
  - intros _. apply NoDup_singleton.
  - intros [Hw' Hnd]%NoDup_cons. case_decide as Hw; simpl.
    + by apply NoDup_cons.
    + apply NoDup_cons. split; [|by apply IH].
      rewrite count_word_keys. intros [?|?]; by simplify_eq.
Qed.

Lemma fit_counts_NoDup (texts : list string) (wc : list (string * Z)) :
  NoDup wc.*1 →
  NoDup (foldl (λ wc text, foldl (λ wc w, count_word w wc) wc (text_to_word_sequence text))
           wc texts).*1.
Proof.
  revert wc. induction texts as [|text texts IH]; intros wc Hnd; simpl; [done|].
  apply IH. generalize (text_to_word_sequence text). intros ws.
  revert wc Hnd. induction ws as [|w ws IHws]; intros wc Hnd; simpl; [done|].
  apply IHws. by apply count_word_NoDup.
Qed.

(** *** The order of the vocabulary *)

Lemma insert_by_count_perm (e : string * Z) (l : list (string * Z)) :
  insert_by_count e l ≡ₚ e :: l.
Proof.
  induction l as [|e' l IH]; simpl; [done|].
  destruct (e'.2 <? e.2); [done|]. rewrite IH. apply Permutation_swap.
Qed.

Lemma sort_by_count_perm (l : list (string * Z)) : sort_by_count l ≡ₚ l.
Proof.
  unfold sort_by_count.
  assert (∀ acc, foldl (λ acc e, insert_by_count e acc) acc l ≡ₚ acc ++ l) as Hgen.
  { induction l as [|e l IH]; intros acc; simpl.
    - by rewrite app_nil_r.
    - rewrite IH, insert_by_count_perm. simpl. apply Permutation_middle. }
  by rewrite Hgen.
Qed.

(** *** The index *)

Lemma dict_zip_from_notin (start : Z) (keys : list string) (d : gmap string Z)
    (k : string) :
  k ∉ keys → dict_zip_from start keys d !! k = d !! k.
Proof.
  revert start d. induction keys as [|k' keys IH]; intros start d Hk; simpl; [done|].
  apply not_elem_of_cons in Hk as [Hne Hk].
  rewrite IH by done. by rewrite lookup_insert_ne.
Qed.

Lemma dict_zip_from_range (start : Z) (keys : list string) (d : gmap string Z)
    (k : string) (v : Z) :
  dict_zip_from start keys d !! k = Some v →
  d !! k = Some v ∨ (k ∈ keys ∧ start ≤ v < start + Z.of_nat (length keys)).
Proof.
  revert start d. induction keys as [|k' keys IH]; intros start d; simpl; [by left|].
  intros [Hd|[Hk Hv]]%IH.
  - destruct (decide (k' = k)) as [->|Hne].
    + rewrite lookup_insert_eq in Hd. injection Hd as <-.
      right. split; [by left|lia].
    + rewrite lookup_insert_ne in Hd by done. by left.
  - right. split; [by right|lia].
Qed.

(** In a duplicate-free vocabulary, the word at position [i] gets the
    index [start + i]. *)
Lemma dict_zip_from_lookup (start : Z) (keys : list string) (d : gmap string Z)
    (i : nat) (k : string) :
  NoDup keys → keys !! i = Some k →
  dict_zip_from start keys d !! k = Some (start + Z.of_nat i).
Proof.
  revert start d i. induction keys as [|k' keys IH]; intros start d i Hnd Hi; [done|].
  apply NoDup_cons in Hnd as [Hk' Hnd]. simpl.
  destruct i as [|i]; simpl in Hi.
  - injection Hi as ->. rewrite dict_zip_from_notin by done.
    rewrite lookup_insert_eq. f_equal. lia.
  - rewrite (IH _ _ i) by done. f_equal. lia.
Qed.

(** *** A tokenizer fitted by [fit_on_texts] *)

Lemma Tokenizer_init_well_formed (num_words : Z) :
  tokenizer_well_formed (Tokenizer_init num_words "<OOV>").
Proof.
  split_and!; simpl.
  - by eexists.
  - constructor.
  - constructor.
Qed.

Lemma set_word_index_well_formed (d : gmap string Z) (tok : Tokenizer) :
  tokenizer_well_formed tok → tokenizer_well_formed (set_word_index d tok).
Proof. done. Qed.

Lemma fit_on_texts_well_formed (texts : list string) (tok : Tokenizer) :
  tokenizer_well_formed tok → tokenizer_well_formed (fit_on_texts texts tok).
Proof.
  intros (Ht & Hclean & Hnd). split_and!; simpl; [done| |by apply fit_counts_NoDup].
  apply Forall_forall. intros k [Hk|Hk]%fit_counts_keys.
  - by apply corpus_words_clean in Hk as [_ ?].
  - rewrite Forall_forall in Hclean. by apply Hclean.
Qed.

(** The index [fit_on_texts] builds: the out-of-vocabulary token has
    index 1, every index is at least 1, and nothing is indexed but the
    token and the words counted. *)
Lemma fit_on_texts_index (texts : list string) (tok : Tokenizer) (t : string) :
  tokenizer_well_formed tok → oov_token tok = Some t →
  word_index (fit_on_texts texts tok) !! t = Some 1
  ∧ ∀ w v,
      word_index (fit_on_texts texts tok) !! w = Some v →
      1 ≤ v ∧ (w = t ∨ w ∈ corpus_words texts ∨ w ∈ (word_counts tok).*1).
Proof.
  intros ((t' & Ht' & Hnw) & Hclean & Hnd) Ht.
  rewrite Ht in Ht'. injection Ht' as <-.
  unfold fit_on_texts. rewrite Ht. cbn [word_index app dict_zip_from].
  split.
  - rewrite dict_zip_from_notin; [by rewrite lookup_insert_eq|].
    rewrite sort_by_count_perm. intros [Hk|Hk]%fit_counts_keys.
    + apply corpus_words_clean in Hk as [_ Hk]. congruence.
    + rewrite Forall_forall in Hclean. apply Hclean in Hk. congruence.
  - intros w v [Hd|[Hk Hv]]%dict_zip_from_range.
    + destruct (decide (t = w)) as [->|Hne].
      * rewrite lookup_insert_eq in Hd. injection Hd as <-. split; [lia|by left].
      * by rewrite lookup_insert_ne in Hd.
    + split; [lia|]. right.
      rewrite sort_by_count_perm in Hk. by apply fit_counts_keys in Hk.
Qed.

(** *** Token indices *)

Lemma word_to_ids_range (tok : Tokenizer) (t w : string) :
  oov_token tok = Some t → word_index tok !! t = Some 1 →
  (∀ w v, word_index tok !! w = Some v → 1 ≤ v) →
  2 ≤ num_words tok →
  ∃ i, word_to_ids tok w = [Some i] ∧ 1 ≤ i < num_words tok.
Proof.
  intros Ht Ht1 Hpos Hn. unfold word_to_ids, oov_token_index.
  rewrite Ht. simpl. rewrite Ht1.
  destruct (word_index tok !! w) as [i|] eqn:Hw.
  - apply Hpos in Hw. rewrite bool_decide_eq_true_2 by lia. simpl.
    destruct (num_words tok <=? i) eqn:Hle.
    + exists 1. split; [done|lia].
    + exists i. split; [done|lia].
  - exists 1. split; [done|lia].
Qed.

(** A word without an index is given the index of the
    out-of-vocabulary token. *)
Lemma word_to_ids_unknown (tok : Tokenizer) (t w : string) (v : Z) :
  oov_token tok = Some t → word_index tok !! t = Some v → word_index tok !! w = None →
  word_to_ids tok w = [Some v].
Proof.
  intros Ht Htv Hw. unfold word_to_ids, oov_token_index.
  by rewrite Hw, Ht; simpl; rewrite Htv.
Qed.

Lemma token_ids_Some (tok : Tokenizer) (text : string) :
  oov_indexed tok →
  text_to_word_sequence text ≫= word_to_ids tok = Some <$> token_ids tok text.
Proof.
  intros Hoov. unfold token_ids.
  destruct (words_to_ids_Some tok (text_to_word_sequence text) Hoov) as [ids ->].
  f_equal. induction ids as [|i ids IH]; [done|]. simpl. by f_equal.
Qed.

Lemma token_ids_range (tok : Tokenizer) (t text : string) :
  oov_token tok = Some t → word_index tok !! t = Some 1 →
  (∀ w v, word_index tok !! w = Some v → 1 ≤ v) →
  2 ≤ num_words tok →
  Forall (λ i, 1 ≤ i < num_words tok) (token_ids tok text)
  ∧ length (token_ids tok text) = length (text_to_word_sequence text).
Proof.
  intros Ht Ht1 Hpos Hn. unfold token_ids.
  induction (text_to_word_sequence text) as [|w ws [IH1 IH2]]; [by split|].
  destruct (word_to_ids_range tok t w Ht Ht1 Hpos Hn) as (i & Hw & Hi).
  rewrite bind_cons, Hw. simpl. split; [by constructor|by f_equal].
Qed.

Lemma token_ids_unknown (tok : Tokenizer) (t text : string) (v : Z) :
  oov_token tok = Some t → word_index tok !! t = Some v →
  Forall (λ w, word_index tok !! w = None) (text_to_word_sequence text) →
  token_ids tok text = replicate (length (text_to_word_sequence text)) v.
Proof.
  intros Ht Htv. unfold token_ids.
  induction (text_to_word_sequence text) as [|w ws IH]; [done|].
  intros [Hw Hws]%Forall_cons.
  rewrite bind_cons, (word_to_ids_unknown tok t w v) by done.
  simpl. f_equal. by apply IH.
Qed.

(** *** Rows *)

Lemma padded_row_Forall (P : Z → Prop) (n : nat) (ids : list Z) :
  P 0 → Forall P ids → Forall P (padded_row n ids).
Proof.
  intros H0 Hids. unfold padded_row. apply Forall_app. split.
  - by apply Forall_drop.
  - by apply Forall_replicate.
Qed.

(** What [encode_texts] returns for a positive [max_len] and a
    tokenizer whose out-of-vocabulary token is indexed. *)
Lemma encode_texts_rows (tok : Tokenizer) (max_len : Z) (X : list string) :
  0 < max_len → oov_indexed tok →
  encode_texts tok max_len X
    = Return ((λ text, padded_row (Z.to_nat max_len) (token_ids tok text)) <$> X).
Proof.
  intros Hlen Hoov. unfold encode_texts, pad_sequences.
  destruct (max_len <? 0) eqn:Hneg; [lia|]. clear Hneg.
  unfold texts_to_sequences.
  induction X as [|text X IH]; [done|].
  rewrite !fmap_cons. cbn [traverse].
  rewrite token_ids_Some, pad_row_post_pre, IH by (done || lia). done.
Qed.

Lemma encode_texts_negative (tok : Tokenizer) (max_len : Z) (X : list string) :
  max_len < 0 →
  encode_texts tok max_len X = Raise (ValueError "negative dimensions are not allowed").
Proof.
  intros Hlen. unfold encode_texts, pad_sequences.
  by destruct (max_len <? 0) eqn:Hneg; [|lia].
Qed.

(** *** What a fitted tokenizer makes of texts *)

(** With a vocabulary size of at least two, every token index of a
    fitted tokenizer is in [[1, num_words)], and every entry of a row
    in [[0, num_words)]. *)
Lemma fitted_encode_range (texts : list string) (tok : Tokenizer) (max_len : Z)
    (X : list string) :
  tokenizer_well_formed tok → 2 ≤ num_words tok → 0 < max_len →
  ∃ rows,
    encode_texts (fit_on_texts texts tok) max_len X = Return rows
    ∧ Forall (Forall (λ i, 0 ≤ i < num_words tok)) rows
    ∧ Forall2 (λ text row,
        Forall (λ i, 1 ≤ i < num_words tok) (token_ids (fit_on_texts texts tok) text)
        ∧ row = padded_row (Z.to_nat max_len) (token_ids (fit_on_texts texts tok) text))
        X rows.
Proof.
  intros Hwf Hn Hlen.
  destruct Hwf as ((t & Ht & Hnw) & Hwf').
  destruct (fit_on_texts_index texts tok t) as [Ht1 Hidx]; [by split; eauto|done|].
  assert (∀ text, Forall (λ i, 1 ≤ i < num_words tok)
                    (token_ids (fit_on_texts texts tok) text)) as Hids.
  { intros text.
    apply (token_ids_range (fit_on_texts texts tok) t text); try done.
    intros w v Hw. by apply Hidx in Hw as [? _]. }
  eexists. split; [by apply encode_texts_rows, fit_on_texts_oov_indexed|].
  split.
  - apply Forall_fmap, Forall_forall. intros text _. simpl.
    apply padded_row_Forall; [lia|].
    eapply Forall_impl; [apply Hids|]. intros i ?. simpl in *. lia.
  - apply Forall2_fmap_r, Forall2_same_length_lookup_2; [done|].
    intros i text text' H1 H2. simplify_eq. split; [apply Hids|done].
Qed.

(** Words that were not counted are all given the index 1. *)
Lemma fitted_unknown_words (texts : list string) (tok : Tokenizer) (text : string) :
  tokenizer_well_formed tok →
  Forall (λ w, (w ∉ corpus_words texts) ∧ (w ∉ (word_counts tok).*1))
    (text_to_word_sequence text) →
  token_ids (fit_on_texts texts tok) text
    = replicate (length (text_to_word_sequence text)) 1.
Proof.
  intros Hwf Hunknown.
  destruct (Hwf) as ((t & Ht & Hnw) & _).
  destruct (fit_on_texts_index texts tok t) as [Ht1 Hidx]; [done..|].
  apply (token_ids_unknown _ t); [done..|].
  apply Forall_forall. intros w Hw.
  rewrite Forall_forall in Hunknown. destruct (Hunknown w Hw) as [Hc Hk].
  destruct (word_index (fit_on_texts texts tok) !! w) as [v|] eqn:Hv; [|done].
  apply Hidx in Hv as [_ [->|[?|?]]]; try done.
  apply text_to_word_sequence_clean in Hw as [_ Hw]. congruence.
Qed.

(** *** The index is not capped *)

Lemma dict_zip_from_inj (start : Z) (keys : list string) (k1 k2 : string) (v : Z) :
  NoDup keys →
  dict_zip_from start keys ∅ !! k1 = Some v → dict_zip_from start keys ∅ !! k2 = Some v →
  k1 = k2.
Proof.
  intros Hnd H1 H2.
  pose proof H1 as [H1'|[[i1 Hi1]%list_elem_of_lookup _]]%dict_zip_from_range; [done|].
  pose proof H2 as [H2'|[[i2 Hi2]%list_elem_of_lookup _]]%dict_zip_from_range; [done|].
  rewrite (dict_zip_from_lookup start keys ∅ i1 k1) in H1 by done.
  rewrite (dict_zip_from_lookup start keys ∅ i2 k2) in H2 by done.
  assert (i1 = i2) as -> by (simplify_eq; lia). congruence.
Qed.

(** [fit_on_texts] indexes the out-of-vocabulary token and every word
    counted, whatever [num_words] is, each with an index of its own. *)
Lemma fit_on_texts_index_full (texts : list string) (tok : Tokenizer) (t : string) :
  tokenizer_well_formed tok → oov_token tok = Some t →
  (∀ w, is_Some (word_index (fit_on_texts texts tok) !! w)
        ↔ w = t ∨ w ∈ corpus_words texts ∨ w ∈ (word_counts tok).*1)
  ∧ (∀ w1 w2 v,
       word_index (fit_on_texts texts tok) !! w1 = Some v →
       word_index (fit_on_texts texts tok) !! w2 = Some v → w1 = w2).
Proof.
  intros Hwf Ht.
  destruct (fit_on_texts_index texts tok t Hwf Ht) as [Ht1 Hidx].
  destruct Hwf as ((t' & Ht' & Hnw) & Hclean & Hnd).
  rewrite Ht in Ht'. injection Ht' as <-.
  split.
  - intros w. split.
    + intros [v Hv]. by apply Hidx in Hv as [_ ?].
    + intros Hw. unfold fit_on_texts. rewrite Ht. cbn [word_index].
      apply dict_zip_from_lookup_elem. left.
      destruct Hw as [->|Hw]; [by left|]. right.
      rewrite sort_by_count_perm. by apply fit_counts_keys.
  - unfold fit_on_texts. rewrite Ht. cbn [word_index].
    intros w1 w2 v. apply dict_zip_from_inj.
    simpl. apply NoDup_cons. split.
    + rewrite sort_by_count_perm. intros [Hk|Hk]%fit_counts_keys.
      * apply corpus_words_clean in Hk as [_ Hk]. congruence.
      * rewrite Forall_forall in Hclean. apply Hclean in Hk. congruence.
    + rewrite sort_by_count_perm. by apply fit_counts_NoDup.
Qed.

End TokenFacts.
(** ** Label classes, continued *)

Section more_labels.
Context `{Backend}.
Import LabelEncoder.

Lemma np_unique_sorted (y : list string) : StronglySorted String.le (np_unique y).
Proof. unfold np_unique. apply (StronglySorted_merge_sort _). Qed.

(** The classes depend on the set of labels only, not on their order
    or on how often each occurs. *)
Lemma np_unique_ext (y1 y2 : list string) :
  (∀ label, label ∈ y1 ↔ label ∈ y2) → np_unique y1 = np_unique y2.
Proof.
  intros Hy. apply (StronglySorted_unique String.le); try apply np_unique_sorted.
  apply NoDup_Permutation; try apply np_unique_NoDup.
  intros label. by rewrite !elem_of_np_unique.
Qed.

Lemma class_table_None (classes : list string) (label : string) :
  label ∉ classes → class_table classes !! label = None.
Proof.
  intros Hl. unfold class_table.
  by rewrite (class_table_notin classes ∅ (λ j, j) label Hl).
Qed.

Lemma class_table_Some (classes : list string) (label : string) :
  NoDup classes → label ∈ classes → is_Some (class_table classes !! label).
Proof.
  intros Hnd [i Hi]%list_elem_of_lookup. exists i. by apply class_table_lookup.
Qed.

(** The labels the encoder was fitted on can all be encoded. *)
Lemma encode_fitted (classes y : list string) :
  NoDup classes → y ⊆ classes → ∃ codes, encode classes y = Return codes.
Proof.
  intros Hnd. unfold encode. induction y as [|label y IH]; intros Hy.
  - by exists [].
  - destruct IH as [codes IH]; [set_solver|].
    destruct (class_table_Some classes label Hnd) as [i Hi]; [set_solver|].
    exists (Z.of_nat i :: codes). simpl. by rewrite Hi, IH.
Qed.

(** A label the encoder was not fitted on makes [transform] raise,
    wherever it stands among the labels. *)
Lemma encode_unseen (classes y : list string) (label : string) :
  label ∈ y → label ∉ classes →
  encode classes y = Raise (ValueError "y contains previously unseen labels").
Proof.
  intros Hin Hnot. unfold encode. induction y as [|l y IH]; [by apply elem_of_nil in Hin|].
  simpl. destruct (class_table classes !! l) as [i|] eqn:Hl; [|done]. simpl.
  rewrite IH; [done|].
  apply elem_of_cons in Hin as [->|Hin]; [|done].
  by rewrite class_table_None in Hl.
Qed.

Lemma fit_transform_returns (y : list string) :
  ∃ codes, fit_transform y = ({| classes_ := Some (np_unique y) |}, Return codes).
Proof.
  unfold fit_transform.
  destruct (encode_fitted (np_unique y) y) as [codes Hc].
  - apply np_unique_NoDup.
  - intros label. by rewrite elem_of_np_unique.
  - exists codes. by rewrite Hc.
Qed.

(** A test label that, converted to the dtype of the classes, is not
    a training label makes [transform] raise. *)
Lemma transform_unseen (y_train y_test : list string) (label : string) :
  label ∈ y_test → label_as_seen y_train label ∉ y_train →
  transform y_test {| classes_ := Some (np_unique y_train) |}
    = Raise (ValueError "y contains previously unseen labels").
Proof.
  intros Hin Hnot. unfold transform. cbn [classes_].
  apply (encode_unseen _ _ (label_as_seen y_train label)).
  - unfold as_dtype_of. apply list_elem_of_fmap. by exists label.
  - by rewrite elem_of_np_unique.
Qed.

(** A label that is not longer than some training label is looked up
    as it is. *)
Lemma label_as_seen_short (y_train : list string) (label other : string) :
  other ∈ y_train → (String.length label ≤ String.length other)%nat →
  label_as_seen y_train label = label.
Proof.
  intros Hother Hlen. unfold label_as_seen. apply string_take_all.
  etrans; [exact Hlen|]. apply dtype_width_ge. by apply elem_of_np_unique.
Qed.

(** A training label is looked up as it is. *)
Lemma label_as_seen_training (y_train : list string) (label : string) :
  label ∈ y_train → label_as_seen y_train label = label.
Proof. intros Hin. by apply (label_as_seen_short y_train label label). Qed.

(** A test label that, cut to the width of the longest training label,
    is a training label is encoded as that label: [transform] does not
    raise for it. *)
Lemma transform_cut_label (y_train : list string) (label : string) :
  label_as_seen y_train label ∈ y_train →
  ∃ i, np_unique y_train !! i = Some (label_as_seen y_train label)
       ∧ transform [label] {| classes_ := Some (np_unique y_train) |}
         = Return [Z.of_nat i].
Proof.
  intros Hin.
  destruct (transform_fitted y_train _ Hin) as (i & Hi & Htr).
  exists i. split; [done|].
  unfold transform in *. cbn [classes_] in *.
  unfold as_dtype_of in *. rewrite !fmap_cons, !fmap_nil in *.
  fold (label_as_seen y_train label).
  fold (label_as_seen y_train (label_as_seen y_train label)) in Htr.
  by rewrite (label_as_seen_training y_train _ Hin) in Htr.
Qed.

(** *** The label map read back *)

Lemma traverse_Raise {A B} (f : A → outcome B) (l : list A) (x : A) (e : exn) :
  x ∈ l → f x = Raise e → ∃ y e', y ∈ l ∧ f y = Raise e' ∧ traverse f l = Raise e'.
Proof.
  intros Hin Hx. induction l as [|z l IH]; [by apply elem_of_nil in Hin|].
  simpl. destruct (f z) as [b|e'] eqn:Hz.
  - apply elem_of_cons in Hin as [->|Hin]; [congruence|].
    destruct (IH Hin) as (y & e' & Hy & Hfy & Htr).
    exists y, e'. split_and!; [by right|done|]. simpl. by rewrite Htr.
  - exists z, e'. split_and!; [by left|done|done].
Qed.

(** [classes_of_json] returns the labels in the order of their keys:
    entry [str(i)] of the file is label [i]. *)
Lemma classes_of_json_Return (d : gmap string pyval) (classes : list string) :
  classes_of_json d = Return classes →
  length classes = size d
  ∧ ∀ i label, classes !! i = Some label → d !! py_str_nat i = Some (PStr label).
Proof.
  unfold classes_of_json. intros Htr.
  pose proof (traverse_length _ _ _ Htr) as Hlen. rewrite length_seq in Hlen.
  split; [done|]. intros i label Hi.
  apply traverse_Return_Forall2 in Htr.
  assert (seq 0 (size d) !! i = Some i) as Hseq.
  { apply lookup_seq. split; [done|]. apply lookup_lt_Some in Hi. lia. }
  pose proof (Forall2_lookup_lr _ _ _ _ _ _ Htr Hseq Hi) as Hd. simpl in Hd.
  destruct (d !! py_str_nat i) as [[z|s]|]; by simplify_eq.
Qed.

(** A file of [n] entries, all strings, without the key [str(i)] for
    some [i < n]: the comprehension of lines 194, 320 and 411 raises
    [KeyError]. *)
Lemma classes_of_json_KeyError (d : gmap string pyval) (i : nat) :
  map_Forall (λ _ v, is_Some (pyval_str v)) d →
  (i < size d)%nat → d !! py_str_nat i = None →
  ∃ j, (j < size d)%nat ∧ d !! py_str_nat j = None
       ∧ classes_of_json d = Raise (KeyError (py_str_nat j)).
Proof.
  intros Hstr Hi Hnone. unfold classes_of_json.
  edestruct (traverse_Raise
    (λ i, match d !! py_str_nat i with
          | Some (PStr label) => Return label
          | Some (PInt _) => Raise (TypeError "label is not a string")
          | None => Raise (KeyError (py_str_nat i))
          end) (seq 0 (size d)) i) as (j & e' & Hj & Hfj & Htr).
  - apply elem_of_seq. lia.
  - simpl. by rewrite Hnone.
  - exists j. apply elem_of_seq in Hj. simpl in Hfj.
    destruct (d !! py_str_nat j) as [[z|s]|] eqn:Hdj.
    + by destruct (Hstr _ _ Hdj).
    + done.
    + injection Hfj as <-. split_and!; [lia|done|done].
Qed.

End more_labels.
(** ** Directories *)

Section more_fs.
Context `{Backend}.

Lemma list_ascii_of_string_app (s t : string) :
  String.list_ascii_of_string (s +:+ t)
    = String.list_ascii_of_string s ++ String.list_ascii_of_string t.
Proof.
  induction s as [|c s IH]; [done|]. rewrite string_app_cons. simpl. by rewrite IH.
Qed.




Lemma drop_while_app_all {A} (f : A → bool) (l k : list A) :
  forallb f l = true → drop_while f (l ++ k) = drop_while f k.
Proof.
  induction l as [|x l IH]; [done|]. simpl.
  intros [Hx Hl]%andb_true_iff. rewrite Hx. by apply IH.
Qed.

Lemma forallb_reverse {A} (f : A → bool) (l : list A) :
  forallb f l = true → forallb f (reverse l) = true.
Proof.
  intros Hl. apply Is_true_true, forallb_True, Forall_reverse, forallb_True.
  by apply Is_true_true.
Qed.





(** The directory of [{output_path}/name] is the same for every file
    name without a slash. *)
Lemma dirname_sibling (output_path name1 name2 : string) :
  forallb (λ c, negb (is_slash c)) (String.list_ascii_of_string name1) = true →
  forallb (λ c, negb (is_slash c)) (String.list_ascii_of_string name2) = true →
  dirname (output_path +:+ "/" +:+ name1) = dirname (output_path +:+ "/" +:+ name2).
Proof.
  intros H1 H2. unfold dirname.
  rewrite !list_ascii_of_string_app, !reverse_app.
  rewrite <- !(assoc_L (++)).
  rewrite (drop_while_app_all _ (reverse (String.list_ascii_of_string name1)))
    by (by apply forallb_reverse).
  by rewrite (drop_while_app_all _ (reverse (String.list_ascii_of_string name2)))
    by (by apply forallb_reverse).
Qed.

(** Creating directories and writing files do not get in each other's
    way. *)
Lemma fs_mkdirs_twice (d : string) (fs : FileSystem) :
  fs_mkdirs d (fs_mkdirs d fs) = fs_mkdirs d fs.
Proof. unfold fs_mkdirs. cbn [fs_dirs fs_files]. f_equal. set_solver. Qed.

Lemma fs_mkdirs_fs_write (d p : string) (a : artifact) (fs : FileSystem) :
  fs_mkdirs d (fs_write p a fs) = fs_write p a (fs_mkdirs d fs).
Proof. reflexivity. Qed.

Lemma file_in_the_way_fs_mkdirs (d name : string) (fs : FileSystem) :
  file_in_the_way (fs_mkdirs d fs) name ↔ file_in_the_way fs name.
Proof. reflexivity. Qed.






Lemma with_directory_files (d : string) (fs : FileSystem) :
  fs_files (with_directory d fs) = fs_files fs.
Proof. unfold with_directory. by destruct (exists_path fs d). Qed.


Lemma fs_mkdirs_with_directory (d : string) (fs : FileSystem) :
  fs_mkdirs d (with_directory d fs) = fs_mkdirs d fs.
Proof.
  unfold with_directory. destruct (exists_path fs d); [done|apply fs_mkdirs_twice].
Qed.



Lemma write_file_Return path a fs u w :
  write_file path a fs = (Return u, w) → writable fs path ∧ w = fs_write path a fs.
Proof.
  unfold write_file, writable. case_decide; [done|].
  destruct (isdir fs (dirname path)) eqn:Hdir; [|done].
  intros [= _ <-]. by repeat split.
Qed.

Lemma makedirs_Return name fs u w :
  makedirs name fs = (Return u, w) → w = fs_mkdirs name fs.
Proof. unfold makedirs. repeat case_decide; try done. by intros [= _ <-]. Qed.

(** What a [model.save] that returned has done. *)
Lemma keras_save_Return path a fs u w :
  keras_save path a fs = (Return u, w) →
  w = fs_write path a (with_directory (dirname path) fs).
Proof.
  unfold keras_save, with_directory, mbind, M_bind, mret, M_ret.
  destruct (exists_path fs (dirname path)).
  - by intros [_ ->]%write_file_Return.
  - destruct (makedirs (dirname path) fs) as [[[]|e] w'] eqn:Hmk; [|done].
    apply makedirs_Return in Hmk as ->. by intros [_ ->]%write_file_Return.
Qed.

End more_fs.

(** Replaces a write that returned by the file system it left. *)
Ltac write_inv :=
  repeat match goal with
         | H : write_file _ _ _ = (Return _, _) |- _ =>
             apply write_file_Return in H as [_ ->]
         | H : makedirs _ _ = (Return _, _) |- _ =>
             apply makedirs_Return in H as ->
         | H : keras_save _ _ _ = (Return _, _) |- _ =>
             apply keras_save_Return in H as ->
         end.
(** ** PyTorchLSTMStrategy, continued *)

Ltac pt_obj_simpl :=
  cbn [fst snd PyTorchLSTMStrategy.vocab_size PyTorchLSTMStrategy.embedding_dim
       PyTorchLSTMStrategy.hidden_dim PyTorchLSTMStrategy.max_len
       PyTorchLSTMStrategy.tokenizer PyTorchLSTMStrategy.label_encoder
       PyTorchLSTMStrategy.model PyTorchLSTMStrategy._is_trained
       PyTorchLSTMStrategy.output_path PyTorchLSTMStrategy.set_tokenizer
       PyTorchLSTMStrategy.set_label_encoder PyTorchLSTMStrategy.set_model
       PyTorchLSTMStrategy.set_is_trained LabelEncoder.classes_] in *.

Module PyTorchMore.
Section more.
Context `{Backend}.
Import PyTorchLSTMStrategy.

(** [predict] writes no file and assigns nothing but the mode of the
    network. *)
Lemma pt_predict_read_only X self fs :
  let σ' := (predict X (self, fs)).2 in
  σ'.2 = fs
  ∧ pytorch_config σ'.1 = pytorch_config self
  ∧ tokenizer σ'.1 = tokenizer self
  ∧ label_encoder σ'.1 = label_encoder self
  ∧ _is_trained σ'.1 = _is_trained self
  ∧ Torch.set_training false <$> model σ'.1 = Torch.set_training false <$> model self.
Proof.
  cbv zeta.
  change (wp (predict X)
            (λ _ σ', σ'.2 = fs
                     ∧ pytorch_config σ'.1 = pytorch_config self
                     ∧ tokenizer σ'.1 = tokenizer self
                     ∧ label_encoder σ'.1 = label_encoder self
                     ∧ _is_trained σ'.1 = _is_trained self
                     ∧ Torch.set_training false <$> model σ'.1
                       = Torch.set_training false <$> model self) (self, fs)).
  unfold predict, the_model.
  repeat (wp_step; pt_obj_simpl); split_and!; try done; congruence.
Qed.

Lemma pt_export_trained_error self fs e :
  _is_trained self = true → (export_to_onnx (self, fs)).1 = Raise e → ¬ untrained_error e.
Proof.
  intros Hs.
  change (wp export_to_onnx (λ o _, o = Raise e → ¬ untrained_error e) (self, fs)).
  unfold export_to_onnx, the_model.
  repeat (wp_step; pt_obj_simpl); simplify_eq/=; try done.
  all: try (rewrite Hs in *; discriminate).
  all: intros [= <-].
  all: first
    [ by eauto using io_error_not_untrained, write_file_raises,
         PyTorchFacts.pt_forward_raises
    | not_untrained ].
Qed.

(** [export_to_onnx] raises the untrained-model error exactly on the
    objects whose flag is unset, and then changes nothing. *)
Lemma pt_export_guard self fs :
  ((∃ e, (export_to_onnx (self, fs)).1 = Raise e ∧ untrained_error e)
   ↔ _is_trained self = false)
  ∧ (_is_trained self = false → (export_to_onnx (self, fs)).2 = (self, fs)).
Proof.
  split; [split|].
  - intros (e & He & Hu). destruct (_is_trained self) eqn:Hs; [|done].
    by destruct (pt_export_trained_error self fs e).
  - intros Hs. rewrite PyTorchFacts.pt_export_untrained by done.
    eexists. split; [done|]. unfold untrained_error. set_solver.
  - intros Hs. by rewrite PyTorchFacts.pt_export_untrained.
Qed.

(** What a [load_model] that returned has done. *)
Lemma pt_load_model_returns prefix self fs self' fs' :
  load_model prefix (self, fs) = (Return tt, (self', fs')) →
  fs' = fs
  ∧ _is_trained self' = true
  ∧ pytorch_config self' = pytorch_config self
  ∧ ∃ classes0 sd d c classes,
      LabelEncoder.classes_ (label_encoder self) = Some classes0
      ∧ Forall2 (λ path a, fs_files fs !! path = Some a) (load_paths prefix)
          [TorchFile sd; JsonFile (json_of_index d); JsonFile c]
      ∧ Torch.sd_shape sd
          = (vocab_size self, embedding_dim self, hidden_dim self,
             Z.of_nat (length classes0))
      ∧ model self'
          = Some (Torch.set_params (Torch.sd_params sd)
                    (_build_model self (Z.of_nat (length classes0))))
      ∧ tokenizer self' = Keras.set_word_index d (tokenizer self)
      ∧ classes_of_json c = Return classes
      ∧ label_encoder self' = {| LabelEncoder.classes_ := Some classes |}.
Proof.
  intros Hload.
  assert (wp (load_model prefix)
            (λ o σ', match o with
                     | Return _ =>
  σ'.2 = fs
  ∧ _is_trained σ'.1 = true
  ∧ pytorch_config σ'.1 = pytorch_config self
  ∧ ∃ classes0 sd d c classes,
      LabelEncoder.classes_ (label_encoder self) = Some classes0
      ∧ Forall2 (λ path a, fs_files fs !! path = Some a) (load_paths prefix)
          [TorchFile sd; JsonFile (json_of_index d); JsonFile c]
      ∧ Torch.sd_shape sd
          = (vocab_size self, embedding_dim self, hidden_dim self,
             Z.of_nat (length classes0))
      ∧ model σ'.1
          = Some (Torch.set_params (Torch.sd_params sd)
                    (_build_model self (Z.of_nat (length classes0))))
      ∧ tokenizer σ'.1 = Keras.set_word_index d (tokenizer self)
      ∧ classes_of_json c = Return classes
      ∧ label_encoder σ'.1 = {| LabelEncoder.classes_ := Some classes |}
                     | Raise _ => True
                     end) (self, fs)) as Hwp.
  { unfold load_model, the_classes.
    repeat (wp_step; pt_obj_simpl; load_inv); try done.
    simplify_eq. split_and!; try done.
    match goal with
    | Hsd : Torch.load_state_dict _ _ = Return _ |- _ =>
        unfold Torch.load_state_dict in Hsd; case_decide as Hshape; [|done];
        injection Hsd as <-
    end.
    match goal with
    | Hj : index_of_json _ = Return _ |- _ => apply index_of_json_Return in Hj; subst
    end.
    do 5 eexists. split_and!; try done.
    unfold load_paths. by repeat constructor. }
  exact (wp_elim _ _ _ _ _ Hwp Hload).
Qed.

(** [load_model] assigns the freshly built network to [self.model]
    before it opens the first file: a model file that is not there
    costs the object its network. *)
Lemma pt_load_model_missing_file prefix self fs classes0 :
  LabelEncoder.classes_ (label_encoder self) = Some classes0 →
  fs_files fs !! ("models/" +:+ prefix +:+ "_model.pt") = None →
  ∃ e, io_error e
       ∧ load_model prefix (self, fs)
         = (Raise e,
            (set_model (Some (_build_model self (Z.of_nat (length classes0)))) self, fs)).
Proof.
  intros Hcs Hf. destruct (read_file_None _ _ Hf) as (e & Hr & He).
  exists e. split; [done|].
  unfold load_model, the_classes, torch_load. py_unfold. cbn [fst snd].
  rewrite Hcs. cbn [fst snd]. by rewrite Hr.
Qed.


(** [load_model] on [receiver] when the three files hold the artifacts
    of [self]. *)
Lemma pt_load_model_artifacts prefix self receiver fs arts classes0 m :
  artifacts self = Some arts →
  Forall2 (λ path a, fs_files fs !! path = Some a) (load_paths prefix) arts →
  model self = Some m →
  LabelEncoder.classes_ (label_encoder receiver) = Some classes0 →
  Torch.shape_of m
    = (vocab_size receiver, embedding_dim receiver, hidden_dim receiver,
       Z.of_nat (length classes0)) →
  load_model prefix (receiver, fs) = (Return tt, (pytorch_loaded self receiver m, fs)).
Proof.
  intros Harts Hfiles Hm Hcs Hshape.
  unfold artifacts in Harts. rewrite Hm in Harts. simpl in Harts.
  destruct (label_encoder self) as [[classes|]] eqn:Hle; simpl in Harts; [|done].
  injection Harts as <-.
  unfold load_paths in Hfiles.
  apply Forall2_cons in Hfiles as [Hf1 Hfiles].
  apply Forall2_cons in Hfiles as [Hf2 Hfiles].
  apply Forall2_cons in Hfiles as [Hf3 _].
  unfold load_model, the_classes. py_unfold. cbn [fst snd].
  rewrite Hcs. cbn [fst snd].
  rewrite (torch_load_Some _ _ _ Hf1). cbn [fst snd].
  unfold Torch.load_state_dict.
  rewrite decide_True by exact Hshape.
  cbn [fst snd]. rewrite (json_load_Some _ _ _ Hf2). cbn [fst snd].
  rewrite index_of_json_of_index. cbn [fst snd].
  rewrite (json_load_Some _ _ _ Hf3). cbn [fst snd].
  rewrite classes_of_json_of_classes. cbn [fst snd].
  unfold pytorch_loaded. rewrite Hle. pt_obj_simpl.
  do 3 f_equal. unfold set_is_trained, set_label_encoder, set_tokenizer, set_model.
  pt_obj_simpl. do 2 f_equal.
  unfold Torch.shape_of in Hshape. destruct m. simpl in *. simplify_eq.
  reflexivity.
Qed.

(** [load_model] reads the three files of [load_paths]. *)
Lemma pt_load_reads :
  load_reads load_paths load_model pytorch_loadable pytorch_holds.
Proof.
  assert (∀ self prefix fs self' fs',
    load_model prefix (self, fs) = (Return tt, (self', fs')) →
    ∃ arts,
      Forall2 (λ path a, fs_files fs !! path = Some a) (load_paths prefix) arts
      ∧ pytorch_holds arts self') as Hreturns.
  { intros self prefix fs self' fs' Hload.
    apply pt_load_model_returns in Hload
      as (_ & Hs & _ & classes0 & sd & d & c & classes & _ & Hfiles & Hshape & Hm
          & Htok & Hc & Hle).
    eexists. split; [exact Hfiles|].
    exists sd, d, c, classes. eexists. split_and!; try done.
    - unfold Torch.get_state_dict, Torch.shape_of. simpl. rewrite <- Hshape.
      by destruct sd.
    - by rewrite Htok. }
  split_and!; [done| |].
  - intros self prefix fs path Hpath Hnone.
    destruct (load_model prefix (self, fs)) as [[[]|e] [self' fs']] eqn:Hload;
      [|by eexists].
    apply Hreturns in Hload as (arts & Hfiles & _).
    apply list_elem_of_lookup in Hpath as [i Hi].
    destruct (Forall2_lookup_l _ _ _ _ _ Hfiles Hi) as (a & _ & Ha). congruence.
  - intros self prefix fs arts (sd & d & classes & classes0 & -> & Hcs & Hshape) Hfiles.
    assert (∃ self', load_model prefix (self, fs) = (Return tt, (self', fs)))
      as [self' Hload].
    { unfold load_paths in Hfiles.
      apply Forall2_cons in Hfiles as [Hf1 Hfiles].
      apply Forall2_cons in Hfiles as [Hf2 Hfiles].
      apply Forall2_cons in Hfiles as [Hf3 _].
      eexists. unfold load_model, the_classes. py_unfold. cbn [fst snd].
      rewrite Hcs. cbn [fst snd].
      rewrite (torch_load_Some _ _ _ Hf1). cbn [fst snd].
      unfold Torch.load_state_dict.
      rewrite decide_True by exact Hshape.
      cbn [fst snd]. rewrite (json_load_Some _ _ _ Hf2). cbn [fst snd].
      rewrite index_of_json_of_index. cbn [fst snd].
      rewrite (json_load_Some _ _ _ Hf3). cbn [fst snd].
      rewrite classes_of_json_of_classes. cbn [fst snd]. reflexivity. }
    exists self'. split; [done|].
    destruct (Hreturns _ _ _ _ _ Hload) as (arts & Hfiles' & Hholds).
    assert (arts = [TorchFile sd; JsonFile (json_of_index d);
                    JsonFile (json_of_classes classes)]) as ->; [|done].
    apply list_eq. intros i.
    destruct (load_paths prefix !! i) as [path|] eqn:Hi.
    + destruct (Forall2_lookup_l _ _ _ _ _ Hfiles Hi) as (a & -> & Ha).
      destruct (Forall2_lookup_l _ _ _ _ _ Hfiles' Hi) as (a' & -> & Ha').
      congruence.
    + apply Forall2_length in Hfiles, Hfiles'.
      apply lookup_ge_None in Hi.
      rewrite !lookup_ge_None_2; [done|lia|lia].
Qed.

(** The outcome of [predict] depends on the object through the
    parameters of the network, [max_len] and three attributes of the
    tokenizer; it does not depend on the file system. *)
Lemma pt_predict_ext X self1 self2 fs1 fs2 :
  Torch.set_training false <$> model self1 = Torch.set_training false <$> model self2 →
  max_len self1 = max_len self2 →
  Keras.num_words (tokenizer self1) = Keras.num_words (tokenizer self2) →
  Keras.oov_token (tokenizer self1) = Keras.oov_token (tokenizer self2) →
  Keras.word_index (tokenizer self1) = Keras.word_index (tokenizer self2) →
  (predict X (self1, fs1)).1 = (predict X (self2, fs2)).1.
Proof.
  intros Hm Hlen Hn Ho Hw.
  unfold predict, the_model. py_unfold. cbn [fst snd].
  destruct (model self1) as [m1|], (model self2) as [m2|]; try done.
  apply (inj Some) in Hm. pt_obj_simpl.
  rewrite Hlen, (encode_texts_ext _ (tokenizer self2)) by done.
  destruct (encode_texts _ _ _) as [X_pad|]; cbn [fst snd]; [|done].
  rewrite Hm.
  destruct (Torch.forward _ _); cbn [fst snd]; [|done].
  by destruct (Torch.argmax_dim1 _).
Qed.

(** *** train *)

(** [train] writes no file and leaves the constructor arguments as
    they are, however it ends. *)
Lemma pt_train_no_files X_train y_train X_test y_test self fs :
  let σ' := (train X_train y_train X_test y_test (self, fs)).2 in
  σ'.2 = fs ∧ pytorch_config σ'.1 = pytorch_config self.
Proof.
  cbv zeta.
  change (wp (train X_train y_train X_test y_test)
            (λ _ σ', σ'.2 = fs ∧ pytorch_config σ'.1 = pytorch_config self) (self, fs)).
  unfold train, predict, the_classes, the_model, LabelEncoder.fit_transform.
  repeat (wp_step; pt_obj_simpl); by split.
Qed.

(** The tokenizer after [train], however it ends. *)
Lemma pt_train_tokenizer X_train y_train X_test y_test self fs :
  tokenizer (train X_train y_train X_test y_test (self, fs)).2.1
    = Keras.fit_on_texts (X_train ++ X_test) (tokenizer self).
Proof.
  change (wp (train X_train y_train X_test y_test)
            (λ _ σ', tokenizer σ'.1
                     = Keras.fit_on_texts (X_train ++ X_test) (tokenizer self)) (self, fs)).
  unfold train, predict, the_classes, the_model, LabelEncoder.fit_transform.
  repeat (wp_step; pt_obj_simpl); done.
Qed.

(** A test label that is not a training label: [train] raises at
    line 119, with the tokenizer and the label encoder fitted, no
    network built and the flag as it was. *)
Lemma pt_train_unseen_label X_train y_train X_test y_test self fs label :
  0 < max_len self → label ∈ y_test → label_as_seen y_train label ∉ y_train →
  train X_train y_train X_test y_test (self, fs)
    = (Raise (ValueError "y contains previously unseen labels"),
       (set_label_encoder {| LabelEncoder.classes_ := Some (LabelEncoder.np_unique y_train) |}
          (set_tokenizer (Keras.fit_on_texts (X_train ++ X_test) (tokenizer self)) self),
        fs)).
Proof.
  intros Hlen Hin Hnot.
  unfold train. py_unfold. pt_obj_simpl.
  rewrite !TokenFacts.encode_texts_rows
    by (done || apply KerasFacts.fit_on_texts_oov_indexed).
  pt_obj_simpl.
  destruct (fit_transform_returns y_train) as [codes ->]. pt_obj_simpl.
  by rewrite (transform_unseen y_train y_test label).
Qed.

(** A negative [max_len]: [train] raises at line 106, after the
    tokenizer was fitted. *)
Lemma pt_train_negative_max_len X_train y_train X_test y_test self fs :
  max_len self < 0 →
  train X_train y_train X_test y_test (self, fs)
    = (Raise (ValueError "negative dimensions are not allowed"),
       (set_tokenizer (Keras.fit_on_texts (X_train ++ X_test) (tokenizer self)) self, fs)).
Proof.
  intros Hlen. unfold train. py_unfold. pt_obj_simpl.
  by rewrite TokenFacts.encode_texts_negative.
Qed.

(** *** The tokenizer of a reachable object *)

Lemma pt_predict_keeps_tokenizer (J : Keras.Tokenizer → Z → Prop) X :
  keeps (λ s, J (tokenizer s) (vocab_size s)) (predict X).
Proof. unfold predict, the_model. repeat keeps_step; done. Qed.

Lemma pt_export_keeps_tokenizer (J : Keras.Tokenizer → Z → Prop) :
  keeps (λ s, J (tokenizer s) (vocab_size s)) export_to_onnx.
Proof. unfold export_to_onnx, the_model. repeat keeps_step; done. Qed.

Lemma pt_run_keeps_tokenizer c :
  keeps (λ s, tokenizer_well_formed (tokenizer s)
              ∧ Keras.oov_token (tokenizer s) = Some "<OOV>"
              ∧ Keras.num_words (tokenizer s) = vocab_size s) (run c).
Proof.
  set (J := λ (tok : Keras.Tokenizer) (n : Z),
         tokenizer_well_formed tok ∧ Keras.oov_token tok = Some "<OOV>"
         ∧ Keras.num_words tok = n).
  change (keeps (λ s, J (tokenizer s) (vocab_size s)) (run c)).
  destruct c; simpl.
  - apply keeps_bind; [|intros; apply keeps_ret].
    unfold train, the_classes, LabelEncoder.fit_transform.
    repeat first [apply (pt_predict_keeps_tokenizer J) | keeps_step]; try done.
    unfold J in *. destruct_and?.
    split; [by apply TokenFacts.fit_on_texts_well_formed|done].
  - apply (keeps_bind (λ s, J (tokenizer s) (vocab_size s)));
      [apply (pt_predict_keeps_tokenizer J)|intros; apply keeps_ret].
  - unfold save_model, the_model, the_classes.
    repeat first [apply (pt_export_keeps_tokenizer J) | keeps_step]; done.
  - unfold load_model, the_classes. repeat keeps_step; done.
  - apply (pt_export_keeps_tokenizer J).
Qed.

Lemma pt_reachable_tokenizer self :
  reachable self →
  tokenizer_well_formed (tokenizer self)
  ∧ Keras.oov_token (tokenizer self) = Some "<OOV>"
  ∧ Keras.num_words (tokenizer self) = vocab_size self.
Proof.
  induction 1 as [|self fs c _ IH].
  - split; [apply TokenFacts.Tokenizer_init_well_formed|done].
  - by apply (pt_run_keeps_tokenizer c (self, fs)).
Qed.

(** *** The output directory *)



(** *** What train and save_model leave *)

(** The network a [train] that returned leaves in [self.model]: built
    from the constructor arguments with one output per class, and in
    evaluation mode (the last [predict] switched it). *)
Lemma pt_train_model X_train y_train X_test y_test self fs metrics self' fs' :
  train X_train y_train X_test y_test (self, fs) = (Return metrics, (self', fs')) →
  ∃ m, model self' = Some m
       ∧ Torch.shape_of m
           = (vocab_size self, embedding_dim self, hidden_dim self,
              Z.of_nat (length (LabelEncoder.np_unique y_train)))
       ∧ Torch.tc_training m = false.
Proof.
  intros Htrain.
  assert (wp (train X_train y_train X_test y_test)
            (λ o σ', match o with
                     | Return _ =>
                         ∃ m, model σ'.1 = Some m
                              ∧ Torch.shape_of m
                                  = (vocab_size self, embedding_dim self, hidden_dim self,
                                     Z.of_nat (length (LabelEncoder.np_unique y_train)))
                              ∧ Torch.tc_training m = false
                     | Raise _ => True
                     end) (self, fs)) as Hwp.
  { unfold train, predict, the_classes, the_model, LabelEncoder.fit_transform.
    repeat (wp_step; pt_obj_simpl); try done. simplify_eq. by eexists. }
  exact (wp_elim _ _ _ _ _ Hwp Htrain).
Qed.

(** What a [save_model] that returned has done. *)
Lemma pt_save_model_returns self fs self' fs' :
  save_model (self, fs) = (Return tt, (self', fs')) →
  ∃ m arts,
    _is_trained self = true ∧ model self = Some m ∧ artifacts self = Some arts
    ∧ self' = set_model (Some (Torch.set_training false m)) self
    ∧ fs' = fs_write (fstr_opt (output_path self) +:+ "/model.onnx")
              (OnnxFile (Onnx.torch_onnx_export (Torch.set_training false m)
                           [1; max_len self] "input_ids" "output"
                           ["input_ids"; "output"] 17))
              (fs_write_all (zip (save_paths self) arts) (fs_mkdirs "models" fs)).
Proof.
  intros Hsave.
  assert (wp save_model
            (λ o σ', match o with
                     | Return _ =>
  ∃ m arts,
    _is_trained self = true ∧ model self = Some m ∧ artifacts self = Some arts
    ∧ σ'.1 = set_model (Some (Torch.set_training false m)) self
    ∧ σ'.2 = fs_write (fstr_opt (output_path self) +:+ "/model.onnx")
              (OnnxFile (Onnx.torch_onnx_export (Torch.set_training false m)
                           [1; max_len self] "input_ids" "output"
                           ["input_ids"; "output"] 17))
              (fs_write_all (zip (save_paths self) arts) (fs_mkdirs "models" fs))
                     | Raise _ => True
                     end) (self, fs)) as Hwp.
  { unfold save_model, export_to_onnx, the_model, the_classes.
    repeat (wp_step; pt_obj_simpl; write_inv); try done.
    simplify_eq. do 2 eexists. split_and!; try done.
    - by destruct (_is_trained self).
    - unfold artifacts.
      repeat match goal with Hx : _ = Some _ |- _ => rewrite Hx end. done.
    - unfold save_paths. simpl. by rewrite fs_write_twice. }
  destruct (wp_elim _ _ _ _ _ Hwp Hsave) as (m & arts & ? & ? & ? & ? & ?).
  by exists m, arts.
Qed.

End more.
End PyTorchMore.

(** ** TensorFlowLSTMStrategy, continued *)

Ltac tf_obj_simpl :=
  cbn [fst snd TensorFlowLSTMStrategy.vocab_size TensorFlowLSTMStrategy.max_len
       TensorFlowLSTMStrategy.tokenizer TensorFlowLSTMStrategy.label_encoder
       TensorFlowLSTMStrategy.model TensorFlowLSTMStrategy._is_trained
       TensorFlowLSTMStrategy.output_path TensorFlowLSTMStrategy.set_tokenizer
       TensorFlowLSTMStrategy.set_label_encoder TensorFlowLSTMStrategy.set_model
       TensorFlowLSTMStrategy.set_is_trained LabelEncoder.classes_] in *.

Module TensorFlowMore.
Section more.
Context `{Backend}.
Import TensorFlowLSTMStrategy.

(** [predict] assigns nothing and writes no file. *)
Lemma tf_predict_read_only X_seq self fs : (predict X_seq (self, fs)).2 = (self, fs).
Proof.
  change (wp (predict X_seq) (λ _ σ', σ' = (self, fs)) (self, fs)).
  unfold predict, argmax_predict, the_model.
  repeat (wp_step; tf_obj_simpl); done.
Qed.

Lemma tf_export_trained_error self fs e :
  _is_trained self = true → (export_to_onnx (self, fs)).1 = Raise e → ¬ untrained_error e.
Proof.
  intros Hs.
  change (wp export_to_onnx (λ o _, o = Raise e → ¬ untrained_error e) (self, fs)).
  unfold export_to_onnx, the_model.
  repeat (wp_step; tf_obj_simpl); simplify_eq/=; try done.
  all: try (rewrite Hs in *; discriminate).
  all: intros [= <-].
  all: first
    [ by eauto using io_error_not_untrained, write_file_raises, makedirs_raises
    | not_untrained ].
Qed.

Lemma tf_export_guard self fs :
  ((∃ e, (export_to_onnx (self, fs)).1 = Raise e ∧ untrained_error e)
   ↔ _is_trained self = false)
  ∧ (_is_trained self = false → (export_to_onnx (self, fs)).2 = (self, fs)).
Proof.
  split; [split|].
  - intros (e & He & Hu). destruct (_is_trained self) eqn:Hs; [|done].
    by destruct (tf_export_trained_error self fs e).
  - intros Hs. rewrite TensorFlowFacts.tf_export_untrained by done.
    eexists. split; [done|]. unfold untrained_error. set_solver.
  - intros Hs. by rewrite TensorFlowFacts.tf_export_untrained.
Qed.

(** What a [load_model] that returned has done. *)
Lemma tf_load_model_returns prefix self fs self' fs' :
  load_model prefix (self, fs) = (Return tt, (self', fs')) →
  fs' = fs
  ∧ _is_trained self' = true
  ∧ tensorflow_config self' = tensorflow_config self
  ∧ ∃ m d c classes,
      Forall2 (λ path a, fs_files fs !! path = Some a) (load_paths prefix)
        [KerasFile m; JsonFile (json_of_index d); JsonFile c]
      ∧ model self' = Some m
      ∧ tokenizer self' = Keras.set_word_index d (tokenizer self)
      ∧ classes_of_json c = Return classes
      ∧ label_encoder self' = {| LabelEncoder.classes_ := Some classes |}.
Proof.
  intros Hload.
  assert (wp (load_model prefix)
            (λ o σ', match o with
                     | Return _ =>
  σ'.2 = fs
  ∧ _is_trained σ'.1 = true
  ∧ tensorflow_config σ'.1 = tensorflow_config self
  ∧ ∃ m d c classes,
      Forall2 (λ path a, fs_files fs !! path = Some a) (load_paths prefix)
        [KerasFile m; JsonFile (json_of_index d); JsonFile c]
      ∧ model σ'.1 = Some m
      ∧ tokenizer σ'.1 = Keras.set_word_index d (tokenizer self)
      ∧ classes_of_json c = Return classes
      ∧ label_encoder σ'.1 = {| LabelEncoder.classes_ := Some classes |}
                     | Raise _ => True
                     end) (self, fs)) as Hwp.
  { unfold load_model.
    repeat (wp_step; tf_obj_simpl; load_inv); try done.
    simplify_eq. split_and!; try done.
    match goal with
    | Hj : index_of_json _ = Return _ |- _ => apply index_of_json_Return in Hj; subst
    end.
    do 4 eexists. split_and!; try done.
    unfold load_paths. by repeat constructor. }
  exact (wp_elim _ _ _ _ _ Hwp Hload).
Qed.

(** The model file is opened first: when it is not there, nothing was
    assigned. *)
Lemma tf_load_model_missing_file prefix self fs :
  fs_files fs !! ("models/" +:+ prefix +:+ "_model.h5") = None →
  ∃ e, io_error e ∧ load_model prefix (self, fs) = (Raise e, (self, fs)).
Proof.
  intros Hf. destruct (read_file_None _ _ Hf) as (e & Hr & He).
  exists e. split; [done|].
  unfold load_model, keras_load_model. py_unfold. cbn [fst snd].
  by rewrite Hr.
Qed.

(** [load_model] on [receiver] when the three files hold the artifacts
    of [self]. *)
Lemma tf_load_model_artifacts prefix self receiver fs arts :
  artifacts self = Some arts →
  Forall2 (λ path a, fs_files fs !! path = Some a) (load_paths prefix) arts →
  load_model prefix (receiver, fs) = (Return tt, (tensorflow_loaded self receiver, fs)).
Proof.
  intros Harts Hfiles.
  unfold artifacts in Harts.
  destruct (model self) as [m|] eqn:Hm; simpl in Harts; [|done].
  destruct (label_encoder self) as [[classes|]] eqn:Hle; simpl in Harts; [|done].
  injection Harts as <-.
  unfold load_paths in Hfiles.
  apply Forall2_cons in Hfiles as [Hf1 Hfiles].
  apply Forall2_cons in Hfiles as [Hf2 Hfiles].
  apply Forall2_cons in Hfiles as [Hf3 _].
  unfold load_model. py_unfold. cbn [fst snd].
  rewrite (keras_load_model_Some _ _ _ Hf1). cbn [fst snd].
  rewrite (json_load_Some _ _ _ Hf2). cbn [fst snd].
  rewrite index_of_json_of_index. cbn [fst snd].
  rewrite (json_load_Some _ _ _ Hf3). cbn [fst snd].
  rewrite classes_of_json_of_classes. cbn [fst snd].
  unfold tensorflow_loaded. by rewrite Hle, Hm.
Qed.

(** [load_model] reads the three files of [load_paths]. *)
Lemma tf_load_reads :
  load_reads load_paths load_model tensorflow_loadable tensorflow_holds.
Proof.
  assert (∀ self prefix fs self' fs',
    load_model prefix (self, fs) = (Return tt, (self', fs')) →
    ∃ arts,
      Forall2 (λ path a, fs_files fs !! path = Some a) (load_paths prefix) arts
      ∧ tensorflow_holds arts self') as Hreturns.
  { intros self prefix fs self' fs' Hload.
    apply tf_load_model_returns in Hload
      as (_ & Hs & _ & m & d & c & classes & Hfiles & Hm & Htok & Hc & Hle).
    eexists. split; [exact Hfiles|].
    exists m, d, c, classes. split_and!; try done. by rewrite Htok. }
  split_and!; [done| |].
  - intros self prefix fs path Hpath Hnone.
    destruct (load_model prefix (self, fs)) as [[[]|e] [self' fs']] eqn:Hload;
      [|by eexists].
    apply Hreturns in Hload as (arts & Hfiles & _).
    apply list_elem_of_lookup in Hpath as [i Hi].
    destruct (Forall2_lookup_l _ _ _ _ _ Hfiles Hi) as (a & _ & Ha). congruence.
  - intros self prefix fs arts (m & d & classes & ->) Hfiles.
    assert (∃ self', load_model prefix (self, fs) = (Return tt, (self', fs)))
      as [self' Hload].
    { unfold load_paths in Hfiles.
      apply Forall2_cons in Hfiles as [Hf1 Hfiles].
      apply Forall2_cons in Hfiles as [Hf2 Hfiles].
      apply Forall2_cons in Hfiles as [Hf3 _].
      eexists. unfold load_model. py_unfold. cbn [fst snd].
      rewrite (keras_load_model_Some _ _ _ Hf1). cbn [fst snd].
      rewrite (json_load_Some _ _ _ Hf2). cbn [fst snd].
      rewrite index_of_json_of_index. cbn [fst snd].
      rewrite (json_load_Some _ _ _ Hf3). cbn [fst snd].
      rewrite classes_of_json_of_classes. cbn [fst snd]. reflexivity. }
    exists self'. split; [done|].
    destruct (Hreturns _ _ _ _ _ Hload) as (arts & Hfiles' & Hholds).
    assert (arts = [KerasFile m; JsonFile (json_of_index d);
                    JsonFile (json_of_classes classes)]) as ->; [|done].
    apply list_eq. intros i.
    destruct (load_paths prefix !! i) as [path|] eqn:Hi.
    + destruct (Forall2_lookup_l _ _ _ _ _ Hfiles Hi) as (a & -> & Ha).
      destruct (Forall2_lookup_l _ _ _ _ _ Hfiles' Hi) as (a' & -> & Ha').
      congruence.
    + apply Forall2_length in Hfiles, Hfiles'.
      apply lookup_ge_None in Hi.
      rewrite !lookup_ge_None_2; [done|lia|lia].
Qed.

(** The outcome of [predict] depends on the object through
    [self.model] only. *)
Lemma tf_predict_ext X_seq self1 self2 fs1 fs2 :
  model self1 = model self2 →
  (predict X_seq (self1, fs1)).1 = (predict X_seq (self2, fs2)).1.
Proof.
  intros Hm. unfold predict, argmax_predict, the_model. py_unfold. cbn [fst snd].
  rewrite Hm. destruct (model self2) as [m|]; [|done]. cbn [fst snd].
  destruct (keras_predict _ _); cbn [fst snd]; [|done].
  by destruct (KerasModel.argmax_axis1 _).
Qed.

(** *** train *)

Lemma tf_train_no_files X_train y_train X_test y_test self fs :
  let σ' := (train X_train y_train X_test y_test (self, fs)).2 in
  σ'.2 = fs ∧ tensorflow_config σ'.1 = tensorflow_config self.
Proof.
  cbv zeta.
  change (wp (train X_train y_train X_test y_test)
            (λ _ σ', σ'.2 = fs ∧ tensorflow_config σ'.1 = tensorflow_config self)
            (self, fs)).
  unfold train, argmax_predict, the_classes, the_model, LabelEncoder.fit_transform.
  repeat (wp_step; tf_obj_simpl); by split.
Qed.

Lemma tf_train_tokenizer X_train y_train X_test y_test self fs :
  tokenizer (train X_train y_train X_test y_test (self, fs)).2.1
    = Keras.fit_on_texts (X_train ++ X_test) (tokenizer self).
Proof.
  change (wp (train X_train y_train X_test y_test)
            (λ _ σ', tokenizer σ'.1
                     = Keras.fit_on_texts (X_train ++ X_test) (tokenizer self)) (self, fs)).
  unfold train, argmax_predict, the_classes, the_model, LabelEncoder.fit_transform.
  repeat (wp_step; tf_obj_simpl); done.
Qed.

Lemma tf_train_unseen_label X_train y_train X_test y_test self fs label :
  0 < max_len self → label ∈ y_test → label_as_seen y_train label ∉ y_train →
  train X_train y_train X_test y_test (self, fs)
    = (Raise (ValueError "y contains previously unseen labels"),
       (set_label_encoder {| LabelEncoder.classes_ := Some (LabelEncoder.np_unique y_train) |}
          (set_tokenizer (Keras.fit_on_texts (X_train ++ X_test) (tokenizer self)) self),
        fs)).
Proof.
  intros Hlen Hin Hnot.
  unfold train. py_unfold. tf_obj_simpl.
  rewrite !TokenFacts.encode_texts_rows
    by (done || apply KerasFacts.fit_on_texts_oov_indexed).
  tf_obj_simpl.
  destruct (fit_transform_returns y_train) as [codes ->]. tf_obj_simpl.
  by rewrite (transform_unseen y_train y_test label).
Qed.

Lemma tf_train_negative_max_len X_train y_train X_test y_test self fs :
  max_len self < 0 →
  train X_train y_train X_test y_test (self, fs)
    = (Raise (ValueError "negative dimensions are not allowed"),
       (set_tokenizer (Keras.fit_on_texts (X_train ++ X_test) (tokenizer self)) self, fs)).
Proof.
  intros Hlen. unfold train. py_unfold. tf_obj_simpl.
  by rewrite TokenFacts.encode_texts_negative.
Qed.

(** *** The tokenizer of a reachable object *)

Lemma tf_predict_keeps_tokenizer (J : Keras.Tokenizer → Z → Prop) X_seq :
  keeps (λ s, J (tokenizer s) (vocab_size s)) (argmax_predict X_seq).
Proof. unfold argmax_predict, the_model. repeat keeps_step; done. Qed.

Lemma tf_export_keeps_tokenizer (J : Keras.Tokenizer → Z → Prop) :
  keeps (λ s, J (tokenizer s) (vocab_size s)) export_to_onnx.
Proof. unfold export_to_onnx, the_model. repeat keeps_step; done. Qed.

Lemma tf_run_keeps_tokenizer c :
  keeps (λ s, tokenizer_well_formed (tokenizer s)
              ∧ Keras.oov_token (tokenizer s) = Some "<OOV>"
              ∧ Keras.num_words (tokenizer s) = vocab_size s) (run c).
Proof.
  set (J := λ (tok : Keras.Tokenizer) (n : Z),
         tokenizer_well_formed tok ∧ Keras.oov_token tok = Some "<OOV>"
         ∧ Keras.num_words tok = n).
  change (keeps (λ s, J (tokenizer s) (vocab_size s)) (run c)).
  destruct c; simpl.
  - apply keeps_bind; [|intros; apply keeps_ret].
    unfold train, the_classes, LabelEncoder.fit_transform.
    repeat first [apply (tf_predict_keeps_tokenizer J) | keeps_step]; try done.
    unfold J in *. destruct_and?.
    split; [by apply TokenFacts.fit_on_texts_well_formed|done].
  - apply (keeps_bind (λ s, J (tokenizer s) (vocab_size s)));
      [apply (tf_predict_keeps_tokenizer J)|intros; apply keeps_ret].
  - unfold save_model, the_model, the_classes.
    repeat first [apply (tf_export_keeps_tokenizer J) | keeps_step]; done.
  - unfold load_model. repeat keeps_step; done.
  - apply (tf_export_keeps_tokenizer J).
Qed.

Lemma tf_reachable_tokenizer self :
  reachable self →
  tokenizer_well_formed (tokenizer self)
  ∧ Keras.oov_token (tokenizer self) = Some "<OOV>"
  ∧ Keras.num_words (tokenizer self) = vocab_size self.
Proof.
  induction 1 as [|self fs c _ IH].
  - split; [apply TokenFacts.Tokenizer_init_well_formed|done].
  - by apply (tf_run_keeps_tokenizer c (self, fs)).
Qed.

(** *** The output directory *)





(** *** What train and save_model leave *)

Lemma tf_train_model X_train y_train X_test y_test self fs metrics self' fs' :
  train X_train y_train X_test y_test (self, fs) = (Return metrics, (self', fs')) →
  ∃ m, model self' = Some m
       ∧ KerasModel.output_units m = Z.of_nat (length (LabelEncoder.np_unique y_train))
       ∧ KerasModel.input_length m = max_len self.
Proof.
  intros Htrain.
  assert (wp (train X_train y_train X_test y_test)
            (λ o σ', match o with
                     | Return _ =>
                         ∃ m, model σ'.1 = Some m
                              ∧ KerasModel.output_units m
                                = Z.of_nat (length (LabelEncoder.np_unique y_train))
                              ∧ KerasModel.input_length m = max_len self
                     | Raise _ => True
                     end) (self, fs)) as Hwp.
  { unfold train, argmax_predict, the_classes, the_model, LabelEncoder.fit_transform.
    repeat (wp_step; tf_obj_simpl); try done. simplify_eq. by eexists. }
  exact (wp_elim _ _ _ _ _ Hwp Htrain).
Qed.

Lemma tf_save_model_returns self fs self' fs' :
  save_model (self, fs) = (Return tt, (self', fs')) →
  ∃ m arts,
    _is_trained self = true ∧ model self = Some m ∧ artifacts self = Some arts
    ∧ self' = self
    ∧ fs' = fs_write (fstr_opt (output_path self) +:+ "/model.onnx")
              (OnnxFile (Onnx.tf2onnx_from_keras m "input"
                           [Onnx.Dynamic; Onnx.Fixed (max_len self)] 17))
              (fs_mkdirs (dirname (fstr_opt (output_path self) +:+ "/model.onnx"))
                 (fs_write_all (zip (save_paths self) arts) (fs_mkdirs "models" fs))).
Proof.
  intros Hsave.
  assert (wp save_model
            (λ o σ', match o with
                     | Return _ =>
  ∃ m arts,
    _is_trained self = true ∧ model self = Some m ∧ artifacts self = Some arts
    ∧ σ'.1 = self
    ∧ σ'.2 = fs_write (fstr_opt (output_path self) +:+ "/model.onnx")
              (OnnxFile (Onnx.tf2onnx_from_keras m "input"
                           [Onnx.Dynamic; Onnx.Fixed (max_len self)] 17))
              (fs_mkdirs (dirname (fstr_opt (output_path self) +:+ "/model.onnx"))
                 (fs_write_all (zip (save_paths self) arts) (fs_mkdirs "models" fs)))
                     | Raise _ => True
                     end) (self, fs)) as Hwp.
  { unfold save_model, export_to_onnx, the_model, the_classes.
    repeat (wp_step; tf_obj_simpl; write_inv); try done.
    simplify_eq. do 2 eexists. split_and!; try done.
    - by destruct (_is_trained self).
    - unfold artifacts.
      repeat match goal with Hx : _ = Some _ |- _ => rewrite Hx end. done.
    - unfold save_paths. simpl. rewrite fs_write_twice, !fs_mkdirs_fs_write.
      assert (dirname (fstr_opt (output_path self) +:+ "/model.onnx")
              = dirname (fstr_opt (output_path self) +:+ "/model.h5")) as ->
        by (by apply (dirname_sibling _ "model.onnx" "model.h5")).
      by rewrite fs_mkdirs_with_directory. }
  destruct (wp_elim _ _ _ _ _ Hwp Hsave) as (m & arts & ? & ? & ? & ? & ?).
  by exists m, arts.
Qed.

End more.
End TensorFlowMore.

(** ** ScikitLearnTFIDFStrategy, continued *)

Ltac sk_obj_simpl :=
  cbn [fst snd ScikitLearnTFIDFStrategy.max_features ScikitLearnTFIDFStrategy.max_len
       ScikitLearnTFIDFStrategy.pipeline ScikitLearnTFIDFStrategy.label_encoder
       ScikitLearnTFIDFStrategy._is_trained ScikitLearnTFIDFStrategy.output_path
       ScikitLearnTFIDFStrategy.set_pipeline ScikitLearnTFIDFStrategy.set_label_encoder
       ScikitLearnTFIDFStrategy.set_is_trained LabelEncoder.classes_] in *.

Ltac sk_wp_step :=
  lazymatch goal with
  | |- wp (ScikitLearnTFIDFStrategy.on_pipeline _) _ _ =>
      apply ScikitLearnFacts.sk_wp_on_pipeline; intros [?|?] ? ?;
      cbn beta iota; cbn [fst snd]
  | |- _ => wp_step
  end.

Module ScikitLearnMore.
Section more.
Context `{Backend}.
Import ScikitLearnTFIDFStrategy.

(** [predict] assigns nothing and writes no file. *)
Lemma sk_predict_read_only X self fs : (predict X (self, fs)).2 = (self, fs).
Proof.
  change (wp (predict X) (λ _ σ', σ' = (self, fs)) (self, fs)).
  unfold predict, pipeline_predict.
  repeat (sk_wp_step; sk_obj_simpl); done.
Qed.

Lemma sk_export_trained_error self fs e :
  _is_trained self = true → (export_to_onnx (self, fs)).1 = Raise e → ¬ untrained_error e.
Proof.
  intros Hs.
  change (wp export_to_onnx (λ o _, o = Raise e → ¬ untrained_error e) (self, fs)).
  unfold export_to_onnx.
  repeat (sk_wp_step; sk_obj_simpl); simplify_eq/=; try done.
  all: try (rewrite Hs in *; discriminate).
  all: intros [= <-].
  all: first
    [ by eauto using io_error_not_untrained, write_file_raises, makedirs_raises,
         ScikitLearnFacts.sk_convert_sklearn_raises
    | not_untrained ].
Qed.

Lemma sk_export_guard self fs :
  ((∃ e, (export_to_onnx (self, fs)).1 = Raise e ∧ untrained_error e)
   ↔ _is_trained self = false)
  ∧ (_is_trained self = false → (export_to_onnx (self, fs)).2 = (self, fs)).
Proof.
  split; [split|].
  - intros (e & He & Hu). destruct (_is_trained self) eqn:Hs; [|done].
    by destruct (sk_export_trained_error self fs e).
  - intros Hs. rewrite ScikitLearnFacts.sk_export_untrained by done.
    eexists. split; [done|]. unfold untrained_error. set_solver.
  - intros Hs. by rewrite ScikitLearnFacts.sk_export_untrained.
Qed.

(** What a [load_model] that returned has done. *)
Lemma sk_load_model_returns prefix self fs self' fs' :
  load_model prefix (self, fs) = (Return tt, (self', fs')) →
  fs' = fs
  ∧ _is_trained self' = true
  ∧ sklearn_config self' = sklearn_config self
  ∧ ∃ p vocab c classes,
      Forall2 (λ path a, fs_files fs !! path = Some a) (load_paths prefix)
        [JoblibFile p; JsonFile (json_of_index vocab); JsonFile c]
      ∧ pipeline self' = Pipeline.set_vocabulary vocab p
      ∧ classes_of_json c = Return classes
      ∧ label_encoder self' = {| LabelEncoder.classes_ := Some classes |}.
Proof.
  intros Hload.
  assert (wp (load_model prefix)
            (λ o σ', match o with
                     | Return _ =>
  σ'.2 = fs
  ∧ _is_trained σ'.1 = true
  ∧ sklearn_config σ'.1 = sklearn_config self
  ∧ ∃ p vocab c classes,
      Forall2 (λ path a, fs_files fs !! path = Some a) (load_paths prefix)
        [JoblibFile p; JsonFile (json_of_index vocab); JsonFile c]
      ∧ pipeline σ'.1 = Pipeline.set_vocabulary vocab p
      ∧ classes_of_json c = Return classes
      ∧ label_encoder σ'.1 = {| LabelEncoder.classes_ := Some classes |}
                     | Raise _ => True
                     end) (self, fs)) as Hwp.
  { unfold load_model.
    repeat (sk_wp_step; sk_obj_simpl; load_inv); try done.
    unfold Py.modify in *. simplify_eq. split_and!; try done.
    match goal with
    | Hj : index_of_json _ = Return _ |- _ => apply index_of_json_Return in Hj; subst
    end.
    do 4 eexists. split_and!; try done.
    unfold load_paths. by repeat constructor. }
  exact (wp_elim _ _ _ _ _ Hwp Hload).
Qed.

(** The model file is opened first: when it is not there, nothing was
    assigned. *)
Lemma sk_load_model_missing_file prefix self fs :
  fs_files fs !! ("models/" +:+ prefix +:+ "_model.pkl") = None →
  ∃ e, io_error e ∧ load_model prefix (self, fs) = (Raise e, (self, fs)).
Proof.
  intros Hf. destruct (read_file_None _ _ Hf) as (e & Hr & He).
  exists e. split; [done|].
  unfold load_model, joblib_load. py_unfold. cbn [fst snd].
  by rewrite Hr.
Qed.

(** [load_model] on [receiver] when the three files hold the artifacts
    of [self]. *)
Lemma sk_load_model_artifacts prefix self receiver fs arts :
  artifacts self = Some arts →
  Forall2 (λ path a, fs_files fs !! path = Some a) (load_paths prefix) arts →
  load_model prefix (receiver, fs) = (Return tt, (sklearn_loaded self receiver, fs)).
Proof.
  intros Harts Hfiles.
  unfold artifacts in Harts.
  destruct (Pipeline.vocabulary_ (pipeline self)) as [vocab|] eqn:Hv; simpl in Harts; [|done].
  destruct (label_encoder self) as [[classes|]] eqn:Hle; simpl in Harts; [|done].
  injection Harts as <-.
  unfold load_paths in Hfiles.
  apply Forall2_cons in Hfiles as [Hf1 Hfiles].
  apply Forall2_cons in Hfiles as [Hf2 Hfiles].
  apply Forall2_cons in Hfiles as [Hf3 _].
  unfold load_model, on_pipeline. py_unfold. cbn [fst snd].
  rewrite (joblib_load_Some _ _ _ Hf1). cbn [fst snd].
  rewrite (json_load_Some _ _ _ Hf2). cbn [fst snd].
  rewrite index_of_json_of_index. cbn [fst snd]. sk_obj_simpl.
  rewrite (json_load_Some _ _ _ Hf3). cbn [fst snd].
  rewrite classes_of_json_of_classes. cbn [fst snd].
  unfold sklearn_loaded. rewrite Hle. sk_obj_simpl.
  do 3 f_equal. unfold set_is_trained, set_label_encoder, set_pipeline. sk_obj_simpl.
  f_equal. unfold Pipeline.set_vocabulary. rewrite <- Hv. by destruct (pipeline self).
Qed.

(** [load_model] reads the three files of [load_paths]. *)
Lemma sk_load_reads :
  load_reads load_paths load_model sklearn_loadable sklearn_holds.
Proof.
  assert (∀ self prefix fs self' fs',
    load_model prefix (self, fs) = (Return tt, (self', fs')) →
    ∃ arts,
      Forall2 (λ path a, fs_files fs !! path = Some a) (load_paths prefix) arts
      ∧ sklearn_holds arts self') as Hreturns.
  { intros self prefix fs self' fs' Hload.
    apply sk_load_model_returns in Hload
      as (_ & Hs & _ & p & vocab & c & classes & Hfiles & Hp & Hc & Hle).
    eexists. split; [exact Hfiles|].
    exists p, vocab, c, classes. by split_and!. }
  split_and!; [done| |].
  - intros self prefix fs path Hpath Hnone.
    destruct (load_model prefix (self, fs)) as [[[]|e] [self' fs']] eqn:Hload;
      [|by eexists].
    apply Hreturns in Hload as (arts & Hfiles & _).
    apply list_elem_of_lookup in Hpath as [i Hi].
    destruct (Forall2_lookup_l _ _ _ _ _ Hfiles Hi) as (a & _ & Ha). congruence.
  - intros self prefix fs arts (p & vocab & classes & ->) Hfiles.
    assert (∃ self', load_model prefix (self, fs) = (Return tt, (self', fs)))
      as [self' Hload].
    { unfold load_paths in Hfiles.
      apply Forall2_cons in Hfiles as [Hf1 Hfiles].
      apply Forall2_cons in Hfiles as [Hf2 Hfiles].
      apply Forall2_cons in Hfiles as [Hf3 _].
      eexists. unfold load_model, on_pipeline. py_unfold. cbn [fst snd].
      rewrite (joblib_load_Some _ _ _ Hf1). cbn [fst snd].
      rewrite (json_load_Some _ _ _ Hf2). cbn [fst snd].
      rewrite index_of_json_of_index. cbn [fst snd]. sk_obj_simpl.
      rewrite (json_load_Some _ _ _ Hf3). cbn [fst snd].
      rewrite classes_of_json_of_classes. cbn [fst snd]. reflexivity. }
    exists self'. split; [done|].
    destruct (Hreturns _ _ _ _ _ Hload) as (arts & Hfiles' & Hholds).
    assert (arts = [JoblibFile p; JsonFile (json_of_index vocab);
                    JsonFile (json_of_classes classes)]) as ->; [|done].
    apply list_eq. intros i.
    destruct (load_paths prefix !! i) as [path|] eqn:Hi.
    + destruct (Forall2_lookup_l _ _ _ _ _ Hfiles Hi) as (a & -> & Ha).
      destruct (Forall2_lookup_l _ _ _ _ _ Hfiles' Hi) as (a' & -> & Ha').
      congruence.
    + apply Forall2_length in Hfiles, Hfiles'.
      apply lookup_ge_None in Hi.
      rewrite !lookup_ge_None_2; [done|lia|lia].
Qed.

(** The outcome of [predict] depends on the object through the flag
    and [self.pipeline] only. *)
Lemma sk_predict_ext X self1 self2 fs1 fs2 :
  _is_trained self1 = _is_trained self2 → pipeline self1 = pipeline self2 →
  (predict X (self1, fs1)).1 = (predict X (self2, fs2)).1.
Proof.
  intros Hs Hp. unfold predict, pipeline_predict. py_unfold. cbn [fst snd].
  rewrite Hs. destruct (_is_trained self2); [|done]. cbn [negb fst snd].
  by rewrite Hp.
Qed.

(** *** train *)

Lemma sk_train_no_files X_train y_train X_test y_test self fs :
  let σ' := (train X_train y_train X_test y_test (self, fs)).2 in
  σ'.2 = fs ∧ sklearn_config σ'.1 = sklearn_config self.
Proof.
  cbv zeta.
  change (wp (train X_train y_train X_test y_test)
            (λ _ σ', σ'.2 = fs ∧ sklearn_config σ'.1 = sklearn_config self) (self, fs)).
  unfold train, pipeline_predict, the_classes, LabelEncoder.fit_transform.
  repeat (sk_wp_step; sk_obj_simpl); by split.
Qed.

(** A test label that is not a training label: [train] raises at
    line 365, with the label encoder fitted, the pipeline untouched
    and the flag as it was. *)
Lemma sk_train_unseen_label X_train y_train X_test y_test self fs label :
  label ∈ y_test → label_as_seen y_train label ∉ y_train →
  train X_train y_train X_test y_test (self, fs)
    = (Raise (ValueError "y contains previously unseen labels"),
       (set_label_encoder {| LabelEncoder.classes_ := Some (LabelEncoder.np_unique y_train) |}
          self, fs)).
Proof.
  intros Hin Hnot.
  unfold train. py_unfold.
  destruct (fit_transform_returns y_train) as [codes ->]. sk_obj_simpl.
  by rewrite (transform_unseen y_train y_test label).
Qed.

(** The codes of the training labels take no more values than there
    are classes. *)
Lemma sk_codes_classes (classes y : list string) (codes : list Z) :
  LabelEncoder.encode classes y = Return codes →
  (length (Pipeline.np_unique codes) ≤ length classes)%nat.
Proof.
  intros Henc. apply encode_sound in Henc.
  rewrite <- (length_seq (length classes) 0), <- (length_fmap Z.of_nat).
  apply submseteq_length, NoDup_submseteq.
  - unfold Pipeline.np_unique. rewrite merge_sort_Permutation. apply NoDup_remove_dups.
  - intros z Hz.
    apply (proj1 (ScikitLearnFacts.sk_elem_of_pipeline_np_unique _ _)) in Hz.
    apply list_elem_of_lookup in Hz as [k Hk].
    destruct (Forall2_lookup_r _ _ _ _ _ Henc Hk) as (label & _ & i & -> & Hi).
    apply list_elem_of_fmap. exists i. split; [done|].
    apply elem_of_seq. apply lookup_lt_Some in Hi. lia.
Qed.

(** Training labels of fewer than two classes: [train] raises and
    leaves the flag as it was. *)
Lemma sk_train_single_class X_train y_train X_test y_test self fs :
  (length (LabelEncoder.np_unique y_train) < 2)%nat →
  let r := train X_train y_train X_test y_test (self, fs) in
  (∃ e, r.1 = Raise e) ∧ _is_trained r.2.1 = _is_trained self ∧ r.2.2 = fs.
Proof.
  intros Hlen. cbv zeta.
  change (wp (train X_train y_train X_test y_test)
            (λ o σ', (∃ e, o = Raise e) ∧ _is_trained σ'.1 = _is_trained self ∧ σ'.2 = fs)
            (self, fs)).
  unfold train, pipeline_predict, the_classes, LabelEncoder.fit_transform.
  repeat (sk_wp_step; sk_obj_simpl).
  all: try (split_and!; by eauto).
  all: exfalso.
  all: match goal with
       | Hfit : Pipeline.fit _ _ _ = (Return _, _) |- _ =>
           unfold Pipeline.fit in Hfit; case_decide; [done|];
           case_decide as Hn; [done|]
       end.
  all: match goal with
       | Henc : LabelEncoder.encode _ _ = Return _ |- _ => apply sk_codes_classes in Henc
       end.
  all: lia.
Qed.

(** *** The output directory *)




(** *** What save_model leaves *)

Lemma sk_save_model_returns self fs self' fs' :
  save_model (self, fs) = (Return tt, (self', fs')) →
  ∃ g arts,
    _is_trained self = true ∧ artifacts self = Some arts
    ∧ Onnx.convert_sklearn (pipeline self) "input" [Onnx.Dynamic] 17 = Return g
    ∧ self' = self
    ∧ fs' = fs_write (fstr_opt (output_path self) +:+ "/model.onnx") (OnnxFile g)
              (fs_mkdirs (dirname (fstr_opt (output_path self) +:+ "/model.onnx"))
                 (fs_write_all (zip (save_paths self) arts) fs)).
Proof.
  intros Hsave.
  assert (wp save_model
            (λ o σ', match o with
                     | Return _ =>
  ∃ g arts,
    _is_trained self = true ∧ artifacts self = Some arts
    ∧ Onnx.convert_sklearn (pipeline self) "input" [Onnx.Dynamic] 17 = Return g
    ∧ σ'.1 = self
    ∧ σ'.2 = fs_write (fstr_opt (output_path self) +:+ "/model.onnx") (OnnxFile g)
              (fs_mkdirs (dirname (fstr_opt (output_path self) +:+ "/model.onnx"))
                 (fs_write_all (zip (save_paths self) arts) fs))
                     | Raise _ => True
                     end) (self, fs)) as Hwp.
  { unfold save_model, export_to_onnx, the_classes.
    repeat (sk_wp_step; sk_obj_simpl; write_inv); try done.
    simplify_eq. do 2 eexists. split_and!; try done.
    - by destruct (_is_trained self).
    - unfold artifacts.
      repeat match goal with Hx : _ = Some _ |- _ => rewrite Hx end. done.
    - unfold save_paths. simpl. by rewrite fs_write_twice. }
  destruct (wp_elim _ _ _ _ _ Hwp Hsave) as (g & arts & ? & ? & ? & ? & ?).
  by exists g, arts.
Qed.

End more.
End ScikitLearnMore.

(** * The lifecycle contract, continued *)

(** ** C2: where save_model writes and where load_model reads *)

Section layout.
Context `{Backend}.

(** C2.  For each of the three strategies: [save_model] puts its three
    artifacts at [{output_path}/model.<ext>], [{output_path}/vocab.json]
    and [{output_path}/scaler.json]; [load_model(prefix)] reads
    [models/{prefix}_model.<ext>], [models/{prefix}_vocab.json] and
    [models/{prefix}_scaler.json] and nothing else: it depends on the
    file system through these three files only and writes nothing, it
    raises when one of them is missing, and when it returns the object
    holds the model, the vocabulary index and the label classes of
    these files; and the two locations differ for every output path and
    every prefix (so also whenever the output path is not the [models]
    directory). *)
Theorem save_and_load_locations :
  (∀ self, PyTorchLSTMStrategy.save_paths self
           = (λ name, fstr_opt (PyTorchLSTMStrategy.output_path self) +:+ "/" +:+ name)
               <$> ["model.pt"; "vocab.json"; "scaler.json"])
  ∧ (∀ self, TensorFlowLSTMStrategy.save_paths self
             = (λ name, fstr_opt (TensorFlowLSTMStrategy.output_path self) +:+ "/" +:+ name)
                 <$> ["model.h5"; "vocab.json"; "scaler.json"])
  ∧ (∀ self, ScikitLearnTFIDFStrategy.save_paths self
             = (λ name, fstr_opt (ScikitLearnTFIDFStrategy.output_path self) +:+ "/" +:+ name)
                 <$> ["model.pkl"; "vocab.json"; "scaler.json"])
  ∧ (∀ prefix, PyTorchLSTMStrategy.load_paths prefix
               = (λ name, "models/" +:+ prefix +:+ "_" +:+ name)
                   <$> ["model.pt"; "vocab.json"; "scaler.json"])
  ∧ (∀ prefix, TensorFlowLSTMStrategy.load_paths prefix
               = (λ name, "models/" +:+ prefix +:+ "_" +:+ name)
                   <$> ["model.h5"; "vocab.json"; "scaler.json"])
  ∧ (∀ prefix, ScikitLearnTFIDFStrategy.load_paths prefix
               = (λ name, "models/" +:+ prefix +:+ "_" +:+ name)
                   <$> ["model.pkl"; "vocab.json"; "scaler.json"])
  ∧ save_load_layout PyTorchLSTMStrategy._is_trained PyTorchLSTMStrategy.artifacts
      PyTorchLSTMStrategy.can_save PyTorchLSTMStrategy.save_paths
      PyTorchLSTMStrategy.load_paths PyTorchLSTMStrategy.save_model
      PyTorchLSTMStrategy.load_model
  ∧ save_load_layout TensorFlowLSTMStrategy._is_trained TensorFlowLSTMStrategy.artifacts
      TensorFlowLSTMStrategy.can_save TensorFlowLSTMStrategy.save_paths
      TensorFlowLSTMStrategy.load_paths TensorFlowLSTMStrategy.save_model
      TensorFlowLSTMStrategy.load_model
  ∧ save_load_layout ScikitLearnTFIDFStrategy._is_trained ScikitLearnTFIDFStrategy.artifacts
      ScikitLearnTFIDFStrategy.can_save ScikitLearnTFIDFStrategy.save_paths
      ScikitLearnTFIDFStrategy.load_paths ScikitLearnTFIDFStrategy.save_model
      ScikitLearnTFIDFStrategy.load_model
  ∧ load_reads PyTorchLSTMStrategy.load_paths PyTorchLSTMStrategy.load_model
      pytorch_loadable pytorch_holds
  ∧ load_reads TensorFlowLSTMStrategy.load_paths TensorFlowLSTMStrategy.load_model
      tensorflow_loadable tensorflow_holds
  ∧ load_reads ScikitLearnTFIDFStrategy.load_paths ScikitLearnTFIDFStrategy.load_model
      sklearn_loadable sklearn_holds.
Proof.
  split_and!; try done.
  - split_and!.
    + apply PyTorchFacts.pt_save_model_files.
    + apply PyTorchFacts.pt_load_model_reads.
    + apply PyTorchFacts.pt_save_load_paths_differ.
  - split_and!.
    + apply TensorFlowFacts.tf_save_model_files.
    + apply TensorFlowFacts.tf_load_model_reads.
    + apply TensorFlowFacts.tf_save_load_paths_differ.
  - split_and!.
    + apply ScikitLearnFacts.sk_save_model_files.
    + apply ScikitLearnFacts.sk_load_model_reads.
    + apply ScikitLearnFacts.sk_save_load_paths_differ.
  - apply PyTorchMore.pt_load_reads.
  - apply TensorFlowMore.tf_load_reads.
  - apply ScikitLearnMore.sk_load_reads.
Qed.

End layout.

Lemma save_and_load_locations_witness :
  (∃ arts,
     PyTorchLSTMStrategy.artifacts Demo.pytorch_trained = Some arts
     ∧ Forall2 (λ path a,
         fs_files (PyTorchLSTMStrategy.save_model (Demo.pytorch_trained, Demo.fs0)).2.2
           !! path = Some a)
         (PyTorchLSTMStrategy.save_paths Demo.pytorch_trained) arts)
  ∧ (∃ e, (TensorFlowLSTMStrategy.load_model "demo"
             (Demo.tensorflow_new, Demo.fs0)).1 = Raise e)
  ∧ ∃ self',
      ScikitLearnTFIDFStrategy.load_model "demo" (Demo.sklearn_new, Stored.sklearn)
        = (Return tt, (self', Stored.sklearn))
      ∧ sklearn_holds
          [JoblibFile (ScikitLearnTFIDFStrategy.pipeline Demo.sklearn_trained);
           JsonFile (json_of_index ∅);
           JsonFile (json_of_classes ["neg"; "pos"])] self'.
Proof.
  destruct (save_and_load_locations (H:=Toy.backend))
    as (_ & _ & _ & _ & _ & _ & [Hsave _] & _ & _ & _ & (_ & Hmissing & _)
        & (_ & _ & Hloads)).
  split_and!.
  - eexists. split; [vm_compute; reflexivity|].
    apply Hsave.
    + vm_compute; reflexivity.
    + vm_compute; reflexivity.
    + exact demo_pytorch_can_save.
  - apply (Hmissing Demo.tensorflow_new "demo" Demo.fs0 "models/demo_vocab.json").
    + by_compute.
    + vm_compute; reflexivity.
  - apply (Hloads Demo.sklearn_new "demo" Stored.sklearn).
    + exists (ScikitLearnTFIDFStrategy.pipeline Demo.sklearn_trained), ∅, ["neg"; "pos"].
      reflexivity.
    + files_hold.
Defined.

(** * Beyond the contract: what the methods do besides *)

(** ** predict *)

Section predict_read_only.
Context `{Backend}.

(** X1.  [predict] changes nothing a later call could observe: for
    each strategy it leaves the file system as it is; the linear and
    the TensorFlow strategy assign nothing at all, and the PyTorch
    strategy assigns nothing but the mode of the network (line 162),
    so that the constructor arguments, the tokenizer, the label encoder
    and the flag are the same, and the network is the same up to its
    mode. *)
Theorem predict_is_read_only :
  (∀ (self : PyTorchLSTMStrategy.t) fs X,
     let σ' := (PyTorchLSTMStrategy.predict X (self, fs)).2 in
     σ'.2 = fs
     ∧ pytorch_config σ'.1 = pytorch_config self
     ∧ PyTorchLSTMStrategy.tokenizer σ'.1 = PyTorchLSTMStrategy.tokenizer self
     ∧ PyTorchLSTMStrategy.label_encoder σ'.1 = PyTorchLSTMStrategy.label_encoder self
     ∧ PyTorchLSTMStrategy._is_trained σ'.1 = PyTorchLSTMStrategy._is_trained self
     ∧ Torch.set_training false <$> PyTorchLSTMStrategy.model σ'.1
       = Torch.set_training false <$> PyTorchLSTMStrategy.model self)
  ∧ (∀ (self : TensorFlowLSTMStrategy.t) fs X_seq,
       (TensorFlowLSTMStrategy.predict X_seq (self, fs)).2 = (self, fs))
  ∧ (∀ (self : ScikitLearnTFIDFStrategy.t) fs X,
       (ScikitLearnTFIDFStrategy.predict X (self, fs)).2 = (self, fs)).
Proof.
  split_and!.
  - intros. apply PyTorchMore.pt_predict_read_only.
  - intros. apply TensorFlowMore.tf_predict_read_only.
  - intros. apply ScikitLearnMore.sk_predict_read_only.
Qed.

End predict_read_only.

(** ** export_to_onnx on an untrained object *)

Section export_guard.
Context `{Backend}.

(** X2.  For each strategy, [export_to_onnx] raises an untrained-model
    error if and only if the flag is unset (every other exception it
    can raise is of another kind), and on an object whose flag is
    unset it changes neither the object nor the file system. *)
Theorem export_guard_exact :
  (∀ (self : PyTorchLSTMStrategy.t) fs,
     ((∃ e, (PyTorchLSTMStrategy.export_to_onnx (self, fs)).1 = Raise e
            ∧ untrained_error e)
      ↔ PyTorchLSTMStrategy._is_trained self = false)
     ∧ (PyTorchLSTMStrategy._is_trained self = false →
        (PyTorchLSTMStrategy.export_to_onnx (self, fs)).2 = (self, fs)))
  ∧ (∀ (self : TensorFlowLSTMStrategy.t) fs,
       ((∃ e, (TensorFlowLSTMStrategy.export_to_onnx (self, fs)).1 = Raise e
              ∧ untrained_error e)
        ↔ TensorFlowLSTMStrategy._is_trained self = false)
       ∧ (TensorFlowLSTMStrategy._is_trained self = false →
          (TensorFlowLSTMStrategy.export_to_onnx (self, fs)).2 = (self, fs)))
  ∧ (∀ (self : ScikitLearnTFIDFStrategy.t) fs,
       ((∃ e, (ScikitLearnTFIDFStrategy.export_to_onnx (self, fs)).1 = Raise e
              ∧ untrained_error e)
        ↔ ScikitLearnTFIDFStrategy._is_trained self = false)
       ∧ (ScikitLearnTFIDFStrategy._is_trained self = false →
          (ScikitLearnTFIDFStrategy.export_to_onnx (self, fs)).2 = (self, fs))).
Proof.
  split_and!.
  - intros. apply PyTorchMore.pt_export_guard.
  - intros. apply TensorFlowMore.tf_export_guard.
  - intros. apply ScikitLearnMore.sk_export_guard.
Qed.

End export_guard.

Lemma export_guard_exact_witness :
  (ScikitLearnTFIDFStrategy.export_to_onnx (Demo.sklearn_new, Demo.fs0)).2
    = (Demo.sklearn_new, Demo.fs0)
  ∧ ∃ e, (PyTorchLSTMStrategy.export_to_onnx (Demo.pytorch_new, Demo.fs0)).1 = Raise e
         ∧ untrained_error e.
Proof.
  destruct (export_guard_exact (H:=Toy.backend)) as (Hpt & _ & Hsk). split.
  - apply (Hsk Demo.sklearn_new Demo.fs0). reflexivity.
  - apply (Hpt Demo.pytorch_new Demo.fs0). reflexivity.
Defined.

(** ** load_model *)

Section load_returns.
Context `{Backend}.

(** X3.  What a [load_model] that returned has done, for each
    strategy: the three files of [load_paths] held a model of the
    strategy's kind and two JSON objects; the file system is as it
    was; the flag is set; the model, the [word_index] of the tokenizer
    and the label classes are the ones of the files, the classes in
    the order of their keys [str(0)], [str(1)], ...; the constructor
    arguments and the other attributes of the tokenizer ([num_words],
    [oov_token], the counts) are the ones the object had.  For the
    PyTorch strategy the saved parameters had the shape of the network
    built from the constructor arguments and from the number of classes
    the encoder had before the call. *)
Theorem load_model_postcondition :
  (∀ prefix (self self' : PyTorchLSTMStrategy.t) fs fs',
     PyTorchLSTMStrategy.load_model prefix (self, fs) = (Return tt, (self', fs')) →
     fs' = fs
     ∧ PyTorchLSTMStrategy._is_trained self' = true
     ∧ pytorch_config self' = pytorch_config self
     ∧ ∃ classes0 sd d c classes,
         LabelEncoder.classes_ (PyTorchLSTMStrategy.label_encoder self) = Some classes0
         ∧ Forall2 (λ path a, fs_files fs !! path = Some a)
             (PyTorchLSTMStrategy.load_paths prefix)
             [TorchFile sd; JsonFile (json_of_index d); JsonFile c]
         ∧ Torch.sd_shape sd
             = (PyTorchLSTMStrategy.vocab_size self, PyTorchLSTMStrategy.embedding_dim self,
                PyTorchLSTMStrategy.hidden_dim self, Z.of_nat (length classes0))
         ∧ PyTorchLSTMStrategy.model self'
             = Some (Torch.set_params (Torch.sd_params sd)
                       (PyTorchLSTMStrategy._build_model self (Z.of_nat (length classes0))))
         ∧ PyTorchLSTMStrategy.tokenizer self'
             = Keras.set_word_index d (PyTorchLSTMStrategy.tokenizer self)
         ∧ classes_of_json c = Return classes
         ∧ PyTorchLSTMStrategy.label_encoder self'
             = {| LabelEncoder.classes_ := Some classes |})
  ∧ (∀ prefix (self self' : TensorFlowLSTMStrategy.t) fs fs',
       TensorFlowLSTMStrategy.load_model prefix (self, fs) = (Return tt, (self', fs')) →
       fs' = fs
       ∧ TensorFlowLSTMStrategy._is_trained self' = true
       ∧ tensorflow_config self' = tensorflow_config self
       ∧ ∃ m d c classes,
           Forall2 (λ path a, fs_files fs !! path = Some a)
             (TensorFlowLSTMStrategy.load_paths prefix)
             [KerasFile m; JsonFile (json_of_index d); JsonFile c]
           ∧ TensorFlowLSTMStrategy.model self' = Some m
           ∧ TensorFlowLSTMStrategy.tokenizer self'
               = Keras.set_word_index d (TensorFlowLSTMStrategy.tokenizer self)
           ∧ classes_of_json c = Return classes
           ∧ TensorFlowLSTMStrategy.label_encoder self'
               = {| LabelEncoder.classes_ := Some classes |})
  ∧ (∀ prefix (self self' : ScikitLearnTFIDFStrategy.t) fs fs',
       ScikitLearnTFIDFStrategy.load_model prefix (self, fs) = (Return tt, (self', fs')) →
       fs' = fs
       ∧ ScikitLearnTFIDFStrategy._is_trained self' = true
       ∧ sklearn_config self' = sklearn_config self
       ∧ ∃ p vocab c classes,
           Forall2 (λ path a, fs_files fs !! path = Some a)
             (ScikitLearnTFIDFStrategy.load_paths prefix)
             [JoblibFile p; JsonFile (json_of_index vocab); JsonFile c]
           ∧ ScikitLearnTFIDFStrategy.pipeline self' = Pipeline.set_vocabulary vocab p
           ∧ classes_of_json c = Return classes
           ∧ ScikitLearnTFIDFStrategy.label_encoder self'
               = {| LabelEncoder.classes_ := Some classes |}).
Proof.
  split_and!.
  - intros prefix self self' fs fs'. apply PyTorchMore.pt_load_model_returns.
  - intros prefix self self' fs fs'. apply TensorFlowMore.tf_load_model_returns.
  - intros prefix self self' fs fs'. apply ScikitLearnMore.sk_load_model_returns.
Qed.

End load_returns.

Lemma load_model_postcondition_witness :
  let r := TensorFlowLSTMStrategy.load_model "demo" (Demo.tensorflow_new, Stored.tensorflow) in
  r.2.2 = Stored.tensorflow
  ∧ TensorFlowLSTMStrategy._is_trained r.2.1 = true
  ∧ tensorflow_config r.2.1 = tensorflow_config Demo.tensorflow_new
  ∧ ∃ m d c classes,
      Forall2 (λ path a, fs_files Stored.tensorflow !! path = Some a)
        (TensorFlowLSTMStrategy.load_paths "demo")
        [KerasFile m; JsonFile (json_of_index d); JsonFile c]
      ∧ TensorFlowLSTMStrategy.model r.2.1 = Some m
      ∧ TensorFlowLSTMStrategy.tokenizer r.2.1
          = Keras.set_word_index d (TensorFlowLSTMStrategy.tokenizer Demo.tensorflow_new)
      ∧ classes_of_json c = Return classes
      ∧ TensorFlowLSTMStrategy.label_encoder r.2.1
          = {| LabelEncoder.classes_ := Some classes |}.
Proof.
  destruct (load_model_postcondition (H:=Toy.backend)) as (_ & Htf & _).
  apply (Htf "demo" Demo.tensorflow_new). vm_compute; reflexivity.
Defined.

Section load_round_trip.
Context `{Backend}.

(** X4.  Loading what was saved.  When the three files of
    [load_paths prefix] hold the artifacts of an object [self] (its
    model, its vocabulary, its label map, as [save_model] writes
    them), [load_model prefix] returns on any TensorFlow or linear
    object [receiver] and on a PyTorch [receiver] whose constructor
    arguments and current number of classes give the shape of the
    saved network; it leaves an object with the model, the vocabulary
    index and the label classes of [self] and with the flag set; and
    this object predicts what [self] predicts (for the linear strategy
    if [self] was trained; for the PyTorch strategy if [receiver] was
    constructed with the [max_len] and has the [num_words] and the
    [oov_token] of [self], which are not saved). *)
Theorem load_restores_saved_artifacts :
  (∀ prefix (self receiver : PyTorchLSTMStrategy.t) fs arts classes0 m,
     PyTorchLSTMStrategy.artifacts self = Some arts →
     Forall2 (λ path a, fs_files fs !! path = Some a)
       (PyTorchLSTMStrategy.load_paths prefix) arts →
     PyTorchLSTMStrategy.model self = Some m →
     LabelEncoder.classes_ (PyTorchLSTMStrategy.label_encoder receiver) = Some classes0 →
     Torch.shape_of m
       = (PyTorchLSTMStrategy.vocab_size receiver, PyTorchLSTMStrategy.embedding_dim receiver,
          PyTorchLSTMStrategy.hidden_dim receiver, Z.of_nat (length classes0)) →
     PyTorchLSTMStrategy.load_model prefix (receiver, fs)
       = (Return tt, (pytorch_loaded self receiver m, fs))
     ∧ (PyTorchLSTMStrategy.max_len receiver = PyTorchLSTMStrategy.max_len self →
        Keras.num_words (PyTorchLSTMStrategy.tokenizer receiver)
          = Keras.num_words (PyTorchLSTMStrategy.tokenizer self) →
        Keras.oov_token (PyTorchLSTMStrategy.tokenizer receiver)
          = Keras.oov_token (PyTorchLSTMStrategy.tokenizer self) →
        ∀ X fs1 fs2,
          (PyTorchLSTMStrategy.predict X (pytorch_loaded self receiver m, fs1)).1
          = (PyTorchLSTMStrategy.predict X (self, fs2)).1))
  ∧ (∀ prefix (self receiver : TensorFlowLSTMStrategy.t) fs arts,
       TensorFlowLSTMStrategy.artifacts self = Some arts →
       Forall2 (λ path a, fs_files fs !! path = Some a)
         (TensorFlowLSTMStrategy.load_paths prefix) arts →
       TensorFlowLSTMStrategy.load_model prefix (receiver, fs)
         = (Return tt, (tensorflow_loaded self receiver, fs))
       ∧ ∀ X_seq fs1 fs2,
           (TensorFlowLSTMStrategy.predict X_seq (tensorflow_loaded self receiver, fs1)).1
           = (TensorFlowLSTMStrategy.predict X_seq (self, fs2)).1)
  ∧ (∀ prefix (self receiver : ScikitLearnTFIDFStrategy.t) fs arts,
       ScikitLearnTFIDFStrategy.artifacts self = Some arts →
       Forall2 (λ path a, fs_files fs !! path = Some a)
         (ScikitLearnTFIDFStrategy.load_paths prefix) arts →
       ScikitLearnTFIDFStrategy.load_model prefix (receiver, fs)
         = (Return tt, (sklearn_loaded self receiver, fs))
       ∧ (ScikitLearnTFIDFStrategy._is_trained self = true →
          ∀ X fs1 fs2,
            (ScikitLearnTFIDFStrategy.predict X (sklearn_loaded self receiver, fs1)).1
            = (ScikitLearnTFIDFStrategy.predict X (self, fs2)).1)).
Proof.
  split_and!.
  - intros prefix self receiver fs arts classes0 m Harts Hfiles Hm Hcs Hshape.
    split; [by eapply PyTorchMore.pt_load_model_artifacts|].
    intros Hlen Hn Ho X fs1 fs2.
    apply PyTorchMore.pt_predict_ext; try done. simpl. by rewrite Hm.
  - intros prefix self receiver fs arts Harts Hfiles.
    split; [by eapply TensorFlowMore.tf_load_model_artifacts|].
    intros X_seq fs1 fs2. by apply TensorFlowMore.tf_predict_ext.
  - intros prefix self receiver fs arts Harts Hfiles.
    split; [by eapply ScikitLearnMore.sk_load_model_artifacts|].
    intros Hs X fs1 fs2. by apply ScikitLearnMore.sk_predict_ext.
Qed.

(** X5.  A model file that is not there: [load_model] raises.  The
    TensorFlow and the linear strategy open the model file first and
    have assigned nothing when that fails.  The PyTorch strategy has by then replaced
    [self.model] by a freshly initialised network (line 186): after
    the failed call the object has lost the network it had, and its
    flag is as it was. *)
Theorem load_model_without_model_file :
  (∀ prefix (self : PyTorchLSTMStrategy.t) fs classes0,
     LabelEncoder.classes_ (PyTorchLSTMStrategy.label_encoder self) = Some classes0 →
     fs_files fs !! ("models/" +:+ prefix +:+ "_model.pt") = None →
     ∃ e, io_error e
          ∧ PyTorchLSTMStrategy.load_model prefix (self, fs)
            = (Raise e,
               (PyTorchLSTMStrategy.set_model
                  (Some (PyTorchLSTMStrategy._build_model self (Z.of_nat (length classes0))))
                  self, fs)))
  ∧ (∀ prefix (self : TensorFlowLSTMStrategy.t) fs,
       fs_files fs !! ("models/" +:+ prefix +:+ "_model.h5") = None →
       ∃ e, TensorFlowLSTMStrategy.load_model prefix (self, fs) = (Raise e, (self, fs)))
  ∧ (∀ prefix (self : ScikitLearnTFIDFStrategy.t) fs,
       fs_files fs !! ("models/" +:+ prefix +:+ "_model.pkl") = None →
       ∃ e, io_error e
            ∧ ScikitLearnTFIDFStrategy.load_model prefix (self, fs) = (Raise e, (self, fs))).
Proof.
  split_and!.
  - intros. by apply PyTorchMore.pt_load_model_missing_file.
  - intros prefix self fs Hf.
    destruct (TensorFlowMore.tf_load_model_missing_file prefix self fs Hf) as (e & _ & He).
    by exists e.
  - intros. by apply ScikitLearnMore.sk_load_model_missing_file.
Qed.


End load_round_trip.

Lemma load_restores_saved_artifacts_witness :
  let m := Torch.set_training false
             (PyTorchLSTMStrategy._build_model Demo.pytorch_trained 2) in
  ScikitLearnTFIDFStrategy.load_model "demo" (Demo.sklearn_new, Stored.sklearn)
    = (Return tt, (sklearn_loaded Demo.sklearn_trained Demo.sklearn_new, Stored.sklearn))
  ∧ PyTorchLSTMStrategy.load_model "demo" (Demo.pytorch_trained, Stored.pytorch)
    = (Return tt, (pytorch_loaded Demo.pytorch_trained Demo.pytorch_trained m,
                   Stored.pytorch)).
Proof.
  destruct (load_restores_saved_artifacts (H:=Toy.backend)) as (Hpt & _ & Hsk). split.
  - apply (Hsk "demo" Demo.sklearn_trained Demo.sklearn_new Stored.sklearn
             [JoblibFile (ScikitLearnTFIDFStrategy.pipeline Demo.sklearn_trained);
              JsonFile (json_of_index ∅);
              JsonFile (json_of_classes ["neg"; "pos"])]).
    + vm_compute; reflexivity.
    + files_hold.
  - apply (Hpt "demo" Demo.pytorch_trained Demo.pytorch_trained Stored.pytorch
             [TorchFile (Torch.get_state_dict
                           (PyTorchLSTMStrategy._build_model Demo.pytorch_trained 2));
              JsonFile (json_of_index
                          (Keras.word_index
                             (PyTorchLSTMStrategy.tokenizer Demo.pytorch_trained)));
              JsonFile (json_of_classes ["neg"; "pos"])]
             ["neg"; "pos"]).
    + vm_compute; reflexivity.
    + files_hold.
    + vm_compute; reflexivity.
    + vm_compute; reflexivity.
    + vm_compute; reflexivity.
Defined.

Lemma load_model_without_model_file_witness :
  ∃ e, io_error e
       ∧ PyTorchLSTMStrategy.load_model "demo" (Demo.pytorch_trained, Demo.fs0)
         = (Raise e,
            (PyTorchLSTMStrategy.set_model
               (Some (PyTorchLSTMStrategy._build_model Demo.pytorch_trained
                        (Z.of_nat (length ["neg"; "pos"]))))
               Demo.pytorch_trained, Demo.fs0)).
Proof.
  destruct (load_model_without_model_file (H:=Toy.backend)) as (Hpt & _ & _).
  apply (Hpt "demo" Demo.pytorch_trained Demo.fs0 ["neg"; "pos"]).
  - vm_compute; reflexivity.
  - vm_compute; reflexivity.
Defined.


(** ** train *)

Section train_more.
Context `{Backend}.

(** X7.  The label classes after a [train] that returned are the
    distinct training labels in increasing order, for each strategy;
    hence two trainings whose training labels form the same set, in
    whatever order and with whatever repetitions, leave equal label
    encoders (and so write the same label map). *)
Theorem label_classes_from_label_set :
  (∀ X_train y_train X_test y_test (self self' : PyTorchLSTMStrategy.t) fs fs' metrics,
     PyTorchLSTMStrategy.train X_train y_train X_test y_test (self, fs)
       = (Return metrics, (self', fs')) →
     label_classes_of y_train (PyTorchLSTMStrategy.label_encoder self'))
  ∧ (∀ X_train y_train X_test y_test (self self' : TensorFlowLSTMStrategy.t) fs fs' metrics,
       TensorFlowLSTMStrategy.train X_train y_train X_test y_test (self, fs)
         = (Return metrics, (self', fs')) →
       label_classes_of y_train (TensorFlowLSTMStrategy.label_encoder self'))
  ∧ (∀ X_train y_train X_test y_test (self self' : ScikitLearnTFIDFStrategy.t) fs fs' metrics,
       ScikitLearnTFIDFStrategy.train X_train y_train X_test y_test (self, fs)
         = (Return metrics, (self', fs')) →
       label_classes_of y_train (ScikitLearnTFIDFStrategy.label_encoder self'))
  ∧ (∀ y1 y2 le1 le2,
       label_classes_of y1 le1 → label_classes_of y2 le2 →
       (∀ label, label ∈ y1 ↔ label ∈ y2) → le1 = le2).
Proof.
  assert (∀ y le, LabelEncoder.classes_ le = Some (LabelEncoder.np_unique y) →
                  label_classes_of y le) as Hcanon.
  { intros y le Hle. exists (LabelEncoder.np_unique y). split_and!; [done| | |].
    - apply np_unique_sorted.
    - apply np_unique_NoDup.
    - apply elem_of_np_unique. }
  split_and!.
  - intros ????????? Htrain. apply PyTorchFacts.pt_train_returns in Htrain as (_ & ? & _).
    by apply Hcanon.
  - intros ????????? Htrain. apply TensorFlowFacts.tf_train_returns in Htrain as (_ & ? & _).
    by apply Hcanon.
  - intros ????????? Htrain. apply ScikitLearnFacts.sk_train_returns in Htrain as (_ & ? & _).
    by apply Hcanon.
  - intros y1 y2 [[c1|]] [[c2|]] (cs1 & Hc1 & Hs1 & Hn1 & He1) (cs2 & Hc2 & Hs2 & Hn2 & He2) Hy;
      simplify_eq/=.
    do 2 f_equal. apply (StronglySorted_unique String.le); [done..|].
    apply NoDup_Permutation; [done..|]. intros label. by rewrite He1, He2.
Qed.

(** X8.  An unseen test label makes [train] raise the [ValueError] of
    [LabelEncoder.transform] (lines 119, 271, 365).  [transform]
    converts the test labels to the dtype of the fitted classes, which
    cuts a label to the length of the longest training label: the
    label is unseen when, so cut, it is not a training label; for a
    label that is not a training label and no longer than some training
    label, this is the case.  By then the label encoder is fitted on
    the training labels (and, in the recurrent strategies, the
    tokenizer on the texts), but no model was built or fitted and the
    flag is as it was: nothing else of the object and nothing of the
    file system has changed.  (For the recurrent strategies [max_len]
    is positive, so that padding succeeds.) *)
Theorem train_unseen_test_label :
  (∀ X_train y_train X_test y_test (self : PyTorchLSTMStrategy.t) fs label,
     0 < PyTorchLSTMStrategy.max_len self →
     label ∈ y_test → label_as_seen y_train label ∉ y_train →
     ∃ msg,
       PyTorchLSTMStrategy.train X_train y_train X_test y_test (self, fs)
       = (Raise (ValueError msg),
          (PyTorchLSTMStrategy.set_label_encoder
             {| LabelEncoder.classes_ := Some (LabelEncoder.np_unique y_train) |}
             (PyTorchLSTMStrategy.set_tokenizer
                (Keras.fit_on_texts (X_train ++ X_test) (PyTorchLSTMStrategy.tokenizer self))
                self), fs)))
  ∧ (∀ X_train y_train X_test y_test (self : TensorFlowLSTMStrategy.t) fs label,
       0 < TensorFlowLSTMStrategy.max_len self →
       label ∈ y_test → label_as_seen y_train label ∉ y_train →
       ∃ msg,
         TensorFlowLSTMStrategy.train X_train y_train X_test y_test (self, fs)
         = (Raise (ValueError msg),
            (TensorFlowLSTMStrategy.set_label_encoder
               {| LabelEncoder.classes_ := Some (LabelEncoder.np_unique y_train) |}
               (TensorFlowLSTMStrategy.set_tokenizer
                  (Keras.fit_on_texts (X_train ++ X_test)
                     (TensorFlowLSTMStrategy.tokenizer self))
                  self), fs)))
  ∧ (∀ X_train y_train X_test y_test (self : ScikitLearnTFIDFStrategy.t) fs label,
       label ∈ y_test → label_as_seen y_train label ∉ y_train →
       ∃ msg,
         ScikitLearnTFIDFStrategy.train X_train y_train X_test y_test (self, fs)
         = (Raise (ValueError msg),
            (ScikitLearnTFIDFStrategy.set_label_encoder
               {| LabelEncoder.classes_ := Some (LabelEncoder.np_unique y_train) |}
               self, fs)))
  ∧ (∀ y_train label other,
       label ∉ y_train → other ∈ y_train →
       (String.length label ≤ String.length other)%nat →
       label_as_seen y_train label ∉ y_train).
Proof.
  split_and!.
  - intros. eexists. by eapply PyTorchMore.pt_train_unseen_label.
  - intros. eexists. by eapply TensorFlowMore.tf_train_unseen_label.
  - intros. eexists. by eapply ScikitLearnMore.sk_train_unseen_label.
  - intros y_train label other Hnot Hother Hlen.
    by rewrite (label_as_seen_short y_train label other).
Qed.

(** X9.  The linear strategy cannot be trained on labels of fewer
    than two classes: [train] raises, the flag is as it was, and the
    file system is as it was. *)
Theorem sklearn_train_needs_two_classes
    X_train y_train X_test y_test (self : ScikitLearnTFIDFStrategy.t) fs :
  (length (LabelEncoder.np_unique y_train) < 2)%nat →
  let r := ScikitLearnTFIDFStrategy.train X_train y_train X_test y_test (self, fs) in
  (∃ e, r.1 = Raise e)
  ∧ ScikitLearnTFIDFStrategy._is_trained r.2.1 = ScikitLearnTFIDFStrategy._is_trained self
  ∧ r.2.2 = fs.
Proof.
  intros Hclasses.
  by apply ScikitLearnMore.sk_train_single_class.
Qed.

(** X12.  [train] writes no file and does not touch the constructor
    arguments, for each strategy and however it ends. *)
Theorem train_writes_no_file :
  (∀ X_train y_train X_test y_test (self : PyTorchLSTMStrategy.t) fs,
     let σ' := (PyTorchLSTMStrategy.train X_train y_train X_test y_test (self, fs)).2 in
     σ'.2 = fs ∧ pytorch_config σ'.1 = pytorch_config self)
  ∧ (∀ X_train y_train X_test y_test (self : TensorFlowLSTMStrategy.t) fs,
       let σ' := (TensorFlowLSTMStrategy.train X_train y_train X_test y_test (self, fs)).2 in
       σ'.2 = fs ∧ tensorflow_config σ'.1 = tensorflow_config self)
  ∧ (∀ X_train y_train X_test y_test (self : ScikitLearnTFIDFStrategy.t) fs,
       let σ' := (ScikitLearnTFIDFStrategy.train X_train y_train X_test y_test (self, fs)).2 in
       σ'.2 = fs ∧ sklearn_config σ'.1 = sklearn_config self).
Proof.
  split_and!.
  - intros. apply PyTorchMore.pt_train_no_files.
  - intros. apply TensorFlowMore.tf_train_no_files.
  - intros. apply ScikitLearnMore.sk_train_no_files.
Qed.

(** X17.  A recurrent strategy constructed with a negative [max_len]
    cannot be trained: [train] raises the [ValueError] of
    [pad_sequences] at its second statement (lines 106, 256), after
    the tokenizer was fitted and before anything else is assigned. *)
Theorem train_negative_max_len :
  (∀ X_train y_train X_test y_test (self : PyTorchLSTMStrategy.t) fs,
     PyTorchLSTMStrategy.max_len self < 0 →
     PyTorchLSTMStrategy.train X_train y_train X_test y_test (self, fs)
       = (Raise (ValueError "negative dimensions are not allowed"),
          (PyTorchLSTMStrategy.set_tokenizer
             (Keras.fit_on_texts (X_train ++ X_test) (PyTorchLSTMStrategy.tokenizer self))
             self, fs)))
  ∧ (∀ X_train y_train X_test y_test (self : TensorFlowLSTMStrategy.t) fs,
       TensorFlowLSTMStrategy.max_len self < 0 →
       TensorFlowLSTMStrategy.train X_train y_train X_test y_test (self, fs)
         = (Raise (ValueError "negative dimensions are not allowed"),
            (TensorFlowLSTMStrategy.set_tokenizer
               (Keras.fit_on_texts (X_train ++ X_test)
                  (TensorFlowLSTMStrategy.tokenizer self))
               self, fs))).
Proof.
  split.
  - intros. by apply PyTorchMore.pt_train_negative_max_len.
  - intros. by apply TensorFlowMore.tf_train_negative_max_len.
Qed.

End train_more.

Lemma label_classes_from_label_set_witness :
  label_classes_of Demo.y_train
    (ScikitLearnTFIDFStrategy.label_encoder Demo.sklearn_trained)
  ∧ PyTorchLSTMStrategy.label_encoder Demo.pytorch_trained
    = ScikitLearnTFIDFStrategy.label_encoder
        (ScikitLearnTFIDFStrategy.train Demo.X_train ["neg"; "pos"; "pos"; "pos"]
           Demo.X_train Demo.y_train (Demo.sklearn_new, Demo.fs0)).2.1.
Proof.
  destruct (label_classes_from_label_set (H:=Toy.backend)) as (Hpt & _ & Hsk & Heq).
  assert (label_classes_of Demo.y_train
            (ScikitLearnTFIDFStrategy.label_encoder Demo.sklearn_trained)) as Hdemo.
  { apply (Hsk Demo.X_train Demo.y_train Demo.X_train Demo.y_train
             Demo.sklearn_new Demo.sklearn_trained Demo.fs0 Demo.fs0 Demo.metrics).
    vm_compute; reflexivity. }
  split; [exact Hdemo|].
  apply (Heq Demo.y_train ["neg"; "pos"; "pos"; "pos"]).
  - apply (Hpt Demo.X_train Demo.y_train Demo.X_train Demo.y_train
             Demo.pytorch_new Demo.pytorch_trained Demo.fs0 Demo.fs0 Demo.metrics).
    vm_compute; reflexivity.
  - apply (Hsk Demo.X_train ["neg"; "pos"; "pos"; "pos"] Demo.X_train Demo.y_train
             Demo.sklearn_new _ Demo.fs0 Demo.fs0 Demo.metrics).
    vm_compute; reflexivity.
  - intros label. unfold Demo.y_train. rewrite !elem_of_cons, !elem_of_nil. tauto.
Defined.

Lemma train_unseen_test_label_witness :
  ∃ msg,
    ScikitLearnTFIDFStrategy.train Demo.X_train Demo.y_train ["fine"] ["neutral"]
      (Demo.sklearn_new, Demo.fs0)
    = (Raise (ValueError msg),
       (ScikitLearnTFIDFStrategy.set_label_encoder
          {| LabelEncoder.classes_ := Some (LabelEncoder.np_unique Demo.y_train) |}
          Demo.sklearn_new, Demo.fs0)).
Proof.
  destruct (train_unseen_test_label (H:=Toy.backend)) as (_ & _ & Hsk & _).
  apply (Hsk Demo.X_train Demo.y_train ["fine"] ["neutral"] Demo.sklearn_new Demo.fs0
           "neutral").
  - apply (bool_decide_unpack _). vm_compute. exact I.
  - apply (bool_decide_unpack _). vm_compute. exact I.
Defined.

Lemma sklearn_train_needs_two_classes_witness :
  let r := ScikitLearnTFIDFStrategy.train ["good"; "fine"] ["pos"; "pos"] [] []
             (Demo.sklearn_new, Demo.fs0) in
  (∃ e, r.1 = Raise e)
  ∧ ScikitLearnTFIDFStrategy._is_trained r.2.1
    = ScikitLearnTFIDFStrategy._is_trained Demo.sklearn_new
  ∧ r.2.2 = Demo.fs0.
Proof.
  apply (sklearn_train_needs_two_classes (H:=Toy.backend)
           ["good"; "fine"] ["pos"; "pos"] [] [] Demo.sklearn_new Demo.fs0).
  vm_compute. lia.
Defined.

Lemma train_negative_max_len_witness :
  PyTorchLSTMStrategy.train Demo.X_train Demo.y_train [] []
    (PyTorchLSTMStrategy.init 10000 64 64 (-1) None, Demo.fs0)
  = (Raise (ValueError "negative dimensions are not allowed"),
     (PyTorchLSTMStrategy.set_tokenizer
        (Keras.fit_on_texts (Demo.X_train ++ [])
           (PyTorchLSTMStrategy.tokenizer (PyTorchLSTMStrategy.init 10000 64 64 (-1) None)))
        (PyTorchLSTMStrategy.init 10000 64 64 (-1) None), Demo.fs0)).
Proof.
  destruct (train_negative_max_len (H:=Toy.backend)) as (Hpt & _).
  apply (Hpt Demo.X_train Demo.y_train [] []
           (PyTorchLSTMStrategy.init 10000 64 64 (-1) None) Demo.fs0).
  simpl. lia.
Defined.

(** ** The output directory *)

Section output_directory.
Context `{Backend}.



End output_directory.



(** ** The vocabulary of a trained recurrent strategy *)

Section vocabulary.
Context `{Backend}.

(** X13.  Token indices stay within the embedding.  Take a recurrent
    strategy a client can hold, constructed with a vocabulary size of
    at least two and a positive [max_len].  After [train] (however it
    ends) tokenisation and padding of any texts, as [predict] and
    [train] do it (lines 106-115, 164-165, 256-265), return; every
    token index is at least 1 and less than [vocab_size], the size of
    the embedding, and every entry of a row is in
    [[0, vocab_size)], the index 0 being the padding. *)
Theorem train_encodes_within_vocabulary :
  (∀ X_train y_train X_test y_test (self : PyTorchLSTMStrategy.t) fs X,
     PyTorchLSTMStrategy.reachable self →
     2 ≤ PyTorchLSTMStrategy.vocab_size self → 0 < PyTorchLSTMStrategy.max_len self →
     let self' := (PyTorchLSTMStrategy.train X_train y_train X_test y_test (self, fs)).2.1 in
     let tok := PyTorchLSTMStrategy.tokenizer self' in
     ∃ rows,
       encode_texts tok (PyTorchLSTMStrategy.max_len self') X = Return rows
       ∧ Forall (Forall (λ i, 0 ≤ i < PyTorchLSTMStrategy.vocab_size self')) rows
       ∧ Forall2 (λ text row,
           Forall (λ i, 1 ≤ i < PyTorchLSTMStrategy.vocab_size self') (token_ids tok text)
           ∧ row = padded_row (Z.to_nat (PyTorchLSTMStrategy.max_len self'))
                     (token_ids tok text)) X rows)
  ∧ (∀ X_train y_train X_test y_test (self : TensorFlowLSTMStrategy.t) fs X,
       TensorFlowLSTMStrategy.reachable self →
       2 ≤ TensorFlowLSTMStrategy.vocab_size self →
       0 < TensorFlowLSTMStrategy.max_len self →
       let self' :=
         (TensorFlowLSTMStrategy.train X_train y_train X_test y_test (self, fs)).2.1 in
       let tok := TensorFlowLSTMStrategy.tokenizer self' in
       ∃ rows,
         encode_texts tok (TensorFlowLSTMStrategy.max_len self') X = Return rows
         ∧ Forall (Forall (λ i, 0 ≤ i < TensorFlowLSTMStrategy.vocab_size self')) rows
         ∧ Forall2 (λ text row,
             Forall (λ i, 1 ≤ i < TensorFlowLSTMStrategy.vocab_size self')
               (token_ids tok text)
             ∧ row = padded_row (Z.to_nat (TensorFlowLSTMStrategy.max_len self'))
                       (token_ids tok text)) X rows).
Proof.
  split.
  - intros X_train y_train X_test y_test self fs X Hreach Hvs Hlen. cbv zeta.
    destruct (PyTorchMore.pt_reachable_tokenizer self Hreach) as (Hwf & _ & Hn).
    destruct (PyTorchMore.pt_train_no_files X_train y_train X_test y_test self fs)
      as [_ Hcfg].
    unfold pytorch_config in Hcfg. injection Hcfg as Hvs' _ _ Hlen' _.
    rewrite (PyTorchMore.pt_train_tokenizer X_train y_train X_test y_test self fs).
    rewrite Hvs', Hlen', <- Hn.
    apply TokenFacts.fitted_encode_range; [done|lia|done].
  - intros X_train y_train X_test y_test self fs X Hreach Hvs Hlen. cbv zeta.
    destruct (TensorFlowMore.tf_reachable_tokenizer self Hreach) as (Hwf & _ & Hn).
    destruct (TensorFlowMore.tf_train_no_files X_train y_train X_test y_test self fs)
      as [_ Hcfg].
    unfold tensorflow_config in Hcfg. injection Hcfg as Hvs' Hlen' _.
    rewrite (TensorFlowMore.tf_train_tokenizer X_train y_train X_test y_test self fs).
    rewrite Hvs', Hlen', <- Hn.
    apply TokenFacts.fitted_encode_range; [done|lia|done].
Qed.

(** X14.  Words the tokenizer has not seen.  After [train] on a
    newly constructed recurrent strategy, a text none of whose words
    occurs in the training or test texts is tokenised to the index 1
    of the out-of-vocabulary token, once per word. *)
Theorem unseen_words_encode_as_oov :
  (∀ vocab_size embedding_dim hidden_dim max_len output_path
     X_train y_train X_test y_test fs text,
     let self' :=
       (PyTorchLSTMStrategy.train X_train y_train X_test y_test
          (PyTorchLSTMStrategy.init vocab_size embedding_dim hidden_dim max_len output_path,
           fs)).2.1 in
     Forall (λ w, w ∉ corpus_words (X_train ++ X_test)) (Keras.text_to_word_sequence text) →
     token_ids (PyTorchLSTMStrategy.tokenizer self') text
       = replicate (length (Keras.text_to_word_sequence text)) 1)
  ∧ (∀ vocab_size max_len output_path X_train y_train X_test y_test fs text,
       let self' :=
         (TensorFlowLSTMStrategy.train X_train y_train X_test y_test
            (TensorFlowLSTMStrategy.init vocab_size max_len output_path, fs)).2.1 in
       Forall (λ w, w ∉ corpus_words (X_train ++ X_test))
         (Keras.text_to_word_sequence text) →
       token_ids (TensorFlowLSTMStrategy.tokenizer self') text
         = replicate (length (Keras.text_to_word_sequence text)) 1).
Proof.
  split.
  - intros vocab_size embedding_dim hidden_dim max_len output_path
      X_train y_train X_test y_test fs text. cbv zeta. intros Hunseen.
    rewrite (PyTorchMore.pt_train_tokenizer X_train y_train X_test y_test _ fs).
    apply TokenFacts.fitted_unknown_words;
      [apply TokenFacts.Tokenizer_init_well_formed|].
    eapply Forall_impl; [exact Hunseen|]. intros w Hw. split; [done|]. simpl. set_solver.
  - intros vocab_size max_len output_path X_train y_train X_test y_test fs text.
    cbv zeta. intros Hunseen.
    rewrite (TensorFlowMore.tf_train_tokenizer X_train y_train X_test y_test _ fs).
    apply TokenFacts.fitted_unknown_words;
      [apply TokenFacts.Tokenizer_init_well_formed|].
    eapply Forall_impl; [exact Hunseen|]. intros w Hw. split; [done|]. simpl. set_solver.
Qed.

End vocabulary.

Lemma train_encodes_within_vocabulary_witness :
  let self' :=
    (PyTorchLSTMStrategy.train Demo.X_train Demo.y_train Demo.X_train Demo.y_train
       (Demo.pytorch_new, Demo.fs0)).2.1 in
  let tok := PyTorchLSTMStrategy.tokenizer self' in
  ∃ rows,
    encode_texts tok (PyTorchLSTMStrategy.max_len self') ["good service, BAD price!"]
      = Return rows
    ∧ Forall (Forall (λ i, 0 ≤ i < PyTorchLSTMStrategy.vocab_size self')) rows
    ∧ Forall2 (λ text row,
        Forall (λ i, 1 ≤ i < PyTorchLSTMStrategy.vocab_size self') (token_ids tok text)
        ∧ row = padded_row (Z.to_nat (PyTorchLSTMStrategy.max_len self'))
                  (token_ids tok text)) ["good service, BAD price!"] rows.
Proof.
  destruct (train_encodes_within_vocabulary (H:=Toy.backend)) as (Hpt & _).
  apply (Hpt Demo.X_train Demo.y_train Demo.X_train Demo.y_train Demo.pytorch_new Demo.fs0
           ["good service, BAD price!"]).
  - apply PyTorchLSTMStrategy.reachable_init.
  - simpl. lia.
  - simpl. lia.
Defined.

Lemma unseen_words_encode_as_oov_witness :
  token_ids (PyTorchLSTMStrategy.tokenizer Demo.pytorch_trained) "Awful price!"
    = replicate (length (Keras.text_to_word_sequence "Awful price!")) 1.
Proof.
  destruct (unseen_words_encode_as_oov (H:=Toy.backend)) as (Hpt & _).
  apply (Hpt 10000 64 64 30 (Some "out") Demo.X_train Demo.y_train Demo.X_train
           Demo.y_train Demo.fs0 "Awful price!").
  apply (bool_decide_unpack _). vm_compute. exact I.
Defined.

(** ** The label map read back, and the objects a client can hold *)

Section label_map.
Context `{Backend}.

(** X15.  The comprehension [[classes[str(i)] for i in
    range(len(classes))]] of [load_model] (lines 194, 320, 411), on a
    label map whose values are strings: it returns if and only if the
    keys [str(0)], ..., [str(n-1)] are all there, [n] being the number
    of entries; it then returns [n] labels, label [i] being the entry
    [str(i)]; otherwise it raises [KeyError] for a missing key (so a
    label map with other keys cannot be loaded). *)
Theorem label_map_keys (d : gmap string pyval) :
  map_Forall (λ _ v, is_Some (pyval_str v)) d →
  ((∃ classes, classes_of_json d = Return classes)
   ↔ ∀ i, (i < size d)%nat → is_Some (d !! py_str_nat i))
  ∧ (∀ classes,
       classes_of_json d = Return classes →
       length classes = size d
       ∧ ∀ i label, classes !! i = Some label → d !! py_str_nat i = Some (PStr label))
  ∧ (∀ i, (i < size d)%nat → d !! py_str_nat i = None →
       ∃ j, (j < size d)%nat ∧ d !! py_str_nat j = None
            ∧ classes_of_json d = Raise (KeyError (py_str_nat j))).
Proof.
  intros Hstr. split_and!.
  - split.
    + intros [classes Hret] i Hi.
      destruct (d !! py_str_nat i) eqn:Hdi; [done|].
      destruct (classes_of_json_KeyError d i Hstr Hi Hdi) as (j & _ & _ & Hraise).
      congruence.
    + intros Hkeys.
      destruct (classes_of_json d) as [classes|e] eqn:Hret; [by eexists|].
      exfalso. unfold classes_of_json in Hret.
      assert (∀ l, (∀ i, i ∈ l → (i < size d)%nat) →
                ∃ classes,
                  traverse (λ i,
                    match d !! py_str_nat i with
                    | Some (PStr label) => Return label
                    | Some (PInt _) => Raise (TypeError "label is not a string")
                    | None => Raise (KeyError (py_str_nat i))
                    end) l = Return classes) as Hall.
      { induction l as [|i l IH]; intros Hl; [by eexists|].
        destruct IH as [classes IH]; [intros; apply Hl; by right|].
        destruct (Hkeys i) as [v Hv]; [apply Hl; by left|].
        destruct v as [z|s]; [by destruct (Hstr _ _ Hv)|].
        exists (s :: classes). simpl. by rewrite Hv, IH. }
      destruct (Hall (seq 0 (size d))) as [classes Hcs].
      { intros i Hi%elem_of_seq. lia. }
      congruence.
  - apply classes_of_json_Return.
  - intros i. by apply classes_of_json_KeyError.
Qed.

(** X16.  A trained object that a client can hold (a new object
    after any calls of the five methods, on any file systems, returned
    or failed) always has what [save_model] persists: for the
    recurrent strategies a model and label classes, hence the three
    artifacts; for the linear strategy label classes. *)
Theorem trained_objects_have_artifacts :
  (∀ self : PyTorchLSTMStrategy.t,
     PyTorchLSTMStrategy.reachable self → PyTorchLSTMStrategy._is_trained self = true →
     is_Some (PyTorchLSTMStrategy.artifacts self))
  ∧ (∀ self : TensorFlowLSTMStrategy.t,
       TensorFlowLSTMStrategy.reachable self →
       TensorFlowLSTMStrategy._is_trained self = true →
       is_Some (TensorFlowLSTMStrategy.artifacts self))
  ∧ (∀ self : ScikitLearnTFIDFStrategy.t,
       ScikitLearnTFIDFStrategy.reachable self →
       ScikitLearnTFIDFStrategy._is_trained self = true →
       is_Some (LabelEncoder.classes_ (ScikitLearnTFIDFStrategy.label_encoder self))).
Proof.
  split_and!.
  - apply PyTorchFacts.pt_reachable_artifacts.
  - apply TensorFlowFacts.tf_reachable_artifacts.
  - intros self Hreach Hs. by apply (ScikitLearnFacts.sk_reachable_consistent self Hreach).
Qed.

End label_map.

Lemma label_map_keys_witness :
  ∃ j, (j < 2)%nat
       ∧ ({[ "0" := PStr "neg"; "2" := PStr "pos" ]} : gmap string pyval) !! py_str_nat j
         = None
       ∧ classes_of_json {[ "0" := PStr "neg"; "2" := PStr "pos" ]}
         = Raise (KeyError (py_str_nat j)).
Proof.
  destruct (label_map_keys {[ "0" := PStr "neg"; "2" := PStr "pos" ]})
    as (_ & _ & Hkey).
  - apply (bool_decide_unpack _). vm_compute. exact I.
  - apply (Hkey 1%nat).
    + vm_compute. lia.
    + vm_compute; reflexivity.
Defined.

Lemma trained_objects_have_artifacts_witness :
  is_Some
    (TensorFlowLSTMStrategy.artifacts
       (TensorFlowLSTMStrategy.run (TensorFlowLSTMStrategy.LoadModel "missing")
          ((TensorFlowLSTMStrategy.run
              (TensorFlowLSTMStrategy.Train Demo.X_train Demo.y_train
                 Demo.X_train Demo.y_train)
              (Demo.tensorflow_new, Demo.fs0)).2.1, Demo.fs0)).2.1).
Proof.
  destruct (trained_objects_have_artifacts (H:=Toy.backend)) as (_ & Htf & _).
  apply Htf.
  - exact (TensorFlowLSTMStrategy.reachable_call _ Demo.fs0
             (TensorFlowLSTMStrategy.LoadModel "missing")
             (TensorFlowLSTMStrategy.reachable_call _ Demo.fs0
                (TensorFlowLSTMStrategy.Train Demo.X_train Demo.y_train
                   Demo.X_train Demo.y_train)
                (TensorFlowLSTMStrategy.reachable_init 10000 30 (Some "out")))).
  - vm_compute; reflexivity.
Defined.

(** ** TextDataset *)

(** X18.  The data set [train] hands to the loader (line 125).
    Its length is the number of sequences, whatever the labels are.
    Item [idx], for [0 <= idx] below both the number of sequences and
    the number of labels, pairs sequence [idx] with label [idx].  An
    index from the number of labels on raises [IndexError], also when
    it is below the length of the data set: with fewer labels than
    sequences the loader runs into it. *)
Theorem text_dataset_items (sequences : list (list Z)) (labels : list Z) (idx : Z) :
  let ds := TextDataset.init sequences labels in
  TextDataset.__len__ ds = Z.of_nat (length sequences)
  ∧ (0 ≤ idx < Z.of_nat (length sequences) → idx < Z.of_nat (length labels) →
     ∃ ids label,
       sequences !! Z.to_nat idx = Some ids ∧ labels !! Z.to_nat idx = Some label
       ∧ TextDataset.__getitem__ ds idx
         = Return {| TextDataset.input_ids := ids; TextDataset.item_labels := label |})
  ∧ (Z.of_nat (length labels) ≤ idx →
     TextDataset.__getitem__ ds idx
       = Raise (IndexError "index is out of bounds for axis 0")).
Proof.
  cbv zeta. split_and!; [done| |].
  - intros Hseq Hlab.
    destruct (lookup_lt_is_Some_2 sequences (Z.to_nat idx)) as [ids Hids]; [lia|].
    destruct (lookup_lt_is_Some_2 labels (Z.to_nat idx)) as [label Hlabel]; [lia|].
    exists ids, label. split_and!; [done..|].
    unfold TextDataset.__getitem__, TextDataset.np_getitem. simpl.
    destruct (idx <? 0) eqn:Hneg; [lia|].
    rewrite !(proj2 (andb_true_iff _ _)) by (split; [apply Z.leb_le|apply Z.ltb_lt]; lia).
    by rewrite Hids, Hlabel.
  - intros Hidx.
    unfold TextDataset.__getitem__, TextDataset.np_getitem. simpl.
    destruct (idx <? 0) eqn:Hneg; [lia|].
    assert ((0 <=? idx) && (idx <? Z.of_nat (length labels)) = false) as Hout.
    { apply andb_false_iff. right. apply Z.ltb_ge. lia. }
    rewrite Hout.
    destruct ((0 <=? idx) && (idx <? Z.of_nat (length sequences))); [|done].
    by destruct (sequences !! Z.to_nat idx).
Qed.

Lemma text_dataset_items_witness :
  TextDataset.__getitem__ (TextDataset.init [[4; 5; 0]; [6; 0; 0]] [1]) 1
    = Raise (IndexError "index is out of bounds for axis 0")
  ∧ ∃ ids label,
      [[4; 5; 0]; [6; 0; 0]] !! Z.to_nat 0 = Some ids ∧ [1] !! Z.to_nat 0 = Some label
      ∧ TextDataset.__getitem__ (TextDataset.init [[4; 5; 0]; [6; 0; 0]] [1]) 0
        = Return {| TextDataset.input_ids := ids; TextDataset.item_labels := label |}.
Proof.
  split.
  - apply (text_dataset_items [[4; 5; 0]; [6; 0; 0]] [1] 1). simpl. lia.
  - apply (text_dataset_items [[4; 5; 0]; [6; 0; 0]] [1] 0); simpl; lia.
Defined.

(** ** What train and save_model leave behind *)

Section postconditions.
Context `{Backend}.

(** X19.  The vocabulary index is not capped.  After [train] on a
    newly constructed recurrent strategy, [tokenizer.word_index] (which
    [save_model] writes to [vocab.json], lines 178 and 306) holds the
    out-of-vocabulary token at index 1 and every word of the training
    and test texts, and nothing else, each under an index of its own,
    whatever [vocab_size] is: the limit is applied only when texts are
    turned into index sequences. *)
Theorem vocabulary_index_is_not_capped :
  (∀ vocab_size embedding_dim hidden_dim max_len output_path
     X_train y_train X_test y_test fs,
     let self' :=
       (PyTorchLSTMStrategy.train X_train y_train X_test y_test
          (PyTorchLSTMStrategy.init vocab_size embedding_dim hidden_dim max_len output_path,
           fs)).2.1 in
     let index := Keras.word_index (PyTorchLSTMStrategy.tokenizer self') in
     index !! "<OOV>" = Some 1
     ∧ (∀ w, is_Some (index !! w) ↔ w = "<OOV>" ∨ w ∈ corpus_words (X_train ++ X_test))
     ∧ (∀ w1 w2 v, index !! w1 = Some v → index !! w2 = Some v → w1 = w2))
  ∧ (∀ vocab_size max_len output_path X_train y_train X_test y_test fs,
       let self' :=
         (TensorFlowLSTMStrategy.train X_train y_train X_test y_test
            (TensorFlowLSTMStrategy.init vocab_size max_len output_path, fs)).2.1 in
       let index := Keras.word_index (TensorFlowLSTMStrategy.tokenizer self') in
       index !! "<OOV>" = Some 1
       ∧ (∀ w, is_Some (index !! w) ↔ w = "<OOV>" ∨ w ∈ corpus_words (X_train ++ X_test))
       ∧ (∀ w1 w2 v, index !! w1 = Some v → index !! w2 = Some v → w1 = w2)).
Proof.
  assert (∀ n texts,
    let index := Keras.word_index (Keras.fit_on_texts texts (Keras.Tokenizer_init n "<OOV>")) in
    index !! "<OOV>" = Some 1
    ∧ (∀ w, is_Some (index !! w) ↔ w = "<OOV>" ∨ w ∈ corpus_words texts)
    ∧ (∀ w1 w2 v, index !! w1 = Some v → index !! w2 = Some v → w1 = w2)) as Hfit.
  { intros n texts. cbv zeta.
    pose proof (TokenFacts.Tokenizer_init_well_formed n) as Hwf.
    destruct (TokenFacts.fit_on_texts_index texts _ "<OOV>" Hwf eq_refl) as [H1 _].
    destruct (TokenFacts.fit_on_texts_index_full texts _ "<OOV>" Hwf eq_refl)
      as [Hiff Hinj].
    split_and!; [done| |done].
    intros w. rewrite Hiff. simpl. rewrite elem_of_nil. tauto. }
  split.
  - intros vocab_size embedding_dim hidden_dim max_len output_path
      X_train y_train X_test y_test fs. cbv zeta.
    rewrite (PyTorchMore.pt_train_tokenizer X_train y_train X_test y_test _ fs).
    apply Hfit.
  - intros vocab_size max_len output_path X_train y_train X_test y_test fs. cbv zeta.
    rewrite (TensorFlowMore.tf_train_tokenizer X_train y_train X_test y_test _ fs).
    apply Hfit.
Qed.

(** X20.  What a [save_model] that returned has done, for each
    strategy: the flag was set and the object had its three artifacts;
    the file system is the one before the call with the three
    artifacts at [save_paths] and the ONNX graph of the model at
    [{output_path}/model.onnx], with the directory [models] created by
    the recurrent strategies and the directory of [model.onnx] by the
    TensorFlow and the linear strategy, and nothing else changed; the
    object is as it was, but for the PyTorch network, which is left in
    evaluation mode. *)
Theorem save_model_postcondition :
  (∀ (self self' : PyTorchLSTMStrategy.t) fs fs',
     PyTorchLSTMStrategy.save_model (self, fs) = (Return tt, (self', fs')) →
     ∃ m arts,
       PyTorchLSTMStrategy._is_trained self = true
       ∧ PyTorchLSTMStrategy.model self = Some m
       ∧ PyTorchLSTMStrategy.artifacts self = Some arts
       ∧ self' = PyTorchLSTMStrategy.set_model (Some (Torch.set_training false m)) self
       ∧ fs' = fs_write (fstr_opt (PyTorchLSTMStrategy.output_path self) +:+ "/model.onnx")
                 (OnnxFile (Onnx.torch_onnx_export (Torch.set_training false m)
                              [1; PyTorchLSTMStrategy.max_len self] "input_ids" "output"
                              ["input_ids"; "output"] 17))
                 (fs_write_all (zip (PyTorchLSTMStrategy.save_paths self) arts)
                    (fs_mkdirs "models" fs)))
  ∧ (∀ (self self' : TensorFlowLSTMStrategy.t) fs fs',
       TensorFlowLSTMStrategy.save_model (self, fs) = (Return tt, (self', fs')) →
       ∃ m arts,
         TensorFlowLSTMStrategy._is_trained self = true
         ∧ TensorFlowLSTMStrategy.model self = Some m
         ∧ TensorFlowLSTMStrategy.artifacts self = Some arts
         ∧ self' = self
         ∧ fs' = fs_write
                   (fstr_opt (TensorFlowLSTMStrategy.output_path self) +:+ "/model.onnx")
                   (OnnxFile (Onnx.tf2onnx_from_keras m "input"
                                [Onnx.Dynamic;
                                 Onnx.Fixed (TensorFlowLSTMStrategy.max_len self)] 17))
                   (fs_mkdirs
                      (dirname (fstr_opt (TensorFlowLSTMStrategy.output_path self)
                                +:+ "/model.onnx"))
                      (fs_write_all (zip (TensorFlowLSTMStrategy.save_paths self) arts)
                         (fs_mkdirs "models" fs))))
  ∧ (∀ (self self' : ScikitLearnTFIDFStrategy.t) fs fs',
       ScikitLearnTFIDFStrategy.save_model (self, fs) = (Return tt, (self', fs')) →
       ∃ g arts,
         ScikitLearnTFIDFStrategy._is_trained self = true
         ∧ ScikitLearnTFIDFStrategy.artifacts self = Some arts
         ∧ Onnx.convert_sklearn (ScikitLearnTFIDFStrategy.pipeline self) "input"
             [Onnx.Dynamic] 17 = Return g
         ∧ self' = self
         ∧ fs' = fs_write
                   (fstr_opt (ScikitLearnTFIDFStrategy.output_path self) +:+ "/model.onnx")
                   (OnnxFile g)
                   (fs_mkdirs
                      (dirname (fstr_opt (ScikitLearnTFIDFStrategy.output_path self)
                                +:+ "/model.onnx"))
                      (fs_write_all (zip (ScikitLearnTFIDFStrategy.save_paths self) arts)
                         fs))).
Proof.
  split_and!.
  - intros self self' fs fs'. apply PyTorchMore.pt_save_model_returns.
  - intros self self' fs fs'. apply TensorFlowMore.tf_save_model_returns.
  - intros self self' fs fs'. apply ScikitLearnMore.sk_save_model_returns.
Qed.

(** X21.  The model a [train] that returned leaves in [self.model]
    has one output per class of the training labels: the PyTorch
    network has the shape [_build_model] gives it from the constructor
    arguments and the number of distinct training labels, and is in
    evaluation mode; the Keras model has that many output units and
    inputs of length [max_len]. *)
Theorem trained_model_has_one_output_per_class :
  (∀ X_train y_train X_test y_test (self self' : PyTorchLSTMStrategy.t) fs fs' metrics,
     PyTorchLSTMStrategy.train X_train y_train X_test y_test (self, fs)
       = (Return metrics, (self', fs')) →
     ∃ m, PyTorchLSTMStrategy.model self' = Some m
          ∧ Torch.shape_of m
              = (PyTorchLSTMStrategy.vocab_size self, PyTorchLSTMStrategy.embedding_dim self,
                 PyTorchLSTMStrategy.hidden_dim self,
                 Z.of_nat (length (LabelEncoder.np_unique y_train)))
          ∧ Torch.tc_training m = false)
  ∧ (∀ X_train y_train X_test y_test (self self' : TensorFlowLSTMStrategy.t) fs fs' metrics,
       TensorFlowLSTMStrategy.train X_train y_train X_test y_test (self, fs)
         = (Return metrics, (self', fs')) →
       ∃ m, TensorFlowLSTMStrategy.model self' = Some m
            ∧ KerasModel.output_units m
              = Z.of_nat (length (LabelEncoder.np_unique y_train))
            ∧ KerasModel.input_length m = TensorFlowLSTMStrategy.max_len self).
Proof.
  split.
  - intros X_train y_train X_test y_test self self' fs fs' metrics.
    apply PyTorchMore.pt_train_model.
  - intros X_train y_train X_test y_test self self' fs fs' metrics.
    apply TensorFlowMore.tf_train_model.
Qed.

End postconditions.

Lemma vocabulary_index_is_not_capped_witness :
  is_Some
    (Keras.word_index
       (PyTorchLSTMStrategy.tokenizer
          (PyTorchLSTMStrategy.train Demo.X_train Demo.y_train [] []
             (PyTorchLSTMStrategy.init 2 64 64 30 None, Demo.fs0)).2.1) !! "terrible").
Proof.
  destruct (vocabulary_index_is_not_capped (H:=Toy.backend)) as (Hpt & _).
  destruct (Hpt 2 64 64 30 None Demo.X_train Demo.y_train [] [] Demo.fs0)
    as (_ & Hiff & _).
  apply Hiff. right.
  apply (bool_decide_unpack _). vm_compute. exact I.
Defined.

Lemma save_model_postcondition_witness :
  let r := ScikitLearnTFIDFStrategy.save_model (Demo.sklearn_trained, Demo.fs0) in
  ∃ g arts,
    ScikitLearnTFIDFStrategy._is_trained Demo.sklearn_trained = true
    ∧ ScikitLearnTFIDFStrategy.artifacts Demo.sklearn_trained = Some arts
    ∧ Onnx.convert_sklearn (ScikitLearnTFIDFStrategy.pipeline Demo.sklearn_trained)
        "input" [Onnx.Dynamic] 17 = Return g
    ∧ r.2.1 = Demo.sklearn_trained
    ∧ r.2.2 = fs_write "out/model.onnx" (OnnxFile g)
                (fs_mkdirs (dirname "out/model.onnx")
                   (fs_write_all
                      (zip (ScikitLearnTFIDFStrategy.save_paths Demo.sklearn_trained) arts)
                      Demo.fs0)).
Proof.
  destruct (save_model_postcondition (H:=Toy.backend)) as (_ & _ & Hsk).
  apply (Hsk Demo.sklearn_trained). vm_compute; reflexivity.
Defined.

Lemma trained_model_has_one_output_per_class_witness :
  ∃ m, PyTorchLSTMStrategy.model Demo.pytorch_trained = Some m
       ∧ Torch.shape_of m
           = (PyTorchLSTMStrategy.vocab_size Demo.pytorch_new,
              PyTorchLSTMStrategy.embedding_dim Demo.pytorch_new,
              PyTorchLSTMStrategy.hidden_dim Demo.pytorch_new,
              Z.of_nat (length (LabelEncoder.np_unique Demo.y_train)))
       ∧ Torch.tc_training m = false.
Proof.
  destruct (trained_model_has_one_output_per_class (H:=Toy.backend)) as (Hpt & _).
  apply (Hpt Demo.X_train Demo.y_train Demo.X_train Demo.y_train
           Demo.pytorch_new Demo.pytorch_trained Demo.fs0 Demo.fs0 Demo.metrics).
  vm_compute; reflexivity.
Defined.

